(** * Verification of the RouteUp routing core

    Shallow embedding of the parts of [routeup] that the specification
    describes: the matrix chunker ([routeup/data/client/utils.py]), the
    Google Maps route chunker ([routeup/data/client/gmaps.py]) and the
    route optimizer ([routeup/ml/route_optimizer.py]).  Python integers are
    unbounded and are modelled as [Z]. *)

From Stdlib Require Import ZArith String Ascii List Bool Lia.
Import ListNotations.
Open Scope Z_scope.

(** ** [slice_matrix] (routeup/data/client/utils.py) *)
Module MatrixChunker.

(** The dictionaries [{"start_row", "end_row", "start_col", "end_col"}]
    returned by [slice_matrix]. *)
Record rect := mk_rect {
  start_row : Z;
  end_row : Z;
  start_col : Z;
  end_col : Z
}.

Definition dimension_1 (q : rect) : Z := end_row q - start_row q.
Definition dimension_2 (q : rect) : Z := end_col q - start_col q.
Definition elements (q : rect) : Z := dimension_1 q * dimension_2 q.

(** The two recursive calls of the [else] branch: the longer side is
    halved with [max_length // 2] (floor division, [Z.div]); ties go to
    the rows, since the test is [dimension_1 == max_length]. *)
Definition bisect (q : rect) : rect * rect :=
  let d1 := dimension_1 q in
  let d2 := dimension_2 q in
  let max_length := Z.max d1 d2 in
  let new_length := max_length / 2 in
  if d1 =? max_length then
    (mk_rect (start_row q) (start_row q + new_length) (start_col q) (end_col q),
     mk_rect (start_row q + new_length) (end_row q) (start_col q) (end_col q))
  else
    (mk_rect (start_row q) (end_row q) (start_col q) (start_col q + new_length),
     mk_rect (start_row q) (end_row q) (start_col q + new_length) (end_col q)).

(** Big-step semantics of the (general) recursion of [slice_matrix]:
    [slice_matrix_rel q max_elements l] holds when the call on [q]
    returns [l].  A call that recurses forever has no result. *)
Inductive slice_matrix_rel : rect -> Z -> list rect -> Prop :=
| slice_base : forall q max_elements,
    elements q <= max_elements ->
    slice_matrix_rel q max_elements [q]
| slice_split : forall q max_elements a b la lb,
    max_elements < elements q ->
    bisect q = (a, b) ->
    slice_matrix_rel a max_elements la ->
    slice_matrix_rel b max_elements lb ->
    slice_matrix_rel q max_elements (la ++ lb).

(** The same function, executable, with a recursion-depth budget
    ([None] when the budget runs out). *)
Fixpoint slice_fuel (fuel : nat) (q : rect) (max_elements : Z)
  : option (list rect) :=
  match fuel with
  | O => None
  | S fuel' =>
      if elements q <=? max_elements then Some [q]
      else
        let (a, b) := bisect q in
        match slice_fuel fuel' a max_elements with
        | None => None
        | Some top =>
            match slice_fuel fuel' b max_elements with
            | None => None
            | Some down => Some (top ++ down)
            end
        end
  end.

Definition slice_matrix (fuel : nat) (start_row end_row start_col end_col
  max_elements : Z) : option (list rect) :=
  slice_fuel fuel (mk_rect start_row end_row start_col end_col) max_elements.

(** Membership of the cell [(r, c)] in a rectangle. *)
Definition in_rect (q : rect) (r c : Z) : bool :=
  (start_row q <=? r) && (r <? end_row q) &&
  (start_col q <=? c) && (c <? end_col q).

(** Number of rectangles of [l] that contain the cell [(r, c)]. *)
Definition cover_count (l : list rect) (r c : Z) : nat :=
  length (filter (fun q => in_rect q r c) l).

(** [l] tiles [q]: every cell of [q] lies in exactly one rectangle of
    [l] (union is [q], no two rectangles overlap) and no cell outside
    [q] lies in any rectangle of [l]. *)
Definition tiles (l : list rect) (q : rect) : Prop :=
  forall r c, cover_count l r c = if in_rect q r c then 1%nat else 0%nat.

End MatrixChunker.

(** ** Decimal rendering of integers, as Python's [f"{n}"] *)
Module PyStr.

Fixpoint digits (fuel : nat) (n : Z) (acc : string) : string :=
  match fuel with
  | O => acc
  | S fuel' =>
      let acc' := String (ascii_of_nat (48 + Z.to_nat (n mod 10))) acc in
      if n <? 10 then acc' else digits fuel' (n / 10) acc'
  end.

Definition str_of_Z (n : Z) : string :=
  if n <? 0 then append "-" (digits (Pos.size_nat (Z.to_pos (- n))) (- n) EmptyString)
  else digits (S (Pos.size_nat (Z.to_pos n))) n EmptyString.

End PyStr.

(** ** [GoogleMaps.get_route] and [ValhallaClient.get_route]
    (routeup/data/client/gmaps.py, routeup/data/client/valhalla.py) *)
Module Cartography.

Inductive error :=
| InvalidRequestFormat (msg : string)
| InvalidResponseFormat (msg : string).

(** [schemas.CartographyRoute]. *)
Record cart_route := mk_cart_route {
  coordinates : list (Z * Z);
  times : list Z;
  distances : list Z
}.

Section Google.

(** Stops, as passed through [_prepare_stops]. *)
Context {A : Type}.

(** The request dictionaries of [_prepare_request_route]. *)
Inductive request :=
| Req_od (origin destination : A) (mode : string)
| Req_wp (origin destination : A) (waypoints : list A) (mode : string).

(** Python [stops[start:end]] for [0 <= start]. *)
Definition py_slice (start stop : Z) (l : list A) : list A :=
firstn (Z.to_nat stop - Z.to_nat start) (skipn (Z.to_nat start) l).

(** [GoogleMaps._prepare_request_route]. *)
Definition _prepare_request_route (max_route_stops : Z) (stops : list A)
(costing : string) : error + request :=
let n := Z.of_nat (length stops) in
match stops with
| [] | [_] => inl (InvalidRequestFormat "At least two stops are required")
| [o; d] => inr (Req_od o d costing)
| o :: rest =>
  if n <=? max_route_stops then
    inr (Req_wp o (last rest o) (removelast rest) costing)
  else
    inl (InvalidRequestFormat
           (append "Maximum number of stops is " (PyStr.str_of_Z max_route_stops)))
end.

(** [GoogleMaps._combine_routes]. *)
Definition _combine_routes (routes : list cart_route) : cart_route :=
mk_cart_route (flat_map coordinates routes) (flat_map times routes)
(flat_map distances routes).

(** [self.client.directions] on the request followed by
[_parse_route_response]: the network call, which may fail with a
response-format error. *)
Variable directions : request -> error + cart_route.

(** The [while] loop of [GoogleMaps.get_route].  The result pairs the
requests sent to the network, in order, with the outcome (an error
raised, or the combined route).  [None] only if the iteration budget
runs out. *)
Fixpoint get_route_loop (fuel : nat) (max_route_stops : Z) (stops : list A)
(costing : string) (start_idx end_idx : Z) (calls : list request)
(routes : list cart_route) : option (list request * (error + cart_route)) :=
match fuel with
| O => None
| S fuel' =>
  let L := Z.of_nat (length stops) in
  if (end_idx <=? L) && (start_idx <? L - 1) then
    match _prepare_request_route max_route_stops
            (py_slice start_idx end_idx stops) costing with
    | inl e => Some (calls, inl e)
    | inr req =>
        let calls' := calls ++ [req] in
        match directions req with
        | inl e => Some (calls', inl e)
        | inr r =>
            get_route_loop fuel' max_route_stops stops costing
              (end_idx - 1) (Z.min (end_idx + max_route_stops) L)
              calls' (routes ++ [r])
        end
    end
  else Some (calls, inr (_combine_routes routes))
end.

(** [GoogleMaps.get_route] ([costing] already defaulted).  The loop runs
at most [len(stops)] times. *)
Definition get_route (max_route_stops : Z) (stops : list A) (costing : string)
: option (list request * (error + cart_route)) :=
get_route_loop (S (length stops)) max_route_stops stops costing
0 (Z.min (Z.of_nat (length stops)) max_route_stops) [] [].

End Google.

Arguments request : clear implicits.

(** The stops a request carries, in order: origin, waypoints, destination. *)
Definition request_stops {A : Type} (r : request A) : list A :=
  match r with
  | Req_od o d _ => [o; d]
  | Req_wp o d waypoints _ => o :: waypoints ++ [d]
  end.

(** The ["mode"] entry of a request. *)
Definition request_mode {A : Type} (r : request A) : string :=
  match r with
  | Req_od _ _ mode => mode
  | Req_wp _ _ _ mode => mode
  end.

(** [ValhallaClient.get_route]: one request [{"locations", "costing"}] to
    the [route] service, whatever the number of stops. *)
Record valhalla_request (A : Type) := mk_valhalla_request {
  locations : list A;
  v_costing : string
}.

Definition valhalla_get_route {A : Type}
  (call_api : valhalla_request A -> error + cart_route)
  (stops : list A) (costing : string)
  : list (valhalla_request A) * (error + cart_route) :=
  let data := mk_valhalla_request A stops costing in
  ([data], call_api data).

(** Fifty-four stops, identified by their positions. *)
Definition stops54 : list Z := map Z.of_nat (seq 0 54).

End Cartography.

(** ** [RouteOptimizer] (routeup/ml/route_optimizer.py) *)
Module RouteOptimizer.

Inductive RouteMode := INBOUND | OUTBOUND.

(** [schemas.Fleet]. *)
Record Fleet := mk_fleet { capacity : Z; number_of_vehicles : Z }.

(** A numpy time matrix, as its rows. *)
Definition matrix := list (list Z).

(** Python objects the optimizer shares with its caller: a heap of
    matrices; a location is an object identity. *)
Definition loc := nat.
Definition heap := list matrix.

Definition heap_get (h : heap) (l : loc) : matrix := nth l h [].

Fixpoint heap_set (h : heap) (l : loc) (m : matrix) : heap :=
  match h, l with
  | [], _ => []
  | _ :: h', O => m :: h'
  | x :: h', S l' => x :: heap_set h' l' m
  end.

(** [schemas.RouteOptimizerInput]; [time_matrix] is the caller's object. *)
Record RouteOptimizerInput := mk_input {
  in_mode : RouteMode;
  in_time_matrix : loc;
  in_fleet : list Fleet;
  in_demands : list Z;
  in_max_travel_time : Z;
  in_slack_time : Z
}.

Inductive py_error := IndexError | ValueError.

(** numpy [time_matrix[0, :] = v] on a two-dimensional array. *)
Definition set_row0 (m : matrix) (v : Z) : option matrix :=
  match m with
  | [] => None
  | r :: rs => Some (map (fun _ => v) r :: rs)
  end.

Fixpoint set_col0_rows (m : matrix) (v : Z) : option matrix :=
  match m with
  | [] => Some []
  | r :: rs =>
      match r, set_col0_rows rs v with
      | _ :: xs, Some rs' => Some ((v :: xs) :: rs')
      | _, _ => None
      end
  end.

(** numpy [time_matrix[:, 0] = v] on a two-dimensional array. *)
Definition set_col0 (m : matrix) (v : Z) : option matrix :=
  match m with
  | [] => None
  | _ => set_col0_rows m v
  end.

(** [np.array(time_matrix)] on a list of rows: a copy with the same
    entries; rows of different lengths raise [ValueError] (an
    inhomogeneous shape). *)
Definition np_array_matrix (m : matrix) : option matrix :=
  match m with
  | [] => Some []
  | r :: rs =>
      if forallb (fun r' => Nat.eqb (length r') (length r)) rs then Some m else None
  end.

(** Python [max] of a list; [ValueError] on the empty list. *)
Definition py_max (l : list Z) : option Z :=
  match l with
  | [] => None
  | x :: xs => Some (fold_left Z.max xs x)
  end.

Definition py_range1 (n : Z) : list Z := map Z.of_nat (seq 1 (Z.to_nat n)).

(** [[item.capacity for item in fleet for _ in range(item.number_of_vehicles)]]. *)
Definition fleet_capacities (fleet : list Fleet) : list Z :=
  flat_map (fun item => repeat (capacity item) (Z.to_nat (number_of_vehicles item)))
    fleet.

(** The dictionary returned by [_create_data_model]; its [time_matrix]
    is the optimizer's matrix object itself. *)
Record data_model := mk_data {
  dm_time_matrix : loc;
  dm_demands : list Z;
  dm_vehicle_capacities : list Z;
  dm_num_vehicles : Z;
  dm_depot : Z;
  dm_max_travel_time : Z
}.

(** [pywrapcp.RoutingIndexManager(len(time_matrix), num_vehicles, depot)]. *)
Record manager := mk_manager {
  mg_num_nodes : Z;
  mg_num_vehicles : Z;
  mg_depot : Z
}.

(** [pywrapcp.RoutingModel] as configured by [_set_routing]: the data and
    manager it reads, the fixed cost of every vehicle and the
    [slack_time] its [time_callback] adds to every arc. *)
Record routing := mk_routing {
  rt_manager : manager;
  rt_data : data_model;
  rt_vehicle_penalty : Z;
  rt_slack_time : Z
}.

(** [time_callback] of [_set_routing], on node indices:
    [data["time_matrix"][from_node][to_node] + slack_time], read from the
    matrix object as it is when the solver calls it. *)
Definition time_callback (h : heap) (r : routing) (from_node to_node : Z) : Z :=
  nth (Z.to_nat to_node)
      (nth (Z.to_nat from_node) (heap_get h (dm_time_matrix (rt_data r))) []) 0
  + rt_slack_time r.

Inductive first_solution_strategy := PATH_CHEAPEST_ARC.
Inductive local_search_metaheuristic := GUIDED_LOCAL_SEARCH.

Record search_parameters := mk_params {
  sp_first_solution_strategy : first_solution_strategy;
  sp_local_search_metaheuristic : option local_search_metaheuristic;
  sp_time_limit_seconds : option Z
}.

(** One step of a vehicle's path in a solution: the node of the index,
    [solution.Min] of its [Time] cumul, and
    [routing.GetArcCostForVehicle] from it to its successor. *)
Record step := mk_step { st_node : Z; st_cumul : Z; st_arc : Z }.

(** The path of a vehicle from [routing.Start(vehicle_id)], whose node is
    the depot, to (excluded) [routing.End(vehicle_id)]. *)
Record vehicle_walk := mk_walk {
  start_cumul : Z;
  start_arc : Z;
  visits : list step
}.

(** A solution of [SolveWithParameters], per vehicle. *)
Definition Solution := Z -> vehicle_walk.

(** Observable effects: routing models built, solver invocations. *)
Inductive event :=
| EvSetRouting (r : routing)
| EvSolve (r : routing) (p : search_parameters).

Record world := mk_world { w_heap : heap; w_trace : list event }.

(** State and error monad over the world. *)
Definition M (A : Type) := world -> (py_error + A) * world.

Definition ret {A} (a : A) : M A := fun w => (inr a, w).
Definition raise {A} (e : py_error) : M A := fun w => (inl e, w).
Definition bind {A B} (c : M A) (k : A -> M B) : M B :=
  fun w => match c w with
           | (inl e, w') => (inl e, w')
           | (inr a, w') => k a w'
           end.

Notation "'let*' x ':=' c 'in' k" := (bind c (fun x => k))
  (at level 200, x name, c at level 100, k at level 200).

Definition get_heap : M heap := fun w => (inr (w_heap w), w).
Definition put_heap (h : heap) : M unit :=
  fun w => (inr tt, mk_world h (w_trace w)).
Definition emit (e : event) : M unit :=
  fun w => (inr tt, mk_world (w_heap w) (w_trace w ++ [e])).
Definition lift_opt {A} (e : py_error) (o : option A) : M A :=
  match o with Some a => ret a | None => raise e end.

(** [schemas.RouteStop], [schemas.Route], [schemas.RouteOptimizerOutput],
    [schemas.GridSearchOutput]. *)
Record RouteStop := mk_stop {
  stop_id : Z;
  stop_demand : Z;
  vehicle_occupancy : option Z;
  travel_time : Z
}.

Record Route := mk_route {
  vehicle_capacity : Z;
  vehicle_travel_occupancy : Z;
  vehicle_travel_time : Z;
  route_stops : list RouteStop
}.

Record RouteOptimizerOutput := mk_output {
  out_max_travel_time : Z;
  out_routes : list Route;
  out_slack_time : Z
}.

Record GridSearchOutput := mk_gs_output {
  extra_time : Z;
  extra_vehicles : Fleet;
  message : string
}.

(** The attributes set by [RouteOptimizer.__init__] from its input. *)
Record config := mk_config {
  mode : RouteMode;
  time_matrix : loc;
  fleet : list Fleet;
  demands : list Z;
  max_travel_time : Z;
  slack_time : Z;
  vehicle_penalty : Z
}.

(** A [RouteOptimizer] object: its configuration and its current
    [self.data], [self.manager] and [self.routing]. *)
Record optimizer := mk_optimizer {
  o_cfg : config;
  o_data : data_model;
  o_manager : manager;
  o_routing : routing
}.

(** Default [slack_time] of [_set_routing]. *)
Definition default_slack_time : Z := 120.

Definition newline : string := String (ascii_of_nat 10) EmptyString.

(** [" or ".join(message)]. *)
Fixpoint join (sep : string) (l : list string) : string :=
  match l with
  | [] => EmptyString
  | [x] => x
  | x :: xs => append x (append sep (join sep xs))
  end.

Definition no_solution_message : string :=
  "No solution found with extra vehicles or extra time.".

(** The depot-axis assignment of [_create_data_model]:
    [time_matrix[0, :] = -slack_time] for INBOUND,
    [time_matrix[:, 0] = -slack_time] otherwise. *)
Definition depot_adjust (md : RouteMode) (slack_time : Z) (m : matrix)
  : option matrix :=
  match md with
  | INBOUND => set_row0 m (- slack_time)
  | OUTBOUND => set_col0 m (- slack_time)
  end.

(** The solver invocations recorded in a trace, in order. *)
Fixpoint solver_calls (tr : list event) : list routing :=
  match tr with
  | [] => []
  | EvSolve r _ :: tr' => r :: solver_calls tr'
  | _ :: tr' => solver_calls tr'
  end.

Section Optimizer.

(** [self.routing.SolveWithParameters(search_parameters)]: the external
solver; it reads the matrix object through [time_callback] when it
runs. *)
Variable SolveWithParameters : heap -> routing -> search_parameters -> option Solution.

(** [config.APP_CONFIG.grid_search_time_limit]. *)
Variable grid_search_time_limit : Z.

(** [RouteOptimizer._create_data_model]. *)
Definition _create_data_model (c : config) (extra_vehicles extra_max_travel_time : Z)
: M data_model :=
let* h := get_heap in
let* m := lift_opt IndexError
          (depot_adjust (mode c) (slack_time c) (heap_get h (time_matrix c))) in
let* _ := put_heap (heap_set h (time_matrix c) m) in
let vehicle_capacities := fleet_capacities (fleet c) in
let* max_capacity := lift_opt ValueError (py_max vehicle_capacities) in
let vehicle_capacities :=
vehicle_capacities ++ repeat max_capacity (Z.to_nat extra_vehicles) in
ret (mk_data (time_matrix c) (demands c) vehicle_capacities
     (Z.of_nat (length vehicle_capacities)) 0
     (max_travel_time c + extra_max_travel_time)).

(** [RouteOptimizer._set_manager]. *)
Definition _set_manager (d : data_model) : M manager :=
let* h := get_heap in
ret (mk_manager (Z.of_nat (length (heap_get h (dm_time_matrix d))))
     (dm_num_vehicles d) (dm_depot d)).

(** [RouteOptimizer._set_routing]. *)
Definition _set_routing (d : data_model) (mg : manager)
(vehicle_penalty slack_time : Z) : M routing :=
let r := mk_routing mg d vehicle_penalty slack_time in
let* _ := emit (EvSetRouting r) in
ret r.

(** [RouteOptimizer.__init__]: [np.array] copies the caller's matrix into
a fresh object, or raises [ValueError] on a ragged matrix. *)
Definition __init__ (input : RouteOptimizerInput) (vehicle_penalty : Z)
: M optimizer :=
let* h := get_heap in
let* copy := lift_opt ValueError (np_array_matrix (heap_get h (in_time_matrix input))) in
let* _ := put_heap (h ++ [copy]) in
let c := mk_config (in_mode input) (length h) (in_fleet input)
         (in_demands input) (in_max_travel_time input)
         (in_slack_time input) vehicle_penalty in
let* d := _create_data_model c 0 0 in
let* mg := _set_manager d in
let* r := _set_routing d mg vehicle_penalty (slack_time c) in
ret (mk_optimizer c d mg r).

Definition solve (r : routing) (p : search_parameters) : M (option Solution) :=
fun w => (inr (SolveWithParameters (w_heap w) r p),
        mk_world (w_heap w) (w_trace w ++ [EvSolve r p])).

Definition demand_of (d : data_model) (node : Z) : Z :=
nth (Z.to_nat node) (dm_demands d) 0.

(** The [while not routing.IsEnd(index)] walk of [_extract_output]:
stops, accumulated arc cost and load. *)
Definition walk_step (d : data_model) (acc : list RouteStop * Z * Z) (s : step)
: list RouteStop * Z * Z :=
let '(route_stops, route_time, route_load) := acc in
let node_index := st_node s in
(route_stops ++ [mk_stop node_index (demand_of d node_index) None (st_cumul s)],
 route_time + st_arc s,
 route_load + demand_of d node_index).

Definition walk_vehicle (d : data_model) (steps : list step)
: list RouteStop * Z * Z :=
fold_left (walk_step d) steps ([], 0, 0).

(** The body of the [for vehicle_id] loop of [_extract_output]. *)
Definition extract_route (o : optimizer) (solution : Solution) (vehicle_id : Z)
: Route :=
let d := o_data o in
let w := solution vehicle_id in
let steps := mk_step (mg_depot (o_manager o)) (start_cumul w) (start_arc w)
             :: visits w in
let '(route_stops, route_time, route_load) := walk_vehicle d steps in
let route_time :=
if route_time >? 0 then route_time - vehicle_penalty (o_cfg o) else route_time in
let route_stops :=
match mode (o_cfg o) with
| INBOUND => tl route_stops ++ [mk_stop 0 0 (Some route_load) route_time]
| OUTBOUND => route_stops
end in
mk_route (nth (Z.to_nat vehicle_id) (dm_vehicle_capacities d) 0)
route_load route_time route_stops.

(** [RouteOptimizer._extract_output]. *)
Definition _extract_output (o : optimizer) (solution : Solution)
: RouteOptimizerOutput :=
let d := o_data o in
mk_output (dm_max_travel_time d)
(map (extract_route o solution)
     (map Z.of_nat (seq 0 (Z.to_nat (dm_num_vehicles d)))))
(slack_time (o_cfg o)).

(** [RouteOptimizer.optimizer_solver]. *)
Definition optimizer_solver (o : optimizer) (local_search : bool) (max_time : Z)
: M RouteOptimizerOutput :=
let p := mk_params PATH_CHEAPEST_ARC
         (if local_search then Some GUIDED_LOCAL_SEARCH else None)
         (if local_search then Some max_time else None) in
let* solution := solve (o_routing o) p in
match solution with
| Some s => ret (_extract_output o s)
| None => ret (mk_output 0 [] 0)
end.

Definition grid_search_parameters : search_parameters :=
mk_params PATH_CHEAPEST_ARC None (Some grid_search_time_limit).

(** The rebuild of [self.data], [self.manager] and [self.routing] in
[_grid_search_solver]; [_set_routing] is called without
[slack_time]. *)
Definition rebuild (o : optimizer) (extra_vehicles extra_max_travel_time : Z)
: M optimizer :=
let* d := _create_data_model (o_cfg o) extra_vehicles extra_max_travel_time in
let* mg := _set_manager d in
let* r := _set_routing d mg (vehicle_penalty (o_cfg o)) default_slack_time in
ret (mk_optimizer (o_cfg o) d mg r).

(** The extra-time loop: the first [i] that solves, if any. *)
Fixpoint extra_time_loop (o : optimizer) (is : list Z) : M (optimizer * option Z) :=
match is with
| [] => ret (o, None)
| i :: is' =>
  let* o' := rebuild o 0 (i * 60) in
  let* solution := solve (o_routing o') grid_search_parameters in
  match solution with
  | Some _ => ret (o', Some i)
  | None => extra_time_loop o' is'
  end
end.

(** The extra-vehicle loop: the first [i] that solves, if any. *)
Fixpoint extra_vehicle_loop (o : optimizer) (is : list Z) : M (optimizer * option Z) :=
match is with
| [] => ret (o, None)
| i :: is' =>
  let* o' := rebuild o i 0 in
  let* solution := solve (o_routing o') grid_search_parameters in
  match solution with
  | Some _ => ret (o', Some i)
  | None => extra_vehicle_loop o' is'
  end
end.

(** [RouteOptimizer._grid_search_solver]; returns the optimizer as left
in [self]. *)
Definition _grid_search_solver (o : optimizer)
(iter_max_extra_time iter_max_extra_vehicle : Z)
: M (optimizer * GridSearchOutput) :=
let* r1 := extra_time_loop o (py_range1 iter_max_extra_time) in
let '(o1, found_time) := r1 in
let message1 :=
match found_time with
| Some i => [append "Solution can be found with "
               (append (PyStr.str_of_Z i) " minutes more of extra time")]
| None => []
end in
let extra_time := match found_time with Some i => i * 60 | None => 0 end in
let* r2 := extra_vehicle_loop o1 (py_range1 iter_max_extra_vehicle) in
let '(o2, found_vehicles) := r2 in
let* vehicles_and_message :=
match found_vehicles with
| Some i =>
    let* mx := lift_opt ValueError (py_max (fleet_capacities (fleet (o_cfg o2)))) in
    ret (mk_fleet mx i,
         message1 ++ [append "Solution can be found with "
                        (append (PyStr.str_of_Z i)
                           (append " vehicle/s more " newline))])
| None => ret (mk_fleet 0 0, message1)
end in
let '(extra_vehicles, message) := vehicles_and_message in
let message := match message with [] => [no_solution_message] | _ => message end in
let* o3 := rebuild o2 0 0 in
ret (o3, mk_gs_output extra_time extra_vehicles (join " or " message)).

(** [RouteOptimizer.grid_search]. *)
Definition grid_search (o : optimizer) : M (optimizer * GridSearchOutput) :=
let* solution := solve (o_routing o) grid_search_parameters in
match solution with
| Some _ => ret (o, mk_gs_output 0 (mk_fleet 0 0) "Solution found without grid search")
| None => _grid_search_solver o 3 3
end.

End Optimizer.

(** The optimizer's matrix object is already adjusted and its fleet has a
    vehicle: the state [__init__] leaves and every rebuild preserves. *)
Definition fixed_world (c : config) (h : heap) : Prop :=
  depot_adjust (mode c) (slack_time c) (heap_get h (time_matrix c)) =
    Some (heap_get h (time_matrix c)) /\
  fleet_capacities (fleet c) <> [].

(** The vehicle count and the time budget of a routing model. *)
Definition model_size (r : routing) : Z * Z :=
  (dm_num_vehicles (rt_data r), dm_max_travel_time (rt_data r)).

(** Whether the [j]-th solver invocation recorded in a trace finds a
    solution, for a solver that reads the heap [h] and gets the
    parameters [p]. *)
Definition solved_at (solver : heap -> routing -> search_parameters -> option Solution)
  (h : heap) (p : search_parameters) (tr : list event) (j : nat) : bool :=
  match nth_error (solver_calls tr) j with
  | Some r => match solver h r p with Some _ => true | None => false end
  | None => false
  end.

End RouteOptimizer.

(** ** Concrete inputs *)
Module Examples.
Import RouteOptimizer.

(** An INBOUND problem on two nodes, one vehicle of capacity 10,
    [slack_time = 60]; the caller's matrix is object 0. *)
Definition example_input : RouteOptimizerInput :=
  mk_input INBOUND 0%nat [mk_fleet 10 1] [0; 1] 10 60.

Definition example_world : world := mk_world [[[0; 5]; [5; 0]]] [].

(** A solver that finds no solution. *)
Definition never_solves : heap -> routing -> search_parameters -> option Solution :=
  fun _ _ _ => None.

(** A solver whose vehicle 0 visits node 1. *)
Definition one_visit : Solution :=
  fun _ => mk_walk 0 10060 [mk_step 1 0 0].

Definition example_optimizer : optimizer :=
  match __init__ example_input 10000 example_world with
  | (inr o, _) => o
  | (inl _, _) => mk_optimizer (mk_config INBOUND 0%nat [] [] 0 0 0)
                    (mk_data 0%nat [] [] 0 0 0) (mk_manager 0 0 0)
                    (mk_routing (mk_manager 0 0 0) (mk_data 0%nat [] [] 0 0 0) 0 0)
  end.

Definition example_world1 : world := snd (__init__ example_input 10000 example_world).

End Examples.

(** ** Response parsing and matrix assembly of the cartography clients
    (routeup/data/client/gmaps.py, routeup/data/client/valhalla.py) *)
Module Clients.
Import MatrixChunker.

(** The exceptions that leave these methods.  [ValueError] is numpy's
    shape error, [ValidationError] pydantic's; [ApiError] stands for what
    the network layer ([googlemaps], [requests]) raises. *)
Inductive exn :=
| InvalidResponseFormat (msg : string)
| KeyError (key : string)
| IndexError
| ValueError
| ValidationError
| RecursionError
| ApiError.

Definition ebind {X Y : Type} (c : exn + X) (k : X -> exn + Y) : exn + Y :=
  match c with
  | inl e => inl e
  | inr x => k x
  end.

Notation "'let?' x ':=' c 'in' k" := (ebind c (fun x => k))
  (at level 200, x name, c at level 100, k at level 200).

(** [d[key]] on a key that may be absent. *)
Definition get {X : Type} (key : string) (o : option X) : exn + X :=
  match o with
  | Some v => inr v
  | None => inl (KeyError key)
  end.

(** [l[i]] on a list. *)
Definition lookup {X : Type} (l : list X) (i : nat) : exn + X :=
  match nth_error l i with
  | Some v => inr v
  | None => inl IndexError
  end.

(** [except KeyError as e: raise InvalidResponseFormat(f"{e}") from e]:
    [str] of a [KeyError] is the key between single quotes. *)
Definition wrap_key_error {X : Type} (c : exn + X) : exn + X :=
  match c with
  | inl (KeyError k) => inl (InvalidResponseFormat ("'" ++ k ++ "'")%string)
  | _ => c
  end.

(** A list comprehension whose body may raise: evaluated left to right,
    the first exception escapes. *)
Fixpoint emap {X Y : Type} (f : X -> exn + Y) (l : list X) : exn + list Y :=
  match l with
  | [] => inr []
  | x :: rest =>
      let? y := f x in
      let? ys := emap f rest in
      inr (y :: ys)
  end.

(** Python's normalisation of a slice bound [s] on an axis of length [n]. *)
Definition py_clip (n s : Z) : Z :=
  if s <? 0 then Z.max 0 (s + n) else Z.min s n.

(** [l[s:e]]. *)
Definition py_list_slice {X : Type} (s e : Z) (l : list X) : list X :=
  let n := Z.of_nat (length l) in
  let s' := py_clip n s in
  let e' := py_clip n e in
  firstn (Z.to_nat (e' - s')) (skipn (Z.to_nat s') l).

Section Numbers.

(** Numbers (Python floats from the JSON responses) are left abstract:
    only [0.0], multiplication and the NaN test are used. *)
Context {num : Type}.
Variable zero : num.
Variable mul : num -> num -> num.
Variable is_nan : num -> bool.

(** [polyline.decode] at the client's precision. *)
Variable decode : string -> exn + list (num * num).

(** [pydantic_extra_types.coordinate.Coordinate(latitude, longitude)]:
    validated ranges. *)
Variable valid_coordinate : num -> num -> bool.

(** A two-dimensional numpy array: its shape and its entries. *)
Record array2 := mk_array2 {
  a_rows : nat;
  a_cols : nat;
  a_at : nat -> nat -> num
}.

(** [np.zeros((n, m))]. *)
Definition zeros (n m : nat) : array2 := mk_array2 n m (fun _ _ => zero).

(** [np.array(rows)] on a list of rows of numbers: rows of different
    lengths raise [ValueError] (an inhomogeneous shape).  The callers
    never pass an empty list. *)
Definition np_array (rows : list (list num)) : exn + array2 :=
  match rows with
  | [] => inr (zeros 0 0)
  | r0 :: _ =>
      if forallb (fun r => Nat.eqb (length r) (length r0)) rows then
        inr (mk_array2 (length rows) (length r0) (fun i j => nth j (nth i rows []) zero))
      else inl ValueError
  end.

(** [a[sr:er, sc:ec] = v]: the slices are clipped to the shape, and [v]
    must broadcast to the block (each of its dimensions equal to the
    block's or 1), otherwise [ValueError]. *)
Definition setitem_block (a : array2) (sr er sc ec : Z) (v : array2) : exn + array2 :=
  let r0 := py_clip (Z.of_nat (a_rows a)) sr in
  let r1 := py_clip (Z.of_nat (a_rows a)) er in
  let c0 := py_clip (Z.of_nat (a_cols a)) sc in
  let c1 := py_clip (Z.of_nat (a_cols a)) ec in
  if ((Z.of_nat (a_rows v) =? Z.max 0 (r1 - r0)) || Nat.eqb (a_rows v) 1) &&
     ((Z.of_nat (a_cols v) =? Z.max 0 (c1 - c0)) || Nat.eqb (a_cols v) 1) then
    inr (mk_array2 (a_rows a) (a_cols a) (fun i j =>
      if (r0 <=? Z.of_nat i) && (Z.of_nat i <? r1) &&
         (c0 <=? Z.of_nat j) && (Z.of_nat j <? c1) then
        a_at v (if Nat.eqb (a_rows v) 1 then 0%nat else Z.to_nat (Z.of_nat i - r0))
               (if Nat.eqb (a_cols v) 1 then 0%nat else Z.to_nat (Z.of_nat j - c0))
      else a_at a i j))
  else inl ValueError.

(** [a[i, j] = v] for [i, j >= 0]. *)
Definition setitem (a : array2) (i j : nat) (v : num) : exn + array2 :=
  if Nat.ltb i (a_rows a) && Nat.ltb j (a_cols a) then
    inr (mk_array2 (a_rows a) (a_cols a) (fun i' j' =>
      if Nat.eqb i' i && Nat.eqb j' j then v else a_at a i' j'))
  else inl IndexError.

(** [schemas.CartographyRoute(coordinates=..., times=..., distances=...)]
    and its two validators. *)
Record route := mk_route {
  r_coordinates : list (num * num);
  r_times : list num;
  r_distances : list num
}.

Definition CartographyRoute (coordinates : list (num * num)) (times distances : list num)
  : exn + route :=
  if existsb is_nan times || existsb is_nan distances then inl ValidationError
  else if Nat.eqb (length times) (length distances) then
    inr (mk_route coordinates times distances)
  else inl ValidationError.

(** *** Google Maps *)

(** A matrix element or a route leg: its ["duration"] and ["distance"]
    entries, each an absent key or a dictionary whose ["value"] may be
    absent. *)
Record g_entry := mk_g_entry {
  duration : option (option num);
  distance : option (option num)
}.

(** A route of a directions response: ["overview_polyline"] (whose
    ["points"] may be absent) and ["legs"]. *)
Record g_route := mk_g_route {
  overview_polyline : option (option string);
  g_legs : option (list g_entry)
}.

(** A distance-matrix response: ["rows"], each row with ["elements"]. *)
Definition g_matrix_response := option (list (option (list g_entry))).

(** [GoogleMaps._parse_route_response]. *)
Definition g_parse_route_response (factor : num) (response : list g_route)
  : exn + route :=
  let? r := lookup response 0 in
  match overview_polyline r, g_legs r with
  | Some pl, Some legs =>
      let? encoded_polyline := get "points" pl in
      let? coordinates := decode encoded_polyline in
      let? td := wrap_key_error (
        let? times := emap (fun leg =>
                              let? d := get "duration" (duration leg) in
                              get "value" d) legs in
        let? distances := emap (fun leg =>
                                  let? d := get "distance" (distance leg) in
                                  let? v := get "value" d in
                                  inr (mul v factor)) legs in
        inr (times, distances)) in
      CartographyRoute coordinates (fst td) (snd td)
  | _, _ =>
      inl (InvalidResponseFormat "'overview_polyline' or 'legs' not found in response")
  end.

(** One element of [GoogleMaps._parse_matrix_response]: its duration
    and its converted distance. *)
Definition g_parse_element (factor : num) (element : g_entry) : exn + (num * num) :=
  match duration element, distance element with
  | Some d, Some s =>
      let? t := get "value" d in
      let? v := get "value" s in
      inr (t, mul v factor)
  | _, _ =>
      inl (InvalidResponseFormat "'duration' or 'distance' not found in an element")
  end.

Definition g_parse_row (factor : num) (row : option (list g_entry))
  : exn + (list num * list num) :=
  match row with
  | None => inl (InvalidResponseFormat "'elements' not found in a row")
  | Some elements =>
      let? cells := emap (g_parse_element factor) elements in
      inr (map fst cells, map snd cells)
  end.

(** [GoogleMaps._parse_matrix_response]: the time and distance arrays. *)
Definition g_parse_matrix_response (factor : num) (response : g_matrix_response)
  : exn + (array2 * array2) :=
  match response with
  | None => inl (InvalidResponseFormat "Invalid response format: 'rows' not found")
  | Some [] => inl (InvalidResponseFormat "No rows in response")
  | Some rows =>
      let? parsed := emap (g_parse_row factor) rows in
      let? time_matrix := np_array (map fst parsed) in
      let? distance_matrix := np_array (map snd parsed) in
      inr (time_matrix, distance_matrix)
  end.

Section GoogleMatrix.

(** Stops, as passed through [_prepare_stops]. *)
Context {A : Type}.

(** [self.client.distance_matrix(origins=..., destinations=..., mode=...)]. *)
Variable distance_matrix_api : list A -> list A -> string -> exn + g_matrix_response.

(** The loop of [GoogleMaps.get_matrix] over the slices.  The result
    pairs the calls made to the API (origins, destinations, mode), in
    order, with the outcome. *)
Fixpoint get_matrix_loop (factor : num) (stops : list A) (costing : string)
  (slices : list rect) (calls : list (list A * list A * string))
  (time_matrix distance_matrix : array2)
  : list (list A * list A * string) * (exn + (array2 * array2)) :=
  match slices with
  | [] => (calls, inr (time_matrix, distance_matrix))
  | q :: rest =>
      let origin_stops := py_list_slice (start_row q) (end_row q) stops in
      let destination_stops := py_list_slice (start_col q) (end_col q) stops in
      let calls' := calls ++ [(origin_stops, destination_stops, costing)] in
      match
        let? response := distance_matrix_api origin_stops destination_stops costing in
        let? m := g_parse_matrix_response factor response in
        let? tm := setitem_block time_matrix (start_row q) (end_row q)
                     (start_col q) (end_col q) (fst m) in
        let? dm := setitem_block distance_matrix (start_row q) (end_row q)
                     (start_col q) (end_col q) (snd m) in
        inr (tm, dm)
      with
      | inl e => (calls', inl e)
      | inr (tm, dm) =>
          get_matrix_loop factor stops costing rest calls' tm dm
      end
  end.

(** [GoogleMaps.get_matrix] ([costing] already defaulted).  The slices
    come from [slice_matrix(0, n, 0, n, max_matrix_elements)], run with
    a depth budget: running out of it is Python's [RecursionError]. *)
Definition get_matrix (factor : num) (max_matrix_elements : Z) (stops : list A)
  (costing : string)
  : list (list A * list A * string) * (exn + (array2 * array2)) :=
  let n := Z.of_nat (length stops) in
  match slice_matrix (S (Z.to_nat (n * n))) 0 n 0 n max_matrix_elements with
  | None => ([], inl RecursionError)
  | Some slices =>
      get_matrix_loop factor stops costing slices []
        (zeros (length stops) (length stops)) (zeros (length stops) (length stops))
  end.

End GoogleMatrix.

(** *** Valhalla *)

(** A JSON value that the code tests with [isinstance]: a dictionary
    (resp. a list) or something else. *)
Inductive json (X : Type) := NotDict | Dict (d : X).
Inductive jlist (X : Type) := NotList | JList (l : list X).
Arguments NotDict {X}.
Arguments Dict {X} d.
Arguments NotList {X}.
Arguments JList {X} l.

(** A dictionary entry that the code tests against [None]. *)
Inductive field (X : Type) := Missing | Null | Val (v : X).
Arguments Missing {X}.
Arguments Null {X}.
Arguments Val {X} v.

(** A route response: ["trip"], its ["legs"], each with ["shape"] and
    ["summary"] (["time"], ["length"]). *)
Record v_summary := mk_v_summary { s_time : option num; s_length : option num }.
Record v_leg := mk_v_leg { shape : option string; summary : option v_summary }.
Record v_trip := mk_v_trip { legs : option (jlist v_leg) }.
Record v_route_response := mk_v_route_response { trip : option v_trip }.

(** A matrix response: ["sources"], ["targets"] (each with ["lat"],
    ["lon"]) and ["sources_to_targets"] (rows of ["distance"], ["time"]). *)
Record v_location := mk_v_location { lat : option num; lon : option num }.
Record v_target := mk_v_target { t_distance : field num; t_time : field num }.
Record v_matrix_response := mk_v_matrix_response {
  sources : option (list v_location);
  targets : option (list v_location);
  sources_to_targets : option (jlist (list v_target))
}.

(** The loop of [ValhallaClient._parse_route_response] over the legs:
    decoded shapes, times and converted lengths. *)
Fixpoint v_parse_legs (factor : num) (ls : list v_leg)
  : exn + (list (num * num) * list num * list num) :=
  match ls with
  | [] => inr ([], [], [])
  | leg :: rest =>
      let? encoded_polyline := get "shape" (shape leg) in
      let? coords := decode encoded_polyline in
      let? sm := get "summary" (summary leg) in
      let? t := get "time" (s_time sm) in
      let? sm' := get "summary" (summary leg) in
      let? l := get "length" (s_length sm') in
      let? acc := v_parse_legs factor rest in
      match acc with
      | (cs, ts, ds) => inr (coords ++ cs, t :: ts, mul l factor :: ds)
      end
  end.

(** [ValhallaClient._parse_route_response]. *)
Definition v_parse_route_response (factor : num) (response : json v_route_response)
  : exn + route :=
  match response with
  | NotDict => inl (InvalidResponseFormat "Response is not a dictionary.")
  | Dict r =>
      match trip r with
      | None => inl (InvalidResponseFormat "'trip' key not found.")
      | Some t =>
          match legs t with
          | None => inl (InvalidResponseFormat "'legs' key not found.")
          | Some NotList => inl (InvalidResponseFormat "'legs' key is not a list.")
          | Some (JList ls) =>
              let? acc := wrap_key_error (v_parse_legs factor ls) in
              match acc with
              | (cs, ts, ds) => CartographyRoute cs ts ds
              end
          end
      end
  end.

(** A request body [{"locations": ..., "costing": ...}]; the stops are
    the [{"lat", "lon"}] dictionaries of [_prepare_stops]. *)
Definition v_request := Cartography.valhalla_request (num * num).

(** [self.__call_api_request(data, "route")]. *)
Variable route_api : v_request -> exn + json v_route_response.

(** [ValhallaClient.get_route] ([costing] already defaulted): the
    requests sent and the outcome. *)
Definition v_get_route (factor : num) (stops : list (num * num)) (costing : string)
  : list v_request * (exn + route) :=
  let data := Cartography.mk_valhalla_request (num * num) stops costing in
  ([data], let? response := route_api data in v_parse_route_response factor response).

(** [Coordinate(latitude=loc["lat"], longitude=loc["lon"])]. *)
Definition coordinate_of (loc : v_location) : exn + (num * num) :=
  let? la := get "lat" (lat loc) in
  let? lo := get "lon" (lon loc) in
  if valid_coordinate la lo then inr (la, lo) else inl ValidationError.

(** The body of the inner loop of [ValhallaClient._parse_matrix_response]
    for source [i] and target [j]: the route requests it sends and the
    updated distance and time arrays. *)
Definition v_cell (factor : num) (srcs tgts : list v_location) (i j : nat)
  (target_data : v_target) (dm tm : array2)
  : list v_request * (exn + (array2 * array2)) :=
  let fallback :=
    match
      let? s := lookup srcs i in
      let? start := coordinate_of s in
      let? t := lookup tgts j in
      let? end_ := coordinate_of t in
      inr [start; end_]
    with
    | inl e => ([], inl e)
    | inr stops =>
        let (calls, r) := v_get_route factor stops "bus" in
        (calls,
          let? rt := r in
          let? d0 := lookup (r_distances rt) 0 in
          let? dm' := setitem dm i j d0 in
          let? t0 := lookup (r_times rt) 0 in
          let? tm' := setitem tm i j t0 in
          inr (dm', tm'))
    end in
  match t_distance target_data with
  | Missing => ([], inl (KeyError "distance"))
  | Null => fallback
  | Val d =>
      match t_time target_data with
      | Missing => ([], inl (KeyError "time"))
      | Null => fallback
      | Val t =>
          ([], let? dm' := setitem dm i j (mul d factor) in
               let? tm' := setitem tm i j t in
               inr (dm', tm'))
      end
  end.

Fixpoint v_row (factor : num) (srcs tgts : list v_location) (i j : nat)
  (row : list v_target) (dm tm : array2)
  : list v_request * (exn + (array2 * array2)) :=
  match row with
  | [] => ([], inr (dm, tm))
  | target_data :: rest =>
      let (c1, r1) := v_cell factor srcs tgts i j target_data dm tm in
      match r1 with
      | inl e => (c1, inl e)
      | inr (dm', tm') =>
          let (c2, r2) := v_row factor srcs tgts i (S j) rest dm' tm' in
          (c1 ++ c2, r2)
      end
  end.

Fixpoint v_rows (factor : num) (srcs tgts : list v_location) (i : nat)
  (rows : list (list v_target)) (dm tm : array2)
  : list v_request * (exn + (array2 * array2)) :=
  match rows with
  | [] => ([], inr (dm, tm))
  | row :: rest =>
      let (c1, r1) := v_row factor srcs tgts i 0 row dm tm in
      match r1 with
      | inl e => (c1, inl e)
      | inr (dm', tm') =>
          let (c2, r2) := v_rows factor srcs tgts (S i) rest dm' tm' in
          (c1 ++ c2, r2)
      end
  end.

(** [ValhallaClient._parse_matrix_response]: the route requests it
    sends and the [MatrixResult(time_matrix, distance_matrix)]. *)
Definition v_parse_matrix_response (factor : num) (response : json v_matrix_response)
  : list v_request * (exn + (array2 * array2)) :=
  match response with
  | NotDict => ([], inl (InvalidResponseFormat "Response is not a dictionary."))
  | Dict m =>
      match sources m with
      | None => ([], inl (InvalidResponseFormat "sources' keys not found."))
      | Some srcs =>
          match targets m with
          | None => ([], inl (InvalidResponseFormat "'targets' keys not found."))
          | Some tgts =>
              match sources_to_targets m with
              | Some (JList rows) =>
                  let z := zeros (length srcs) (length tgts) in
                  let (calls, r) := v_rows factor srcs tgts 0 rows z z in
                  (calls, wrap_key_error (let? p := r in inr (snd p, fst p)))
              | _ =>
                  ([], inl (InvalidResponseFormat
                              "'sources_to_targets' key not found or not a list."))
              end
          end
      end
  end.

End Numbers.

Arguments NotDict {X}.
Arguments Dict {X} d.
Arguments NotList {X}.
Arguments JList {X} l.
Arguments Missing {X}.
Arguments Null {X}.
Arguments Val {X} v.

End Clients.

(** ** Concrete services for the client proofs *)
Module ClientExamples.
Import Clients.

(** A distance-matrix service over stops named by integers: the
    duration from [o] to [d] is [10 * o + d], the distance [o + d]. *)
Definition matrix_duration (o d : Z) : Z := 10 * o + d.
Definition matrix_distance (o d : Z) : Z := o + d.

Definition matrix_service (os ds : list Z) (c : string) : exn + @g_matrix_response Z :=
  inr (Some (map (fun o => Some (map (fun d =>
         mk_g_entry (Some (Some (matrix_duration o d))) (Some (Some (matrix_distance o d))))
         ds)) os)).

(** A route service that answers every request with one leg of 7 seconds
    and 3 kilometres, and a polyline decoder that reads every shape as
    the single point (0, 0). *)
Definition one_leg_route (_ : @v_request Z) : exn + json (@v_route_response Z) :=
  inr (Dict (mk_v_route_response (Some (mk_v_trip (Some (JList
    [mk_v_leg (Some "shape"%string) (Some (mk_v_summary (Some 7) (Some 3)))])))))).

Definition origin_decoder (_ : string) : exn + list (Z * Z) := inr [(0, 0)].

(** A matrix response over two sources and two targets with one null
    distance, one null time and one missing entry. *)
Definition matrix_sources : list (Z * Z) := [(1, 2); (3, 4)].
Definition matrix_targets : list (Z * Z) := [(5, 6); (7, 8)].
Definition matrix_rows : list (list (@v_target Z)) :=
  [[mk_v_target (Val 10) (Val 20); mk_v_target Null (Val 5)];
   [mk_v_target (Val 1) Null]].

End ClientExamples.

(** * Proofs *)

Import MatrixChunker.

(** Case analysis on every boolean integer comparison in the goal. *)
Ltac zcmp :=
  repeat match goal with
  | |- context [Z.leb ?x ?y] => destruct (Z.leb_spec x y)
  | |- context [Z.ltb ?x ?y] => destruct (Z.ltb_spec x y)
  | |- context [Z.eqb ?x ?y] => destruct (Z.eqb_spec x y)
  end.

Lemma half_bounds (d : Z) : 0 <= d -> 0 <= d / 2 <= d /\ (2 <= d -> 1 <= d / 2 < d).
Proof.
  intros Hd. pose proof (Z.div_mod d 2 ltac:(lia)).
  pose proof (Z.mod_pos_bound d 2 ltac:(lia)). lia.
Qed.

(** The bisection splits a rectangle with non-negative sides into two
    rectangles with non-negative sides that partition its cells. *)
Lemma bisect_partition (q a b : rect) :
  0 <= dimension_1 q -> 0 <= dimension_2 q -> bisect q = (a, b) ->
  0 <= dimension_1 a /\ 0 <= dimension_2 a /\
  0 <= dimension_1 b /\ 0 <= dimension_2 b /\
  (forall r c, in_rect q r c = in_rect a r c || in_rect b r c) /\
  (forall r c, in_rect a r c && in_rect b r c = false).
Proof.
  destruct q as [sr er sc ec]; unfold bisect, dimension_1, dimension_2; simpl.
  intros H1 H2.
  destruct (Z.eqb_spec (er - sr) (Z.max (er - sr) (ec - sc))) as [E|E];
    intros Hab; inversion Hab; subst; clear Hab; unfold in_rect; simpl.
  - pose proof (half_bounds (er - sr) H1) as [Hh _].
    rewrite <- E. repeat split; try lia; intros r c; zcmp; simpl; lia.
  - assert (Hm : Z.max (er - sr) (ec - sc) = ec - sc) by lia.
    rewrite Hm. pose proof (half_bounds (ec - sc) H2) as [Hh _].
    repeat split; try lia; intros r c; zcmp; simpl; lia.
Qed.

(** When the recursion is taken ([max_elements >= 1] and the rectangle
    has more elements), both halves are non-degenerate and strictly
    smaller. *)
Lemma bisect_smaller (q a b : rect) (max_elements : Z) :
  1 <= max_elements -> max_elements < elements q ->
  0 <= dimension_1 q -> 0 <= dimension_2 q -> bisect q = (a, b) ->
  0 < dimension_1 a /\ 0 < dimension_2 a /\
  0 < dimension_1 b /\ 0 < dimension_2 b /\
  elements a < elements q /\ elements b < elements q.
Proof.
  destruct q as [sr er sc ec]; unfold bisect, elements, dimension_1, dimension_2; simpl.
  intros Hm Hlt H1 H2.
  assert (1 <= er - sr) by nia. assert (1 <= ec - sc) by nia.
  assert (2 <= Z.max (er - sr) (ec - sc)) by nia.
  destruct (Z.eqb_spec (er - sr) (Z.max (er - sr) (ec - sc))) as [E|E];
    intros Hab; inversion Hab; subst; clear Hab; simpl.
  - rewrite <- E in *. pose proof (half_bounds (er - sr) H1) as [_ Hh].
    specialize (Hh ltac:(lia)). repeat split; nia.
  - assert (Hm' : Z.max (er - sr) (ec - sc) = ec - sc) by lia.
    rewrite Hm' in *. pose proof (half_bounds (ec - sc) H2) as [_ Hh].
    specialize (Hh ltac:(lia)). repeat split; nia.
Qed.

Lemma slice_fuel_sound (n : nat) (q : rect) (max_elements : Z) (l : list rect) :
  slice_fuel n q max_elements = Some l -> slice_matrix_rel q max_elements l.
Proof.
  revert q l; induction n as [|n IH]; intros q l; simpl; [discriminate|].
  destruct (Z.leb_spec (elements q) max_elements) as [Hle|Hgt].
  - intros H; inversion H; subst; now constructor.
  - destruct (bisect q) as [a b] eqn:Hb.
    destruct (slice_fuel n a max_elements) as [la|] eqn:Ha; [|discriminate].
    destruct (slice_fuel n b max_elements) as [lb|] eqn:Hb'; [|discriminate].
    intros H; inversion H; subst.
    eapply slice_split; eauto.
Qed.

Lemma slice_fuel_complete (n : nat) (q : rect) (max_elements : Z) :
  1 <= max_elements -> 0 <= dimension_1 q -> 0 <= dimension_2 q ->
  elements q < Z.of_nat n ->
  exists l, slice_fuel n q max_elements = Some l.
Proof.
  revert q; induction n as [|n IH]; intros q Hm H1 H2 Hn.
  - unfold elements in Hn. nia.
  - simpl. destruct (Z.leb_spec (elements q) max_elements) as [Hle|Hgt]; [eauto|].
    destruct (bisect q) as [a b] eqn:Hb.
    destruct (bisect_smaller q a b max_elements Hm Hgt H1 H2 Hb)
      as (Ha1 & Ha2 & Hb1 & Hb2 & Hea & Heb).
    destruct (IH a Hm ltac:(lia) ltac:(lia) ltac:(lia)) as [la Hla].
    destruct (IH b Hm ltac:(lia) ltac:(lia) ltac:(lia)) as [lb Hlb].
    rewrite Hla, Hlb. eauto.
Qed.

(** Existence of a result for every rectangle with non-negative sides. *)
Lemma slice_rel_exists (q : rect) (max_elements : Z) :
  1 <= max_elements -> 0 <= dimension_1 q -> 0 <= dimension_2 q ->
  exists l, slice_matrix_rel q max_elements l.
Proof.
  intros Hm H1 H2.
  destruct (slice_fuel_complete (S (Z.to_nat (elements q))) q max_elements Hm H1 H2)
    as [l Hl].
  { unfold elements in *. rewrite Nat2Z.inj_succ, Z2Nat.id by nia. lia. }
  exists l. now apply slice_fuel_sound with (n := S (Z.to_nat (elements q))).
Qed.

Lemma slice_rel_functional (q : rect) (max_elements : Z) (l1 l2 : list rect) :
  slice_matrix_rel q max_elements l1 -> slice_matrix_rel q max_elements l2 ->
  l1 = l2.
Proof.
  intros H; revert l2; induction H as [q m Hle|q m a b la lb Hlt Hb Ha IHa Hb' IHb];
    intros l2 H2; inversion H2; subst.
  - reflexivity.
  - lia.
  - lia.
  - match goal with
    | E : bisect q = (?a', ?b') |- _ => rewrite Hb in E; inversion E; subst
    end.
    f_equal; auto.
Qed.

Lemma slice_rel_bounded (q : rect) (max_elements : Z) (l : list rect) :
  slice_matrix_rel q max_elements l ->
  Forall (fun x => elements x <= max_elements) l.
Proof.
  induction 1; [now constructor|].
  apply Forall_app; auto.
Qed.

Lemma cover_count_app (l1 l2 : list rect) (r c : Z) :
  cover_count (l1 ++ l2) r c = (cover_count l1 r c + cover_count l2 r c)%nat.
Proof. unfold cover_count. now rewrite filter_app, length_app. Qed.

Lemma slice_rel_tiles (q : rect) (max_elements : Z) (l : list rect) :
  slice_matrix_rel q max_elements l ->
  0 <= dimension_1 q -> 0 <= dimension_2 q -> tiles l q.
Proof.
  induction 1 as [q m Hle|q m a b la lb Hlt Hb Ha IHa Hb' IHb];
    intros H1 H2 r c.
  - unfold cover_count; simpl. now destruct (in_rect q r c).
  - destruct (bisect_partition q a b H1 H2 Hb) as (A1 & A2 & B1 & B2 & U & D).
    rewrite cover_count_app, IHa, IHb, U by assumption.
    specialize (D r c).
    destruct (in_rect a r c), (in_rect b r c); simpl in *; congruence.
Qed.

(** A 1-by-1 rectangle with [max_elements = 0] recurses on itself: its
    second half is the rectangle itself. *)
Lemma slice_rel_unit_zero (q : rect) (max_elements : Z) (l : list rect) :
  slice_matrix_rel q max_elements l -> max_elements = 0 ->
  dimension_1 q = 1 -> dimension_2 q = 1 -> False.
Proof.
  induction 1 as [q m Hle|q m a b la lb Hlt Hb Ha IHa Hb' IHb]; intros Hm H1 H2.
  - unfold elements in Hle. rewrite H1, H2 in Hle. lia.
  - destruct q as [sr er sc ec]; unfold bisect, dimension_1, dimension_2 in *;
      simpl in *.
    rewrite H1, H2 in Hb. simpl in Hb. inversion Hb; subst; clear Hb.
    apply IHb; auto; simpl; replace (Z.max 1 1 / 2) with 0 by reflexivity; lia.
Qed.

(** C2: for every rectangle with non-negative sides and every
    [max_elements >= 1], [slice_matrix] has exactly one result (it is
    deterministic), that result tiles the rectangle (each cell of it in
    exactly one returned rectangle, no cell outside covered) and every
    returned rectangle has at most [max_elements] elements; on
    [slice_matrix(0, 3, 0, 3, 8)] the result is rows [0,1) and rows [1,3),
    both spanning columns [0,3). *)
Theorem slice_matrix_tiles (start_row end_row start_col end_col max_elements : Z) :
  1 <= max_elements -> start_row <= end_row -> start_col <= end_col ->
  let q := mk_rect start_row end_row start_col end_col in
  (exists l,
     slice_matrix_rel q max_elements l /\
     (forall l', slice_matrix_rel q max_elements l' -> l' = l) /\
     tiles l q /\
     Forall (fun x => elements x <= max_elements) l) /\
  slice_matrix_rel (mk_rect 0 3 0 3) 8 [mk_rect 0 1 0 3; mk_rect 1 3 0 3].
Proof.
  intros Hm Hr Hc q.
  assert (H1 : 0 <= dimension_1 q) by (unfold q, dimension_1; simpl; lia).
  assert (H2 : 0 <= dimension_2 q) by (unfold q, dimension_2; simpl; lia).
  split.
  - destruct (slice_rel_exists q max_elements Hm H1 H2) as [l Hl].
    exists l. repeat split.
    + exact Hl.
    + intros l' Hl'. exact (slice_rel_functional _ _ _ _ Hl' Hl).
    + exact (slice_rel_tiles _ _ _ Hl H1 H2).
    + exact (slice_rel_bounded _ _ _ Hl).
  - apply (slice_fuel_sound 3). reflexivity.
Qed.

Lemma slice_matrix_tiles_witness :
  (1 <= 8 /\ 0 <= 3 /\ 0 <= 3) /\
  let q := mk_rect 0 3 0 3 in
  (exists l,
     slice_matrix_rel q 8 l /\
     (forall l', slice_matrix_rel q 8 l' -> l' = l) /\
     tiles l q /\
     Forall (fun x => elements x <= 8) l) /\
  slice_matrix_rel (mk_rect 0 3 0 3) 8 [mk_rect 0 1 0 3; mk_rect 1 3 0 3].
Proof.
  split; [lia|]. apply (slice_matrix_tiles 0 3 0 3 8); lia.
Defined.

(** C10: for non-negative sides and [max_elements >= 1] the recursion of
    [slice_matrix] terminates, within a depth of [elements + 1]; every
    recursive step splits the rectangle into two non-degenerate halves with
    strictly fewer elements; with [max_elements = 0] a 1-by-1 rectangle has
    no result (it recurses on itself forever). *)
Theorem slice_matrix_terminates (start_row end_row start_col end_col max_elements : Z) :
  1 <= max_elements -> start_row <= end_row -> start_col <= end_col ->
  let q := mk_rect start_row end_row start_col end_col in
  (exists l,
     slice_matrix (S (Z.to_nat ((end_row - start_row) * (end_col - start_col))))
       start_row end_row start_col end_col max_elements = Some l /\
     slice_matrix_rel q max_elements l) /\
  (max_elements < elements q -> forall a b, bisect q = (a, b) ->
     0 < dimension_1 a /\ 0 < dimension_2 a /\
     0 < dimension_1 b /\ 0 < dimension_2 b /\
     elements a < elements q /\ elements b < elements q) /\
  (forall r c l, ~ slice_matrix_rel (mk_rect r (r + 1) c (c + 1)) 0 l).
Proof.
  intros Hm Hr Hc q.
  assert (H1 : 0 <= dimension_1 q) by (unfold q, dimension_1; simpl; lia).
  assert (H2 : 0 <= dimension_2 q) by (unfold q, dimension_2; simpl; lia).
  split; [|split].
  - destruct (slice_fuel_complete
                (S (Z.to_nat ((end_row - start_row) * (end_col - start_col))))
                q max_elements Hm H1 H2) as [l Hl].
    { change (elements q) with ((end_row - start_row) * (end_col - start_col)).
      rewrite Nat2Z.inj_succ, Z2Nat.id by nia. lia. }
    exists l. split; [exact Hl|]. exact (slice_fuel_sound _ _ _ _ Hl).
  - intros Hlt a b Hb. exact (bisect_smaller q a b max_elements Hm Hlt H1 H2 Hb).
  - intros r c l Hl. apply (slice_rel_unit_zero _ _ _ Hl); auto;
      unfold dimension_1, dimension_2; simpl; lia.
Qed.

Lemma slice_matrix_terminates_witness :
  (1 <= 8 /\ 0 <= 3 /\ 0 <= 3) /\
  let q := mk_rect 0 3 0 3 in
  (exists l,
     slice_matrix (S (Z.to_nat ((3 - 0) * (3 - 0)))) 0 3 0 3 8 = Some l /\
     slice_matrix_rel q 8 l) /\
  (8 < elements q -> forall a b, bisect q = (a, b) ->
     0 < dimension_1 a /\ 0 < dimension_2 a /\
     0 < dimension_1 b /\ 0 < dimension_2 b /\
     elements a < elements q /\ elements b < elements q) /\
  (forall r c l, ~ slice_matrix_rel (mk_rect r (r + 1) c (c + 1)) 0 l).
Proof.
  split; [lia|]. apply (slice_matrix_terminates 0 3 0 3 8); lia.
Defined.

Import Cartography.

Example str_of_Z_27 : PyStr.str_of_Z 27 = "27"%string.
Proof. reflexivity. Qed.

(** C5 (code defect): with the default [max_route_stops = 27] and 54
    stops, [get_route] sends the first window (stops 0..26) and then builds
    the second window [stops[26:54]], which has 28 stops: [end_idx] is
    advanced by [max_route_stops] from the old end instead of from the new
    start, so every window after the first spans [max_route_stops + 1]
    stops, and [_prepare_request_route] rejects it with an invalid-request
    error. *)
Theorem get_route_window_overflow (directions : request Z -> error + cart_route)
    (r : cart_route) :
  directions (Req_wp 0 26 (map Z.of_nat (seq 1 25)) "driving") = inr r ->
  length (py_slice 26 54 stops54) = 28%nat /\
  get_route directions 27 stops54 "driving" =
    Some ([Req_wp 0 26 (map Z.of_nat (seq 1 25)) "driving"],
          inl (InvalidRequestFormat "Maximum number of stops is 27")).
Proof.
  intros H. split; [reflexivity|].
  cbv in H |- *. rewrite H. reflexivity.
Qed.

Lemma get_route_window_overflow_witness :
  let directions := fun _ : request Z => inr (mk_cart_route [] [] []) : error + cart_route in
  directions (Req_wp 0 26 (map Z.of_nat (seq 1 25)) "driving") = inr (mk_cart_route [] [] []) /\
  length (py_slice 26 54 stops54) = 28%nat /\
  get_route directions 27 stops54 "driving" =
    Some ([Req_wp 0 26 (map Z.of_nat (seq 1 25)) "driving"],
          inl (InvalidRequestFormat "Maximum number of stops is 27")).
Proof.
  intros directions. split; [reflexivity|].
  apply (get_route_window_overflow directions (mk_cart_route [] [] [])). reflexivity.
Defined.

(** C9, as amended: for fewer than two stops, [GoogleMaps.get_route] makes
    no network call and raises no error: the loop is not entered and the
    result is the empty route.  The "At least two stops are required" error
    is raised by [_prepare_request_route] alone, which [get_route] does not
    reach for such lists; [ValhallaClient.get_route] sends its request
    whatever the number of stops. *)
Theorem get_route_fewer_than_two {A : Type}
    (directions : request A -> error + cart_route)
    (call_api : valhalla_request A -> error + cart_route)
    (max_route_stops : Z) (stops : list A) (costing : string) :
  (length stops < 2)%nat ->
  get_route directions max_route_stops stops costing =
    Some ([], inr (mk_cart_route [] [] [])) /\
  _prepare_request_route max_route_stops stops costing =
    inl (InvalidRequestFormat "At least two stops are required") /\
  fst (valhalla_get_route call_api stops costing) =
    [mk_valhalla_request A stops costing].
Proof.
  intros H.
  destruct stops as [|s [|s' rest]]; simpl in H; try lia;
    unfold get_route; simpl; repeat split;
    destruct (Z.min_spec 0 max_route_stops) as [[_ E]|[_ E]];
    try rewrite E; destruct (Z.min_spec 1 max_route_stops) as [[_ E']|[_ E']];
    try rewrite E'; simpl; try reflexivity;
    repeat match goal with
    | |- context [Z.leb ?x ?y] => destruct (Z.leb_spec x y); simpl
    end; reflexivity.
Qed.

Lemma get_route_fewer_than_two_witness :
  (length [(5, 5)] < 2)%nat /\
  get_route (fun _ => inr (mk_cart_route [] [] [])) 27 [(5, 5)] "driving" =
    Some ([], inr (mk_cart_route [] [] [])) /\
  _prepare_request_route 27 [(5, 5)] "driving" =
    inl (InvalidRequestFormat "At least two stops are required") /\
  fst (valhalla_get_route (fun _ => inr (mk_cart_route [] [] [])) [(5, 5)] "driving") =
    [mk_valhalla_request (Z * Z) [(5, 5)] "driving"].
Proof.
  split; [simpl; lia|].
  apply get_route_fewer_than_two. simpl; lia.
Defined.

(** C9 fails as stated: on an empty stop list [GoogleMaps.get_route]
    returns the empty route instead of an invalid-request error, and on a
    single stop [ValhallaClient.get_route] makes a network call. *)
Lemma get_route_fewer_than_two_no_error :
  get_route (fun _ : request Z => inr (mk_cart_route [] [] [])) 27 [] "driving" =
    Some ([], inr (mk_cart_route [] [] [])) /\
  fst (valhalla_get_route (fun _ => inr (mk_cart_route [] [] [])) [(5, 5)] "bus") <> [].
Proof. split; [reflexivity | discriminate]. Qed.

Import RouteOptimizer.

Ltac monad_simpl :=
  unfold bind, ret, raise, get_heap, put_heap, emit, lift_opt in *; simpl in *.

Lemma heap_set_get (h : heap) (l : loc) : heap_set h l (heap_get h l) = h.
Proof.
  unfold heap_get; revert l; induction h as [|x h IH]; intros [|l]; simpl; auto.
  now rewrite IH.
Qed.

Lemma heap_get_set_same (h : heap) (l : loc) (m : matrix) :
  (l < length h)%nat -> heap_get (heap_set h l m) l = m.
Proof.
  unfold heap_get; revert l; induction h as [|x h IH]; intros [|l] Hl; simpl in *;
    try lia; auto.
  apply IH; lia.
Qed.

Lemma heap_get_set_other (h : heap) (l l' : loc) (m : matrix) :
  l <> l' -> heap_get (heap_set h l m) l' = heap_get h l'.
Proof.
  unfold heap_get; revert l l'; induction h as [|x h IH]; intros [|l] [|l'] Hne;
    simpl; auto; try congruence.
Qed.

Lemma heap_set_length (h : heap) (l : loc) (m : matrix) :
  length (heap_set h l m) = length h.
Proof.
  revert l; induction h as [|x h IH]; intros [|l]; simpl; auto.
Qed.

Lemma set_col0_rows_idem (m m' : matrix) (v : Z) :
  set_col0_rows m v = Some m' -> set_col0_rows m' v = Some m'.
Proof.
  revert m'; induction m as [|r rs IH]; intros m' H; simpl in H.
  - now inversion H.
  - destruct r as [|x xs]; [discriminate|].
    destruct (set_col0_rows rs v) as [rs'|] eqn:E; [|discriminate].
    inversion H; subst. simpl. now rewrite (IH rs' eq_refl).
Qed.

(** The depot adjustment is idempotent: re-applying it to an adjusted
    matrix leaves it unchanged. *)
Lemma depot_adjust_idem (md : RouteMode) (s : Z) (m m' : matrix) :
  depot_adjust md s m = Some m' -> depot_adjust md s m' = Some m'.
Proof.
  destruct md; simpl.
  - destruct m as [|r rs]; simpl; [discriminate|]. intros H; inversion H; subst.
    simpl. now rewrite map_map.
  - unfold set_col0. destruct m as [|r rs]; [discriminate|]. intros H.
    pose proof (set_col0_rows_idem _ _ _ H) as H'.
    destruct m' as [|r' rs']; [|exact H'].
    simpl in H. destruct r; [discriminate|].
    destruct (set_col0_rows rs (- s)); discriminate.
Qed.

Lemma py_max_some (l : list Z) : l <> [] -> exists mx, py_max l = Some mx.
Proof. destruct l; simpl; [congruence|eauto]. Qed.

Lemma create_data_model_fixed (c : config) (ev et : Z) (h : heap) (tr : list event) :
  fixed_world c h ->
  exists mx, py_max (fleet_capacities (fleet c)) = Some mx /\
  _create_data_model c ev et (mk_world h tr) =
    (inr (mk_data (time_matrix c) (demands c)
            (fleet_capacities (fleet c) ++ repeat mx (Z.to_nat ev))
            (Z.of_nat (length (fleet_capacities (fleet c) ++ repeat mx (Z.to_nat ev))))
            0 (max_travel_time c + et)),
     mk_world h tr).
Proof.
  intros [Hadj Hcap]. destruct (py_max_some _ Hcap) as [mx Hmx].
  exists mx. split; [exact Hmx|].
  unfold _create_data_model. monad_simpl.
  rewrite Hadj. simpl. rewrite heap_set_get, Hmx. reflexivity.
Qed.

Lemma rebuild_fixed (o : optimizer) (ev et : Z) (h : heap) (tr : list event) :
  fixed_world (o_cfg o) h ->
  exists d r,
    rebuild o ev et (mk_world h tr) =
      (inr (mk_optimizer (o_cfg o) d (rt_manager r) r), mk_world h (tr ++ [EvSetRouting r])) /\
    rt_data r = d /\
    rt_slack_time r = default_slack_time /\
    dm_time_matrix d = time_matrix (o_cfg o) /\
    dm_num_vehicles d =
      Z.of_nat (length (fleet_capacities (fleet (o_cfg o)))) + Z.of_nat (Z.to_nat ev) /\
    dm_max_travel_time d = max_travel_time (o_cfg o) + et.
Proof.
  intros Hf.
  destruct (create_data_model_fixed (o_cfg o) ev et h tr Hf) as [mx [Hmx Hd]].
  unfold rebuild. unfold bind at 1. rewrite Hd.
  unfold _set_manager, _set_routing. monad_simpl.
  match goal with
  | |- exists d r, (inr (mk_optimizer _ ?D _ ?R), _) = _ /\ _ => exists D, R
  end.
  simpl. rewrite length_app, repeat_length. repeat split; lia.
Qed.

Lemma solver_calls_app (t1 t2 : list event) :
  solver_calls (t1 ++ t2) = solver_calls t1 ++ solver_calls t2.
Proof.
  induction t1 as [|e t1 IH]; simpl; auto. destruct e; simpl; now rewrite IH.
Qed.

Lemma heap_get_app_last (h : heap) (m : matrix) : heap_get (h ++ [m]) (length h) = m.
Proof. unfold heap_get. rewrite nth_middle. reflexivity. Qed.

Lemma heap_get_app_lt (h : heap) (m : matrix) (l : loc) :
  (l < length h)%nat -> heap_get (h ++ [m]) l = heap_get h l.
Proof. unfold heap_get. intros. now rewrite app_nth1. Qed.

Lemma np_array_matrix_some (m m' : matrix) : np_array_matrix m = Some m' -> m' = m.
Proof. destruct m; simpl; [congruence|]. destruct forallb; congruence. Qed.

(** What [__init__] does: it copies the caller's matrix into a fresh
    object, adjusts the copy, leaves every older object alone and builds
    the routing model with the input's [slack_time]. *)
Lemma init_spec (input : RouteOptimizerInput) (vp : Z) (w0 w1 : world) (o : optimizer) :
  __init__ input vp w0 = (inr o, w1) ->
  let h0 := w_heap w0 in
  o_cfg o = mk_config (in_mode input) (length h0) (in_fleet input) (in_demands input)
              (in_max_travel_time input) (in_slack_time input) vp /\
  depot_adjust (in_mode input) (in_slack_time input) (heap_get h0 (in_time_matrix input))
    = Some (heap_get (w_heap w1) (length h0)) /\
  length (w_heap w1) = S (length h0) /\
  (forall l, (l < length h0)%nat -> heap_get (w_heap w1) l = heap_get h0 l) /\
  fixed_world (o_cfg o) (w_heap w1) /\
  o_routing o = mk_routing (o_manager o) (o_data o) vp (in_slack_time input) /\
  dm_time_matrix (o_data o) = length h0 /\
  dm_num_vehicles (o_data o) = Z.of_nat (length (fleet_capacities (in_fleet input))) /\
  dm_max_travel_time (o_data o) = in_max_travel_time input /\
  w_trace w1 = w_trace w0 ++ [EvSetRouting (o_routing o)].
Proof.
  destruct w0 as [h0 tr0]. unfold __init__, _create_data_model, _set_manager, _set_routing.
  monad_simpl.
  destruct (np_array_matrix (heap_get h0 (in_time_matrix input))) as [cp|] eqn:Enp;
    simpl; [|discriminate].
  apply np_array_matrix_some in Enp. subst cp.
  rewrite heap_get_app_last.
  destruct (depot_adjust (in_mode input) (in_slack_time input)
              (heap_get h0 (in_time_matrix input))) as [m'|] eqn:Ea;
    simpl; [|discriminate].
  destruct (py_max (fleet_capacities (in_fleet input))) as [mx|] eqn:Em;
    simpl; [|discriminate].
  intros H; inversion H; subst; clear H. simpl.
  assert (Hlen : (length h0 < length (h0 ++ [heap_get h0 (in_time_matrix input)]))%nat)
    by (rewrite length_app; simpl; lia).
  rewrite heap_get_set_same by exact Hlen.
  split; [reflexivity|]. split; [first [exact Ea | reflexivity]|].
  split; [rewrite heap_set_length, length_app; simpl; lia|].
  split; [intros l Hl; rewrite heap_get_set_other by lia; now apply heap_get_app_lt|].
  split.
  { split; simpl.
    - rewrite heap_get_set_same by exact Hlen. now apply depot_adjust_idem in Ea.
    - destruct (fleet_capacities (in_fleet input)); simpl in Em; congruence. }
  split; [reflexivity|]. split; [reflexivity|].
  split; [simpl; rewrite ?app_nil_r; reflexivity|].
  split; [simpl; lia|]. reflexivity.
Qed.

Lemma extra_time_loop_fixed solver gstl (o : optimizer) (is : list Z) (h : heap)
    (tr : list event) :
  fixed_world (o_cfg o) h ->
  exists o' res ev,
    extra_time_loop solver gstl o is (mk_world h tr) = (inr (o', res), mk_world h (tr ++ ev)) /\
    o_cfg o' = o_cfg o /\
    (length (solver_calls ev) <= length is)%nat /\
    ((forall h r p, solver h r p = None) -> res = None).
Proof.
  revert o tr; induction is as [|i is IH]; intros o tr Hf.
  - exists o, None, []. rewrite app_nil_r. repeat split; simpl; auto.
  - destruct (rebuild_fixed o 0 (i * 60) h tr Hf) as (d & r & Hr & _).
    simpl. unfold bind at 1. rewrite Hr. unfold solve, bind. simpl.
    destruct (solver h r (grid_search_parameters gstl)) as [s|] eqn:Es.
    + exists (mk_optimizer (o_cfg o) d (rt_manager r) r), (Some i),
        [EvSetRouting r; EvSolve r (grid_search_parameters gstl)].
      rewrite <- app_assoc. repeat split; simpl; try lia.
      intros Hnone. rewrite Hnone in Es. discriminate.
    + destruct (IH (mk_optimizer (o_cfg o) d (rt_manager r) r)
                  ((tr ++ [EvSetRouting r]) ++ [EvSolve r (grid_search_parameters gstl)]) Hf)
        as (o' & res & ev & Hl & Hc & Hn & Hres).
      exists o', res, ([EvSetRouting r; EvSolve r (grid_search_parameters gstl)] ++ ev).
      split; [rewrite Hl, <- !app_assoc; reflexivity|].
      repeat split; auto. simpl. lia.
Qed.

Lemma extra_vehicle_loop_fixed solver gstl (o : optimizer) (is : list Z) (h : heap)
    (tr : list event) :
  fixed_world (o_cfg o) h ->
  exists o' res ev,
    extra_vehicle_loop solver gstl o is (mk_world h tr) = (inr (o', res), mk_world h (tr ++ ev)) /\
    o_cfg o' = o_cfg o /\
    (length (solver_calls ev) <= length is)%nat /\
    ((forall h r p, solver h r p = None) -> res = None) /\
    (forall i is', is = i :: is' ->
       exists r ev', ev = EvSetRouting r :: EvSolve r (grid_search_parameters gstl) :: ev' /\
       dm_num_vehicles (rt_data r) =
         Z.of_nat (length (fleet_capacities (fleet (o_cfg o)))) + Z.of_nat (Z.to_nat i) /\
       dm_max_travel_time (rt_data r) = max_travel_time (o_cfg o)).
Proof.
  revert o tr; induction is as [|i is IH]; intros o tr Hf.
  - exists o, None, []. rewrite app_nil_r. repeat split; simpl; auto. discriminate.
  - destruct (rebuild_fixed o i 0 h tr Hf) as (d & r & Hr & Hd & _ & _ & Hn & Ht).
    simpl. unfold bind at 1. rewrite Hr. unfold solve, bind. simpl.
    assert (Hfirst : forall ev', exists r' ev'',
       EvSetRouting r :: EvSolve r (grid_search_parameters gstl) :: ev' =
         EvSetRouting r' :: EvSolve r' (grid_search_parameters gstl) :: ev'' /\
       dm_num_vehicles (rt_data r') =
         Z.of_nat (length (fleet_capacities (fleet (o_cfg o)))) + Z.of_nat (Z.to_nat i) /\
       dm_max_travel_time (rt_data r') = max_travel_time (o_cfg o)).
    { intros ev'. exists r, ev'. rewrite Hd. repeat split; auto. lia. }
    destruct (solver h r (grid_search_parameters gstl)) as [s|] eqn:Es.
    + exists (mk_optimizer (o_cfg o) d (rt_manager r) r), (Some i),
        [EvSetRouting r; EvSolve r (grid_search_parameters gstl)].
      rewrite <- app_assoc. repeat split; simpl; try lia.
      * intros Hnone. rewrite Hnone in Es. discriminate.
      * intros i' is' E. inversion E; subst. apply Hfirst.
    + destruct (IH (mk_optimizer (o_cfg o) d (rt_manager r) r)
                  ((tr ++ [EvSetRouting r]) ++ [EvSolve r (grid_search_parameters gstl)]) Hf)
        as (o' & res & ev & Hl & Hc & Hcnt & Hres & _).
      exists o', res, ([EvSetRouting r; EvSolve r (grid_search_parameters gstl)] ++ ev).
      split; [rewrite Hl, <- !app_assoc; reflexivity|].
      repeat split; auto.
      * simpl. lia.
      * intros i' is' E. inversion E; subst. apply Hfirst.
Qed.

Lemma bind_ok {A B} (c : M A) (k : A -> M B) (w w' : world) (a : A) :
  c w = (inr a, w') -> bind c k w = k a w'.
Proof. unfold bind. intros H. now rewrite H. Qed.

Lemma py_range1_length (n : Z) : length (py_range1 n) = Z.to_nat n.
Proof. unfold py_range1. now rewrite length_map, length_seq. Qed.

Lemma py_range1_head (n : Z) : 1 <= n -> exists is', py_range1 n = 1 :: is'.
Proof.
  intros Hn. unfold py_range1. destruct (Z.to_nat n) as [|k] eqn:E; [lia|].
  simpl. eauto.
Qed.

Lemma grid_search_solver_fixed solver gstl (o : optimizer) (it iv : Z) (h : heap)
    (tr : list event) :
  fixed_world (o_cfg o) h ->
  exists o3 out ev r3,
    _grid_search_solver solver gstl o it iv (mk_world h tr) =
      (inr (o3, out), mk_world h (tr ++ ev ++ [EvSetRouting r3])) /\
    o_cfg o3 = o_cfg o /\
    o_routing o3 = r3 /\
    dm_num_vehicles (rt_data r3) = Z.of_nat (length (fleet_capacities (fleet (o_cfg o)))) /\
    dm_max_travel_time (rt_data r3) = max_travel_time (o_cfg o) /\
    (length (solver_calls (ev ++ [EvSetRouting r3])) <= Z.to_nat it + Z.to_nat iv)%nat /\
    ((forall h r p, solver h r p = None) -> message out = no_solution_message) /\
    (1 <= iv -> exists r, In (EvSolve r (grid_search_parameters gstl)) ev /\
       dm_num_vehicles (rt_data r) =
         Z.of_nat (length (fleet_capacities (fleet (o_cfg o)))) + 1 /\
       dm_max_travel_time (rt_data r) = max_travel_time (o_cfg o)).
Proof.
  intros Hf.
  destruct (extra_time_loop_fixed solver gstl o (py_range1 it) h tr Hf)
    as (o1 & res1 & ev1 & H1 & Hc1 & Hn1 & Hr1).
  assert (Hf1 : fixed_world (o_cfg o1) h) by now rewrite Hc1.
  destruct (extra_vehicle_loop_fixed solver gstl o1 (py_range1 iv) h (tr ++ ev1) Hf1)
    as (o2 & res2 & ev2 & H2 & Hc2 & Hn2 & Hr2 & Hfirst).
  assert (Hf2 : fixed_world (o_cfg o2) h) by now rewrite Hc2, Hc1.
  destruct (rebuild_fixed o2 0 0 h ((tr ++ ev1) ++ ev2) Hf2)
    as (d & r3 & H3 & Hd3 & _ & _ & Hn3 & Ht3).
  destruct (py_max_some _ (proj2 Hf2)) as [mx Hmx].
  unfold _grid_search_solver.
  rewrite (bind_ok _ _ _ _ _ H1). cbv beta iota zeta.
  rewrite (bind_ok _ _ _ _ _ H2). cbv beta iota zeta.
  set (message1 := match res1 with
                   | Some i => [append "Solution can be found with "
                                  (append (PyStr.str_of_Z i) " minutes more of extra time")]
                   | None => [] end).
  set (vm := match res2 with
             | Some i => (mk_fleet mx i,
                          message1 ++ [append "Solution can be found with "
                                         (append (PyStr.str_of_Z i)
                                            (append " vehicle/s more " newline))])
             | None => (mk_fleet 0 0, message1)
             end).
  assert (Hvm : (match res2 with
                 | Some i =>
                     let* mx := lift_opt ValueError
                                  (py_max (fleet_capacities (fleet (o_cfg o2)))) in
                     ret (mk_fleet mx i,
                          message1 ++ [append "Solution can be found with "
                                         (append (PyStr.str_of_Z i)
                                            (append " vehicle/s more " newline))])
                 | None => ret (mk_fleet 0 0, message1)
                 end) (mk_world h ((tr ++ ev1) ++ ev2)) = (inr vm, mk_world h ((tr ++ ev1) ++ ev2))).
  { unfold vm. destruct res2; monad_simpl; [rewrite Hmx|]; reflexivity. }
  rewrite (bind_ok _ _ _ _ _ Hvm). cbv beta iota zeta.
  destruct vm as [ev_fleet msgs] eqn:Evm.
  rewrite (bind_ok _ _ _ _ _ H3).
  exists (mk_optimizer (o_cfg o2) d (rt_manager r3) r3).
  eexists. exists (ev1 ++ ev2), r3.
  split; [unfold ret; now rewrite !app_assoc|].
  simpl. rewrite Hc2, Hc1, Hd3 in *. rewrite Hn3, Ht3.
  split; [reflexivity|]. split; [reflexivity|]. split; [lia|]. split; [lia|].
  split.
  { rewrite !solver_calls_app. simpl. rewrite !length_app.
    rewrite !py_range1_length in *. simpl. lia. }
  split.
  { intros Hnone. pose proof (Hr1 Hnone) as E1. pose proof (Hr2 Hnone) as E2.
    subst res1 res2. unfold vm, message1 in Evm. inversion Evm; subst. reflexivity. }
  intros Hiv. destruct (py_range1_head iv Hiv) as [is' Ehead].
  destruct (Hfirst 1 is' Ehead) as (r & ev' & Eev & Hnv & Hmt).
  exists r. rewrite Eev. split; [apply in_or_app; right; simpl; auto|].
  split; [exact Hnv|exact Hmt].
Qed.

Import Examples.

(** C3: after a successful construction, [grid_search] returns a
    [GridSearchOutput] (no error), invokes the solver at most
    [2 * 3 + 1 = 7] times, reports "No solution found with extra vehicles
    or extra time." when no attempt succeeds, and, whenever the first
    attempt fails, reaches the vehicle phase (a solve of the model with one
    extra vehicle and the base time budget) whatever the time phase did. *)
Theorem grid_search_bounded solver gstl (input : RouteOptimizerInput) (vp : Z)
    (w0 w1 : world) (o : optimizer) :
  __init__ input vp w0 = (inr o, w1) ->
  exists o' out ev,
    grid_search solver gstl o w1 =
      (inr (o', out), mk_world (w_heap w1) (w_trace w1 ++ ev)) /\
    (length (solver_calls ev) <= 2 * 3 + 1)%nat /\
    ((forall h r p, solver h r p = None) -> message out = no_solution_message) /\
    (solver (w_heap w1) (o_routing o) (grid_search_parameters gstl) = None ->
     exists r, In (EvSolve r (grid_search_parameters gstl)) ev /\
       dm_num_vehicles (rt_data r) = dm_num_vehicles (o_data o) + 1 /\
       dm_max_travel_time (rt_data r) = dm_max_travel_time (o_data o)).
Proof.
  intros Hi.
  destruct (init_spec input vp w0 w1 o Hi)
    as (Hc & _ & _ & _ & Hf & _ & _ & Hnv & Hmt & _).
  destruct w1 as [h1 tr1]. simpl in *.
  unfold grid_search, solve, bind. simpl.
  destruct (solver h1 (o_routing o) (grid_search_parameters gstl)) as [s|] eqn:Es.
  - exists o, (mk_gs_output 0 (mk_fleet 0 0) "Solution found without grid search"),
      [EvSolve (o_routing o) (grid_search_parameters gstl)].
    repeat split; simpl; try lia.
    + intros Hnone. rewrite Hnone in Es. discriminate.
    + discriminate.
  - destruct (grid_search_solver_fixed solver gstl o 3 3 h1
                (tr1 ++ [EvSolve (o_routing o) (grid_search_parameters gstl)]) Hf)
      as (o3 & out & ev & r3 & H & _ & _ & _ & _ & Hcnt & Hmsg & Hveh).
    exists o3, out, ([EvSolve (o_routing o) (grid_search_parameters gstl)] ++ ev ++ [EvSetRouting r3]).
    split; [rewrite H, !app_assoc; reflexivity|].
    split.
    { rewrite solver_calls_app, length_app.
      change (length (solver_calls [EvSolve (o_routing o) (grid_search_parameters gstl)]))
        with 1%nat.
      change (Z.to_nat 3) with 3%nat in Hcnt. lia. }
    split; [exact Hmsg|].
    intros _. destruct (Hveh ltac:(lia)) as (r & Hin & Hn & Ht).
    exists r. split; [simpl; right; apply in_or_app; left; exact Hin|].
    rewrite Hnv, Hmt, Hn, Ht, Hc. simpl. split; reflexivity.
Qed.

Lemma grid_search_bounded_witness :
  __init__ example_input 10000 example_world = (inr example_optimizer, example_world1) /\
  exists o' out ev,
    grid_search never_solves 5 example_optimizer example_world1 =
      (inr (o', out), mk_world (w_heap example_world1) (w_trace example_world1 ++ ev)) /\
    (length (solver_calls ev) <= 2 * 3 + 1)%nat /\
    ((forall h r p, never_solves h r p = None) -> message out = no_solution_message) /\
    (never_solves (w_heap example_world1) (o_routing example_optimizer)
       (grid_search_parameters 5) = None ->
     exists r, In (EvSolve r (grid_search_parameters 5)) ev /\
       dm_num_vehicles (rt_data r) = dm_num_vehicles (o_data example_optimizer) + 1 /\
       dm_max_travel_time (rt_data r) = dm_max_travel_time (o_data example_optimizer)).
Proof.
  assert (Hi : __init__ example_input 10000 example_world =
               (inr example_optimizer, example_world1)) by reflexivity.
  split; [exact Hi|].
  exact (grid_search_bounded never_solves 5 example_input 10000 example_world
           example_world1 example_optimizer Hi).
Defined.

(** C4 fails as stated: with a solver that never succeeds, the trace of
    [grid_search] ends with the rebuild of the baseline model, and that
    model is never passed to the solver. *)
Lemma grid_search_final_not_solved :
  exists o' out tr,
    grid_search never_solves 5 example_optimizer example_world1 =
      (inr (o', out), mk_world (w_heap example_world1) tr) /\
    last tr (EvSolve (o_routing o') (grid_search_parameters 5)) =
      EvSetRouting (o_routing o') /\
    (forall p, ~ In (EvSolve (o_routing o') p) tr).
Proof.
  do 3 eexists. split; [vm_compute; reflexivity|].
  split; [vm_compute; reflexivity|].
  intros p Hin. vm_compute in Hin.
  repeat (destruct Hin as [Hin|Hin]; [discriminate|]). exact Hin.
Qed.

(** C7: when the solver returns no solution, [optimizer_solver] does not
    raise: it returns an output with no routes, [max_travel_time = 0] and
    [slack_time = 0]. *)
Theorem optimizer_solver_infeasible solver (o : optimizer) (local_search : bool)
    (max_time : Z) (w : world) :
  let p := mk_params PATH_CHEAPEST_ARC
             (if local_search then Some GUIDED_LOCAL_SEARCH else None)
             (if local_search then Some max_time else None) in
  solver (w_heap w) (o_routing o) p = None ->
  optimizer_solver solver o local_search max_time w =
    (inr (mk_output 0 [] 0), mk_world (w_heap w) (w_trace w ++ [EvSolve (o_routing o) p])).
Proof.
  intros p Hnone. unfold optimizer_solver, solve, bind. fold p. rewrite Hnone.
  reflexivity.
Qed.

Lemma optimizer_solver_infeasible_witness :
  never_solves (w_heap example_world1) (o_routing example_optimizer)
    (mk_params PATH_CHEAPEST_ARC (Some GUIDED_LOCAL_SEARCH) (Some 3600)) = None /\
  optimizer_solver never_solves example_optimizer true 3600 example_world1 =
    (inr (mk_output 0 [] 0),
     mk_world (w_heap example_world1)
       (w_trace example_world1 ++
        [EvSolve (o_routing example_optimizer)
           (mk_params PATH_CHEAPEST_ARC (Some GUIDED_LOCAL_SEARCH) (Some 3600))])).
Proof.
  split; [reflexivity|].
  exact (optimizer_solver_infeasible never_solves example_optimizer true 3600
           example_world1 eq_refl).
Defined.

(** C1 (code defect): on the INBOUND example with [slack_time = 60], the
    model built by [__init__] has depot row [-60] and a zero transit cost
    from the depot; but every model rebuilt by the escalation of
    [grid_search] is built with [_set_routing]'s default [slack_time = 120]
    while the depot row stays [-60], so the solver is fed a transit cost of
    [60], not [0], from the depot in all six escalation attempts. *)
Theorem depot_cost_escalation_slack :
  heap_get (w_heap example_world1) (time_matrix (o_cfg example_optimizer)) =
    [[-60; -60]; [5; 0]] /\
  time_callback (w_heap example_world1) (o_routing example_optimizer) 0 0 = 0 /\
  time_callback (w_heap example_world1) (o_routing example_optimizer) 0 1 = 0 /\
  let w2 := snd (grid_search never_solves 5 example_optimizer example_world1) in
  length (solver_calls (w_trace w2)) = 7%nat /\
  hd_error (solver_calls (w_trace w2)) = Some (o_routing example_optimizer) /\
  forallb (fun r => (rt_slack_time r =? 120) &&
                    (time_callback (w_heap w2) r 0 0 =? 60) &&
                    (time_callback (w_heap w2) r 0 1 =? 60))
    (tl (solver_calls (w_trace w2))) = true.
Proof. vm_compute. repeat split; reflexivity. Qed.

(** C8 fails as stated: [__init__] copies the caller's matrix
    ([np.array]), so the caller's object 0 keeps its original entries while
    the optimizer's own object is adjusted. *)
Lemma init_does_not_mutate_caller :
  heap_get (w_heap example_world) 0%nat = [[0; 5]; [5; 0]] /\
  heap_get (w_heap example_world1) 0%nat = [[0; 5]; [5; 0]] /\
  time_matrix (o_cfg example_optimizer) = 1%nat /\
  heap_get (w_heap example_world1) 1%nat = [[-60; -60]; [5; 0]].
Proof. vm_compute. repeat split; reflexivity. Qed.

(** C8, as amended: [__init__] adjusts a fresh copy of the caller's
    matrix and leaves every pre-existing object, the caller's matrix
    included, unchanged; any rebuild of the model from the adjusted state
    re-applies the assignment without changing any object, so after any
    number of rebuilds (and after [grid_search], whatever the solver does)
    the optimizer's matrix is still the once-adjusted one. *)
Theorem init_copies_matrix (input : RouteOptimizerInput) (vp : Z) (w0 w1 : world)
    (o : optimizer) :
  __init__ input vp w0 = (inr o, w1) ->
  (forall l, (l < length (w_heap w0))%nat -> heap_get (w_heap w1) l = heap_get (w_heap w0) l) /\
  time_matrix (o_cfg o) = length (w_heap w0) /\
  depot_adjust (in_mode input) (in_slack_time input)
    (heap_get (w_heap w0) (in_time_matrix input)) =
    Some (heap_get (w_heap w1) (time_matrix (o_cfg o))) /\
  (forall o1 ev et tr, o_cfg o1 = o_cfg o ->
     exists o2 tr', rebuild o1 ev et (mk_world (w_heap w1) tr) =
                      (inr o2, mk_world (w_heap w1) tr') /\ o_cfg o2 = o_cfg o) /\
  (forall solver gstl, exists res tr',
     grid_search solver gstl o w1 = (inr res, mk_world (w_heap w1) tr')).
Proof.
  intros Hi.
  destruct (init_spec input vp w0 w1 o Hi)
    as (Hc & Hadj & _ & Hold & Hf & _).
  split; [exact Hold|].
  split; [rewrite Hc; reflexivity|].
  split; [rewrite Hc; exact Hadj|].
  split.
  - intros o1 ev et tr Ho1.
    assert (Hf1 : fixed_world (o_cfg o1) (w_heap w1)) by now rewrite Ho1.
    destruct (rebuild_fixed o1 ev et (w_heap w1) tr Hf1) as (d & r & Hr & _).
    exists (mk_optimizer (o_cfg o1) d (rt_manager r) r), (tr ++ [EvSetRouting r]).
    split; [exact Hr|exact Ho1].
  - intros solver gstl.
    destruct w1 as [h1 tr1]. simpl in *.
    unfold grid_search, solve, bind. simpl.
    destruct (solver h1 (o_routing o) (grid_search_parameters gstl)).
    + do 2 eexists. reflexivity.
    + destruct (grid_search_solver_fixed solver gstl o 3 3 h1
                  (tr1 ++ [EvSolve (o_routing o) (grid_search_parameters gstl)]) Hf)
        as (o3 & out & ev & r3 & H & _).
      exists (o3, out). eexists. exact H.
Qed.

Lemma init_copies_matrix_witness :
  __init__ example_input 10000 example_world = (inr example_optimizer, example_world1) /\
  (forall l, (l < length (w_heap example_world))%nat ->
     heap_get (w_heap example_world1) l = heap_get (w_heap example_world) l) /\
  time_matrix (o_cfg example_optimizer) = length (w_heap example_world) /\
  depot_adjust (in_mode example_input) (in_slack_time example_input)
    (heap_get (w_heap example_world) (in_time_matrix example_input)) =
    Some (heap_get (w_heap example_world1) (time_matrix (o_cfg example_optimizer))) /\
  (forall o1 ev et tr, o_cfg o1 = o_cfg example_optimizer ->
     exists o2 tr', rebuild o1 ev et (mk_world (w_heap example_world1) tr) =
                      (inr o2, mk_world (w_heap example_world1) tr') /\
                    o_cfg o2 = o_cfg example_optimizer) /\
  (forall solver gstl, exists res tr',
     grid_search solver gstl example_optimizer example_world1 =
       (inr res, mk_world (w_heap example_world1) tr')).
Proof.
  assert (Hi : __init__ example_input 10000 example_world =
               (inr example_optimizer, example_world1)) by reflexivity.
  split; [exact Hi|].
  exact (init_copies_matrix example_input 10000 example_world example_world1
           example_optimizer Hi).
Defined.

Lemma walk_step_fold (d : data_model) (steps : list step) (a : list RouteStop) (t l : Z) :
  fold_left (walk_step d) steps (a, t, l) =
    (a ++ map (fun s => mk_stop (st_node s) (demand_of d (st_node s)) None (st_cumul s)) steps,
     t + fold_right Z.add 0 (map st_arc steps),
     l + fold_right Z.add 0 (map (fun s => demand_of d (st_node s)) steps)).
Proof.
  revert a t l; induction steps as [|s steps IH]; intros a t l; simpl.
  - rewrite app_nil_r, !Z.add_0_r. reflexivity.
  - rewrite IH, <- app_assoc. simpl. f_equal; [f_equal|]; lia.
Qed.

Lemma nth_error_vehicles {B} (f : Z -> B) (n : Z) (v : Z) :
  0 <= v < n ->
  nth_error (map f (map Z.of_nat (seq 0 (Z.to_nat n)))) (Z.to_nat v) = Some (f v).
Proof.
  intros Hv. rewrite map_map, nth_error_map, nth_error_seq.
  destruct (Nat.ltb_spec (Z.to_nat v) (Z.to_nat n)); [|lia].
  simpl. rewrite Z2Nat.id by lia. reflexivity.
Qed.

(** C6: [_extract_output] returns one route per configured vehicle.  For
    vehicle [vehicle_id], the walk starts at the depot; with
    [route_load] the sum of the demands walked and [cost] the sum of the
    arc costs walked, the route's time is [cost - vehicle_penalty] when
    [cost > 0] and [cost] otherwise; for INBOUND the depot stop is dropped
    from the head and a final stop [stop_id = 0], [stop_demand = 0],
    [vehicle_occupancy = route_load], [travel_time] = that net time is
    appended; for OUTBOUND the walked stops are kept in order, the depot
    first. *)
Theorem extract_output_routes (o : optimizer) (solution : Solution) :
  mg_depot (o_manager o) = 0 ->
  let d := o_data o in
  length (out_routes (_extract_output o solution)) = Z.to_nat (dm_num_vehicles d) /\
  forall vehicle_id, 0 <= vehicle_id < dm_num_vehicles d ->
    let w := solution vehicle_id in
    let steps := mk_step 0 (start_cumul w) (start_arc w) :: visits w in
    let route_load := fold_right Z.add 0 (map (fun s => demand_of d (st_node s)) steps) in
    let cost := fold_right Z.add 0 (map st_arc steps) in
    let net := if cost >? 0 then cost - vehicle_penalty (o_cfg o) else cost in
    let stop_of := fun s => mk_stop (st_node s) (demand_of d (st_node s)) None (st_cumul s) in
    nth_error (out_routes (_extract_output o solution)) (Z.to_nat vehicle_id) =
      Some (mk_route (nth (Z.to_nat vehicle_id) (dm_vehicle_capacities d) 0)
              route_load net
              (match mode (o_cfg o) with
               | INBOUND => map stop_of (visits w) ++ [mk_stop 0 0 (Some route_load) net]
               | OUTBOUND => stop_of (mk_step 0 (start_cumul w) (start_arc w))
                               :: map stop_of (visits w)
               end)).
Proof.
  intros Hdepot d. split.
  - unfold _extract_output. simpl. now rewrite !length_map, length_seq.
  - intros v Hv. unfold _extract_output. simpl.
    rewrite (nth_error_vehicles (extract_route o solution) (dm_num_vehicles (o_data o)) v Hv).
    f_equal. unfold extract_route, walk_vehicle. rewrite Hdepot, walk_step_fold.
    simpl app. rewrite !Z.add_0_l.
    destruct (mode (o_cfg o)); reflexivity.
Qed.

Lemma extract_output_routes_witness :
  mg_depot (o_manager example_optimizer) = 0 /\
  let d := o_data example_optimizer in
  length (out_routes (_extract_output example_optimizer one_visit)) =
    Z.to_nat (dm_num_vehicles d) /\
  forall vehicle_id, 0 <= vehicle_id < dm_num_vehicles d ->
    let w := one_visit vehicle_id in
    let steps := mk_step 0 (start_cumul w) (start_arc w) :: visits w in
    let route_load := fold_right Z.add 0 (map (fun s => demand_of d (st_node s)) steps) in
    let cost := fold_right Z.add 0 (map st_arc steps) in
    let net := if cost >? 0 then cost - vehicle_penalty (o_cfg example_optimizer) else cost in
    let stop_of := fun s => mk_stop (st_node s) (demand_of d (st_node s)) None (st_cumul s) in
    nth_error (out_routes (_extract_output example_optimizer one_visit)) (Z.to_nat vehicle_id) =
      Some (mk_route (nth (Z.to_nat vehicle_id) (dm_vehicle_capacities d) 0)
              route_load net
              (match mode (o_cfg example_optimizer) with
               | INBOUND => map stop_of (visits w) ++ [mk_stop 0 0 (Some route_load) net]
               | OUTBOUND => stop_of (mk_step 0 (start_cumul w) (start_arc w))
                               :: map stop_of (visits w)
               end)).
Proof.
  split; [reflexivity|].
  exact (extract_output_routes example_optimizer one_visit eq_refl).
Defined.

Example extract_output_example :
  route_stops (nth 0 (out_routes (_extract_output example_optimizer one_visit))
                 (mk_route 0 0 0 [])) =
    [mk_stop 1 1 None 0; mk_stop 0 0 (Some 1) 60].
Proof. vm_compute. reflexivity. Qed.

(** ** Further properties of the route chunker *)

Lemma prepare_request_inv {A : Type} (M : Z) (s : list A) (c : string) (req : request A) :
  _prepare_request_route M s c = inr req ->
  request_stops req = s /\ request_mode req = c /\ (2 <= length s)%nat /\
  (length s = 2%nat \/ Z.of_nat (length s) <= M).
Proof.
  destruct s as [|o [|d [|x rest]]]; cbn [_prepare_request_route length];
    try discriminate.
  - intros H; inversion H; subst. simpl. repeat split; auto.
  - zcmp; intros Hreq; [|discriminate].
    injection Hreq as <-. cbn [request_stops request_mode].
    split; [|split; [reflexivity|split; [simpl; lia|right; assumption]]].
    f_equal. symmetry. apply (app_removelast_last (l := d :: x :: rest) o).
    discriminate.
Qed.

Lemma prepare_request_ok {A : Type} (M : Z) (s : list A) (c : string) :
  (2 <= length s)%nat -> (length s = 2%nat \/ Z.of_nat (length s) <= M) ->
  exists req, _prepare_request_route M s c = inr req.
Proof.
  intros H2 Hc.
  destruct s as [|o [|d [|x rest]]]; cbn [_prepare_request_route length] in *;
    try lia; eauto.
  zcmp; eauto. destruct Hc; lia.
Qed.

Lemma py_slice_prefix {A : Type} (stop : Z) (l : list A) :
  py_slice 0 stop l = firstn (Z.to_nat stop) l.
Proof. unfold py_slice. simpl. now rewrite Nat.sub_0_r. Qed.

Lemma py_slice_suffix {A : Type} (start : Z) (l : list A) :
  0 <= start -> py_slice start (Z.of_nat (length l)) l = skipn (Z.to_nat start) l.
Proof.
  intros H. unfold py_slice. rewrite Nat2Z.id. apply firstn_all2.
  rewrite length_skipn. lia.
Qed.

Lemma prepare_request_too_long {A : Type} (M : Z) (s : list A) (c : string) :
  (3 <= length s)%nat -> M < Z.of_nat (length s) ->
  _prepare_request_route M s c =
    inl (InvalidRequestFormat (append "Maximum number of stops is " (PyStr.str_of_Z M))).
Proof.
  intros H3 HM.
  destruct s as [|o [|d [|x rest]]]; cbn [_prepare_request_route length] in *; try lia.
  zcmp; [lia|reflexivity].
Qed.

Lemma prepare_request_too_few {A : Type} (M : Z) (s : list A) (c : string) :
  (length s < 2)%nat ->
  _prepare_request_route M s c = inl (InvalidRequestFormat "At least two stops are required").
Proof.
  intros H. destruct s as [|o [|d rest]]; simpl in *; try lia; reflexivity.
Qed.

Section LoopSteps.

Context {A : Type}.
Variable directions : request A -> error + cart_route.

Lemma get_route_loop_step (fuel : nat) (M : Z) (stops : list A) (c : string)
    (s e : Z) (calls : list (request A)) (routes : list cart_route)
    (req : request A) (r : cart_route) :
  e <= Z.of_nat (length stops) -> s < Z.of_nat (length stops) - 1 ->
  _prepare_request_route M (py_slice s e stops) c = inr req ->
  directions req = inr r ->
  get_route_loop directions (S fuel) M stops c s e calls routes =
  get_route_loop directions fuel M stops c (e - 1)
    (Z.min (e + M) (Z.of_nat (length stops))) (calls ++ [req]) (routes ++ [r]).
Proof.
  intros He Hs Hp Hd. cbn [get_route_loop].
  rewrite (proj2 (Z.leb_le _ _) He), (proj2 (Z.ltb_lt _ _) Hs). simpl andb.
  rewrite Hp, Hd. reflexivity.
Qed.

Lemma get_route_loop_reject (fuel : nat) (M : Z) (stops : list A) (c : string)
    (s e : Z) (calls : list (request A)) (routes : list cart_route) (err : error) :
  e <= Z.of_nat (length stops) -> s < Z.of_nat (length stops) - 1 ->
  _prepare_request_route M (py_slice s e stops) c = inl err ->
  get_route_loop directions (S fuel) M stops c s e calls routes = Some (calls, inl err).
Proof.
  intros He Hs Hp. cbn [get_route_loop].
  rewrite (proj2 (Z.leb_le _ _) He), (proj2 (Z.ltb_lt _ _) Hs). simpl andb.
  rewrite Hp. reflexivity.
Qed.

Lemma get_route_loop_stop (fuel : nat) (M : Z) (stops : list A) (c : string)
    (s e : Z) (calls : list (request A)) (routes : list cart_route) :
  Z.of_nat (length stops) - 1 <= s ->
  get_route_loop directions (S fuel) M stops c s e calls routes =
    Some (calls, inr (_combine_routes routes)).
Proof.
  intros Hs. cbn [get_route_loop].
  rewrite (proj2 (Z.ltb_ge _ _) Hs), andb_false_r. reflexivity.
Qed.

End LoopSteps.

(** [GoogleMaps._prepare_request_route] round trip: whenever it builds a
    request, the request's origin, waypoints and destination are, in
    order, exactly the stops it was given, its mode is the costing, and
    the stop count is two or between three and [max_route_stops]. *)
Theorem prepare_request_round_trip {A : Type} (M : Z) (stops : list A) (costing : string)
    (req : request A) :
  _prepare_request_route M stops costing = inr req ->
  request_stops req = stops /\ request_mode req = costing /\
  (2 <= length stops)%nat /\ (length stops = 2%nat \/ Z.of_nat (length stops) <= M).
Proof. apply prepare_request_inv. Qed.

Lemma prepare_request_round_trip_witness :
  _prepare_request_route 27 [1; 2; 3; 4] "driving" = inr (Req_wp 1 4 [2; 3] "driving") /\
  request_stops (Req_wp 1 4 [2; 3] "driving") = [1; 2; 3; 4] /\
  request_mode (Req_wp 1 4 [2; 3] "driving") = "driving"%string /\
  (2 <= length [1; 2; 3; 4])%nat /\
  (length [1; 2; 3; 4] = 2%nat \/ Z.of_nat (length [1; 2; 3; 4]) <= 27).
Proof.
  assert (H : _prepare_request_route 27 [1; 2; 3; 4] "driving" =
              inr (Req_wp 1 4 [2; 3] "driving")) by reflexivity.
  split; [exact H|]. exact (prepare_request_round_trip 27 [1; 2; 3; 4] "driving" _ H).
Defined.

(** [GoogleMaps._prepare_request_route] outcome: fewer than two stops are
    rejected with "At least two stops are required"; exactly two stops
    always give an origin/destination request, whatever
    [max_route_stops]; three stops or more give a request when their
    number is at most [max_route_stops] and are rejected with "Maximum
    number of stops is <max_route_stops>" otherwise. *)
Theorem prepare_request_outcome {A : Type} (M : Z) (stops : list A) (costing : string) :
  ((length stops < 2)%nat ->
   _prepare_request_route M stops costing =
     inl (InvalidRequestFormat "At least two stops are required")) /\
  (length stops = 2%nat ->
   exists o d, stops = [o; d] /\ _prepare_request_route M stops costing = inr (Req_od o d costing)) /\
  ((3 <= length stops)%nat -> Z.of_nat (length stops) <= M ->
   exists req, _prepare_request_route M stops costing = inr req) /\
  ((3 <= length stops)%nat -> M < Z.of_nat (length stops) ->
   _prepare_request_route M stops costing =
     inl (InvalidRequestFormat (append "Maximum number of stops is " (PyStr.str_of_Z M)))).
Proof.
  split; [apply prepare_request_too_few|].
  split; [|split].
  - intros H. destruct stops as [|o [|d [|x rest]]]; simpl in H; try lia.
    exists o, d. split; reflexivity.
  - intros H3 HM. apply prepare_request_ok; [lia|right; exact HM].
  - apply prepare_request_too_long.
Qed.

(** [GoogleMaps.get_route] with [max_route_stops >= 2] on [L] stops, [2 <=
    L < 2 * max_route_stops], when every network call succeeds: it sends
    one request with all the stops if [L <= max_route_stops], and
    otherwise two requests, [stops[:max_route_stops]] and
    [stops[max_route_stops - 1:]], overlapping in one stop, each with at
    most [max_route_stops] stops; the result is the concatenation of the
    responses, in order. *)
Theorem get_route_within_two_windows {A : Type} (f : request A -> cart_route)
    (M : Z) (stops : list A) (costing : string) :
  2 <= M -> (2 <= length stops)%nat -> Z.of_nat (length stops) < 2 * M ->
  exists reqs,
    get_route (fun q => inr (f q)) M stops costing =
      Some (reqs, inr (_combine_routes (map f reqs))) /\
    Forall (fun q => request_mode q = costing /\ (2 <= length (request_stops q))%nat /\
                     Z.of_nat (length (request_stops q)) <= M) reqs /\
    (Z.of_nat (length stops) <= M -> map request_stops reqs = [stops]) /\
    (M < Z.of_nat (length stops) ->
     map request_stops reqs = [firstn (Z.to_nat M) stops; skipn (Z.to_nat M - 1) stops]).
Proof.
  intros HM HL2 HL. unfold get_route.
  replace (S (length stops)) with (S (S (S (length stops - 2)))) by lia.
  destruct (Z.le_gt_cases (Z.of_nat (length stops)) M) as [Hle|Hgt].
  - rewrite Z.min_l by exact Hle.
    assert (Hs : py_slice 0 (Z.of_nat (length stops)) stops = stops).
    { rewrite py_slice_prefix, Nat2Z.id. apply firstn_all. }
    destruct (prepare_request_ok M stops costing HL2 (or_intror Hle)) as [req Hreq].
    rewrite <- Hs in Hreq.
    rewrite (get_route_loop_step _ _ _ _ _ _ _ _ _ req (f req)) by (auto; lia).
    rewrite get_route_loop_stop by lia.
    rewrite Hs in Hreq.
    destruct (prepare_request_inv _ _ _ _ Hreq) as (Hst & Hmd & H2 & _).
    exists [req]. simpl. split; [reflexivity|].
    split; [constructor; [rewrite Hst; auto|constructor]|].
    split; [intros _; rewrite Hst; reflexivity|lia].
  - rewrite Z.min_r by lia.
    assert (E1 : py_slice 0 M stops = firstn (Z.to_nat M) stops) by apply py_slice_prefix.
    assert (L1 : length (firstn (Z.to_nat M) stops) = Z.to_nat M)
      by (rewrite length_firstn; lia).
    destruct (prepare_request_ok M (firstn (Z.to_nat M) stops) costing
                ltac:(lia) ltac:(right; lia)) as [req1 Hreq1].
    rewrite <- E1 in Hreq1.
    rewrite (get_route_loop_step _ _ _ _ _ _ _ _ _ req1 (f req1)) by (auto; lia).
    rewrite Z.min_r by lia.
    assert (E2 : py_slice (M - 1) (Z.of_nat (length stops)) stops =
                 skipn (Z.to_nat M - 1) stops).
    { rewrite py_slice_suffix by lia. f_equal. lia. }
    assert (L2 : length (skipn (Z.to_nat M - 1) stops) = (length stops - (Z.to_nat M - 1))%nat)
      by apply length_skipn.
    destruct (prepare_request_ok M (skipn (Z.to_nat M - 1) stops) costing
                ltac:(lia) ltac:(right; lia)) as [req2 Hreq2].
    rewrite <- E2 in Hreq2.
    rewrite (get_route_loop_step _ _ _ _ _ _ _ _ _ req2 (f req2)) by (auto; lia).
    rewrite get_route_loop_stop by lia.
    rewrite E1 in Hreq1. rewrite E2 in Hreq2.
    destruct (prepare_request_inv _ _ _ _ Hreq1) as (Hst1 & Hmd1 & _).
    destruct (prepare_request_inv _ _ _ _ Hreq2) as (Hst2 & Hmd2 & _).
    exists [req1; req2]. simpl. split; [reflexivity|].
    split.
    { rewrite <- Hst1, <- Hst2 in *. repeat constructor; auto; lia. }
    split; [lia|]. intros _. rewrite Hst1, Hst2. reflexivity.
Qed.

Lemma get_route_within_two_windows_witness :
  2 <= 3 /\ (2 <= length [1; 2; 3; 4; 5])%nat /\ Z.of_nat (length [1; 2; 3; 4; 5]) < 2 * 3 /\
  exists reqs,
    get_route (fun q => inr (mk_cart_route [] (map (fun _ => 1) (request_stops q)) []))
      3 [1; 2; 3; 4; 5] "driving" =
      Some (reqs, inr (_combine_routes
                         (map (fun q => mk_cart_route [] (map (fun _ => 1) (request_stops q)) [])
                            reqs))) /\
    Forall (fun q => request_mode q = "driving"%string /\ (2 <= length (request_stops q))%nat /\
                     Z.of_nat (length (request_stops q)) <= 3) reqs /\
    (Z.of_nat (length [1; 2; 3; 4; 5]) <= 3 -> map request_stops reqs = [[1; 2; 3; 4; 5]]) /\
    (3 < Z.of_nat (length [1; 2; 3; 4; 5]) ->
     map request_stops reqs =
       [firstn (Z.to_nat 3) [1; 2; 3; 4; 5]; skipn (Z.to_nat 3 - 1) [1; 2; 3; 4; 5]]).
Proof.
  split; [lia|]. split; [simpl; lia|]. split; [simpl; lia|].
  apply (get_route_within_two_windows
           (fun q => mk_cart_route [] (map (fun _ => 1) (request_stops q)) []) 3 [1; 2; 3; 4; 5]);
    simpl; lia.
Defined.

(** [GoogleMaps.get_route] with [max_route_stops >= 2] on at least
    [2 * max_route_stops] stops, when the first network call succeeds: the
    second window [stops[max_route_stops - 1 : 2 * max_route_stops]] has
    [max_route_stops + 1] stops, so after one request (the first
    [max_route_stops] stops) the call fails with "Maximum number of stops
    is <max_route_stops>". *)
Theorem get_route_rejects_second_window {A : Type} (f : request A -> cart_route)
    (M : Z) (stops : list A) (costing : string) :
  2 <= M -> 2 * M <= Z.of_nat (length stops) ->
  length (py_slice (M - 1) (2 * M) stops) = S (Z.to_nat M) /\
  exists req1,
    request_stops req1 = firstn (Z.to_nat M) stops /\
    get_route (fun q => inr (f q)) M stops costing =
      Some ([req1], inl (InvalidRequestFormat
                           (append "Maximum number of stops is " (PyStr.str_of_Z M)))).
Proof.
  intros HM HL. unfold get_route.
  assert (L2 : length (py_slice (M - 1) (2 * M) stops) = S (Z.to_nat M)).
  { unfold py_slice. rewrite length_firstn, length_skipn. lia. }
  split; [exact L2|].
  replace (S (length stops)) with (S (S (length stops - 1))) by lia.
  rewrite Z.min_r by lia.
  assert (E1 : py_slice 0 M stops = firstn (Z.to_nat M) stops) by apply py_slice_prefix.
  assert (L1 : length (firstn (Z.to_nat M) stops) = Z.to_nat M)
    by (rewrite length_firstn; lia).
  destruct (prepare_request_ok M (firstn (Z.to_nat M) stops) costing
              ltac:(lia) ltac:(right; lia)) as [req1 Hreq1].
  rewrite <- E1 in Hreq1.
  rewrite (get_route_loop_step _ _ _ _ _ _ _ _ _ req1 (f req1)) by (auto; lia).
  rewrite Z.min_l by lia.
  replace (M + M) with (2 * M) by lia.
  rewrite (get_route_loop_reject _ _ _ _ _ _ _ _ _
             (InvalidRequestFormat (append "Maximum number of stops is " (PyStr.str_of_Z M))))
    by (try lia; apply prepare_request_too_long; lia).
  rewrite E1 in Hreq1.
  destruct (prepare_request_inv _ _ _ _ Hreq1) as (Hst1 & _).
  exists req1. split; [exact Hst1|reflexivity].
Qed.

Lemma get_route_rejects_second_window_witness :
  2 <= 2 /\ 2 * 2 <= Z.of_nat (length [1; 2; 3; 4]) /\
  length (py_slice (2 - 1) (2 * 2) [1; 2; 3; 4]) = S (Z.to_nat 2) /\
  exists req1,
    request_stops req1 = firstn (Z.to_nat 2) [1; 2; 3; 4] /\
    get_route (fun q => inr (mk_cart_route [] [] [])) 2 [1; 2; 3; 4] "driving" =
      Some ([req1], inl (InvalidRequestFormat
                           (append "Maximum number of stops is " (PyStr.str_of_Z 2)))).
Proof.
  split; [lia|]. split; [simpl; lia|].
  apply (get_route_rejects_second_window (fun _ => mk_cart_route [] [] []) 2 [1; 2; 3; 4]);
    simpl; lia.
Defined.

(** ** Further properties of the matrix chunker *)

Lemma bisect_elements (q a b : rect) :
  0 <= dimension_1 q -> 0 <= dimension_2 q -> bisect q = (a, b) ->
  elements a + elements b = elements q.
Proof.
  destruct q as [sr er sc ec]; unfold bisect, elements, dimension_1, dimension_2; simpl.
  intros _ _.
  destruct (Z.eqb_spec (er - sr) (Z.max (er - sr) (ec - sc))); intros H;
    inversion H; subst; simpl; ring.
Qed.

Lemma sum_app (l1 l2 : list Z) :
  fold_right Z.add 0 (l1 ++ l2) = fold_right Z.add 0 l1 + fold_right Z.add 0 l2.
Proof. induction l1 as [|x l1 IH]; simpl; lia. Qed.

Lemma slice_rel_sum (q : rect) (max_elements : Z) (l : list rect) :
  slice_matrix_rel q max_elements l ->
  0 <= dimension_1 q -> 0 <= dimension_2 q ->
  fold_right Z.add 0 (map elements l) = elements q.
Proof.
  induction 1 as [q m Hle|q m a b la lb Hlt Hb Ha IHa Hb' IHb]; intros H1 H2.
  - simpl. lia.
  - destruct (bisect_partition q a b H1 H2 Hb) as (A1 & A2 & B1 & B2 & _).
    rewrite map_app, sum_app, (IHa A1 A2), (IHb B1 B2).
    exact (bisect_elements q a b H1 H2 Hb).
Qed.

Lemma slice_rel_nonempty (q : rect) (max_elements : Z) (l : list rect) :
  slice_matrix_rel q max_elements l -> 1 <= max_elements ->
  0 < dimension_1 q -> 0 < dimension_2 q ->
  Forall (fun x => 0 < dimension_1 x /\ 0 < dimension_2 x) l.
Proof.
  induction 1 as [q m Hle|q m a b la lb Hlt Hb Ha IHa Hb' IHb]; intros Hm H1 H2.
  - repeat constructor; assumption.
  - destruct (bisect_smaller q a b m Hm Hlt ltac:(lia) ltac:(lia) Hb)
      as (A1 & A2 & B1 & B2 & _).
    apply Forall_app; auto.
Qed.

Lemma length_le_sum (l : list rect) :
  Forall (fun x => 1 <= elements x) l ->
  Z.of_nat (length l) <= fold_right Z.add 0 (map elements l).
Proof. induction 1; simpl; lia. Qed.

(** [slice_matrix] with [max_elements >= 1] on a rectangle with
    non-negative sides: the element counts of the returned rectangles add
    up to the input's; if the input is non-empty every returned rectangle
    is non-empty (so no API call is made for an empty block) and there are
    at most as many rectangles as elements; a zero-area input is returned
    unsplit, as the only rectangle. *)
Theorem slice_matrix_tile_count (start_row end_row start_col end_col max_elements : Z)
    (l : list rect) :
  1 <= max_elements -> start_row <= end_row -> start_col <= end_col ->
  slice_matrix_rel (mk_rect start_row end_row start_col end_col) max_elements l ->
  fold_right Z.add 0 (map elements l) = (end_row - start_row) * (end_col - start_col) /\
  (start_row < end_row -> start_col < end_col ->
   Forall (fun x => 0 < dimension_1 x /\ 0 < dimension_2 x) l /\
   (length l <= Z.to_nat ((end_row - start_row) * (end_col - start_col)))%nat) /\
  (start_row = end_row \/ start_col = end_col ->
   l = [mk_rect start_row end_row start_col end_col]).
Proof.
  intros Hm Hr Hc Hl.
  set (q := mk_rect start_row end_row start_col end_col) in *.
  assert (H1 : 0 <= dimension_1 q) by (unfold q, dimension_1; simpl; lia).
  assert (H2 : 0 <= dimension_2 q) by (unfold q, dimension_2; simpl; lia).
  pose proof (slice_rel_sum q max_elements l Hl H1 H2) as Hsum.
  split; [exact Hsum|]. split.
  - intros Hr' Hc'.
    assert (Hne := slice_rel_nonempty q max_elements l Hl Hm
                     ltac:(unfold q, dimension_1; simpl; lia)
                     ltac:(unfold q, dimension_2; simpl; lia)).
    split; [exact Hne|].
    assert (Hle : Z.of_nat (length l) <= elements q).
    { rewrite <- Hsum. apply length_le_sum.
      eapply Forall_impl; [|exact Hne]. intros x [Ha Hb]. unfold elements. nia. }
    unfold elements, dimension_1, dimension_2, q in Hle; simpl in Hle. lia.
  - intros Hz. apply (slice_rel_functional q max_elements); [exact Hl|].
    constructor. unfold elements, dimension_1, dimension_2, q; simpl.
    destruct Hz as [->| ->]; lia.
Qed.

Lemma slice_matrix_tile_count_witness :
  (1 <= 8 /\ 0 <= 3 /\ 0 <= 3) /\
  slice_matrix_rel (mk_rect 0 3 0 3) 8 [mk_rect 0 1 0 3; mk_rect 1 3 0 3] /\
  fold_right Z.add 0 (map elements [mk_rect 0 1 0 3; mk_rect 1 3 0 3]) = (3 - 0) * (3 - 0) /\
  (0 < 3 -> 0 < 3 ->
   Forall (fun x => 0 < dimension_1 x /\ 0 < dimension_2 x)
     [mk_rect 0 1 0 3; mk_rect 1 3 0 3] /\
   (length [mk_rect 0 1 0 3; mk_rect 1 3 0 3] <= Z.to_nat ((3 - 0) * (3 - 0)))%nat) /\
  (0 = 3 \/ 0 = 3 -> [mk_rect 0 1 0 3; mk_rect 1 3 0 3] = [mk_rect 0 3 0 3]).
Proof.
  split; [lia|].
  assert (H : slice_matrix_rel (mk_rect 0 3 0 3) 8 [mk_rect 0 1 0 3; mk_rect 1 3 0 3])
    by (apply (slice_fuel_sound 3); reflexivity).
  split; [exact H|].
  exact (slice_matrix_tile_count 0 3 0 3 8 _ ltac:(lia) ltac:(lia) ltac:(lia) H).
Defined.

(** ** Further properties of the route optimizer *)

Lemma fold_max_spec (xs : list Z) (acc : Z) :
  (fold_left Z.max xs acc = acc \/ In (fold_left Z.max xs acc) xs) /\
  acc <= fold_left Z.max xs acc /\
  Forall (fun x => x <= fold_left Z.max xs acc) xs.
Proof.
  revert acc; induction xs as [|x xs IH]; intros acc; simpl.
  - repeat split; auto. lia.
  - destruct (IH (Z.max acc x)) as (Hin & Hge & Hall).
    split; [|split; [lia|constructor; [lia|exact Hall]]].
    destruct Hin as [E|Hin]; [|right; right; exact Hin].
    rewrite E. destruct (Z.max_spec acc x) as [[_ ->]|[_ ->]]; auto.
Qed.

Lemma py_max_spec (l : list Z) (mx : Z) :
  py_max l = Some mx -> In mx l /\ Forall (fun x => x <= mx) l.
Proof.
  destruct l as [|x xs]; simpl; [discriminate|]. intros H; inversion H; subst.
  destruct (fold_max_spec xs x) as (Hin & Hge & Hall).
  split; [destruct Hin as [E|Hin]; [left; auto|right; exact Hin]|].
  constructor; [exact Hge|exact Hall].
Qed.

Lemma fleet_capacities_length (fl : list Fleet) :
  Z.of_nat (length (fleet_capacities fl)) =
    fold_right Z.add 0 (map (fun f => Z.max 0 (number_of_vehicles f)) fl).
Proof.
  induction fl as [|f fl IH]; simpl; [reflexivity|].
  rewrite length_app, repeat_length, Nat2Z.inj_add, IH. lia.
Qed.

Lemma fleet_capacities_nil (fl : list Fleet) :
  Forall (fun f => number_of_vehicles f <= 0) fl -> fleet_capacities fl = [].
Proof.
  induction 1 as [|f fl Hf _ IH]; simpl; [reflexivity|].
  rewrite IH, app_nil_r. replace (Z.to_nat (number_of_vehicles f)) with 0%nat by lia.
  reflexivity.
Qed.

Lemma set_col0_rows_none (m : matrix) (v : Z) :
  set_col0_rows m v = None <-> In [] m.
Proof.
  induction m as [|r rs IH]; simpl; [split; [discriminate|tauto]|].
  destruct r as [|x xs]; [split; auto|].
  destruct (set_col0_rows rs v) as [rs'|]; split; intros H.
  - discriminate.
  - destruct H as [H|H]; [discriminate|]. apply IH in H. discriminate.
  - right. now apply IH.
  - reflexivity.
Qed.

(** [RouteOptimizer._create_data_model]: whenever it returns, the vehicle
    capacities are the fleet's capacities, one per vehicle
    ([number_of_vehicles] copies of each item, none for a non-positive
    count), followed by [extra_vehicles] copies of the largest of them;
    the number of vehicles is the sum of the positive
    [number_of_vehicles] plus the positive part of [extra_vehicles]; the
    time budget is [max_travel_time + extra_max_travel_time] and the depot
    is node 0. *)
Theorem create_data_model_vehicles (c : config) (extra_vehicles extra_max_travel_time : Z)
    (w w' : world) (d : data_model) :
  _create_data_model c extra_vehicles extra_max_travel_time w = (inr d, w') ->
  exists mx,
    In mx (fleet_capacities (fleet c)) /\
    Forall (fun x => x <= mx) (fleet_capacities (fleet c)) /\
    dm_vehicle_capacities d =
      fleet_capacities (fleet c) ++ repeat mx (Z.to_nat extra_vehicles) /\
    dm_num_vehicles d =
      fold_right Z.add 0 (map (fun f => Z.max 0 (number_of_vehicles f)) (fleet c)) +
      Z.max 0 extra_vehicles /\
    dm_max_travel_time d = max_travel_time c + extra_max_travel_time /\
    dm_depot d = 0 /\
    dm_time_matrix d = time_matrix c.
Proof.
  destruct w as [h tr]. unfold _create_data_model. monad_simpl.
  destruct (depot_adjust (mode c) (slack_time c) (heap_get h (time_matrix c)));
    simpl; [|discriminate].
  destruct (py_max (fleet_capacities (fleet c))) as [mx|] eqn:Em; simpl; [|discriminate].
  intros H; inversion H; subst; clear H. simpl.
  destruct (py_max_spec _ _ Em) as [Hin Hall].
  exists mx. repeat split; auto.
  rewrite length_app, repeat_length, Nat2Z.inj_add, fleet_capacities_length. lia.
Qed.

Lemma create_data_model_vehicles_witness :
  _create_data_model (mk_config INBOUND 0%nat [mk_fleet 10 2; mk_fleet 20 1; mk_fleet 30 0]
                        [0; 1] 100 60 10000) 2 30
    (mk_world [[[0; 5]; [5; 0]]] []) =
    (inr (mk_data 0%nat [0; 1] [10; 10; 20; 20; 20] 5 0 130),
     mk_world [[[-60; -60]; [5; 0]]] []) /\
  exists mx,
    In mx (fleet_capacities [mk_fleet 10 2; mk_fleet 20 1; mk_fleet 30 0]) /\
    Forall (fun x => x <= mx) (fleet_capacities [mk_fleet 10 2; mk_fleet 20 1; mk_fleet 30 0]) /\
    dm_vehicle_capacities (mk_data 0%nat [0; 1] [10; 10; 20; 20; 20] 5 0 130) =
      fleet_capacities [mk_fleet 10 2; mk_fleet 20 1; mk_fleet 30 0] ++ repeat mx (Z.to_nat 2) /\
    dm_num_vehicles (mk_data 0%nat [0; 1] [10; 10; 20; 20; 20] 5 0 130) =
      fold_right Z.add 0 (map (fun f => Z.max 0 (number_of_vehicles f))
                            [mk_fleet 10 2; mk_fleet 20 1; mk_fleet 30 0]) + Z.max 0 2 /\
    dm_max_travel_time (mk_data 0%nat [0; 1] [10; 10; 20; 20; 20] 5 0 130) = 100 + 30 /\
    dm_depot (mk_data 0%nat [0; 1] [10; 10; 20; 20; 20] 5 0 130) = 0 /\
    dm_time_matrix (mk_data 0%nat [0; 1] [10; 10; 20; 20; 20] 5 0 130) = 0%nat.
Proof.
  assert (H : _create_data_model (mk_config INBOUND 0%nat [mk_fleet 10 2; mk_fleet 20 1;
                                    mk_fleet 30 0] [0; 1] 100 60 10000) 2 30
                (mk_world [[[0; 5]; [5; 0]]] []) =
              (inr (mk_data 0%nat [0; 1] [10; 10; 20; 20; 20] 5 0 130),
               mk_world [[[-60; -60]; [5; 0]]] [])) by reflexivity.
  split; [exact H|].
  exact (create_data_model_vehicles _ 2 30 _ _ _ H).
Defined.

Lemma np_array_matrix_uniform (m : matrix) :
  Forall (fun r => length r = length (hd [] m)) m -> np_array_matrix m = Some m.
Proof.
  destruct m as [|r rs]; [reflexivity|]. intros Hu. inversion Hu as [|? ? _ Hrs]; subst.
  simpl. replace (forallb _ rs) with true; [reflexivity|].
  symmetry. apply forallb_forall. intros x Hx. apply Nat.eqb_eq.
  rewrite Forall_forall in Hrs. exact (Hrs x Hx).
Qed.

Lemma np_array_matrix_ragged (m : matrix) (r : list Z) :
  In r m -> length r <> length (hd [] m) -> np_array_matrix m = None.
Proof.
  destruct m as [|r0 rs]; [intros []|]. simpl. intros [<- | Hin] Hne; [congruence|].
  destruct (forallb (fun r' => Nat.eqb (length r') (length r0)) rs) eqn:E; [|reflexivity].
  rewrite forallb_forall in E. specialize (E r Hin). apply Nat.eqb_eq in E. congruence.
Qed.

(** [RouteOptimizer.__init__] failures: a ragged matrix (rows of
    different lengths) makes [np.array] raise [ValueError] before
    anything happens; for a rectangular matrix, an INBOUND input whose
    matrix has no row, or an OUTBOUND input whose matrix has no row or
    empty rows, raises [IndexError] (numpy's depot-axis assignment), and
    an input whose fleet has no vehicle (every [number_of_vehicles <= 0],
    or no fleet item) raises [ValueError] ([max] of an empty list).  In
    every case no routing model is built and every object that existed
    before, the caller's matrix included, is unchanged. *)
Theorem init_error_cases (input : RouteOptimizerInput) (vp : Z) (w : world) :
  let m := heap_get (w_heap w) (in_time_matrix input) in
  ((exists r, In r m /\ length r <> length (hd [] m)) ->
   __init__ input vp w = (inl ValueError, w)) /\
  (Forall (fun r => length r = length (hd [] m)) m ->
   (in_mode input = INBOUND /\ m = []) \/ (in_mode input = OUTBOUND /\ (m = [] \/ In [] m)) ->
   exists w', __init__ input vp w = (inl IndexError, w') /\ w_trace w' = w_trace w /\
     forall l, (l < length (w_heap w))%nat -> heap_get (w_heap w') l = heap_get (w_heap w) l) /\
  (Forall (fun r => length r = length (hd [] m)) m -> m <> [] ->
   (in_mode input = OUTBOUND -> ~ In [] m) ->
   Forall (fun f => number_of_vehicles f <= 0) (in_fleet input) ->
   exists w', __init__ input vp w = (inl ValueError, w') /\ w_trace w' = w_trace w /\
     forall l, (l < length (w_heap w))%nat -> heap_get (w_heap w') l = heap_get (w_heap w) l).
Proof.
  destruct w as [h tr]. intros m. simpl in m |- *.
  unfold __init__, _create_data_model. monad_simpl. fold m. split; [|split].
  - intros (r & Hin & Hne). rewrite (np_array_matrix_ragged m r Hin Hne). reflexivity.
  - intros Hu Hm. rewrite (np_array_matrix_uniform m Hu). simpl.
    rewrite heap_get_app_last.
    assert (E : depot_adjust (in_mode input) (in_slack_time input) m = None).
    { destruct Hm as [[-> ->]|[-> [-> | Hin]]]; simpl; try reflexivity.
      unfold set_col0. destruct m; [reflexivity|]. now apply set_col0_rows_none. }
    rewrite E. simpl. eexists. split; [reflexivity|]. split; [reflexivity|].
    intros l Hl. simpl. now apply heap_get_app_lt.
  - intros Hu Hne Hrow Hfl. rewrite (np_array_matrix_uniform m Hu). simpl.
    rewrite heap_get_app_last.
    assert (E : exists m', depot_adjust (in_mode input) (in_slack_time input) m = Some m').
    { destruct (in_mode input); simpl.
      - destruct m; [congruence|]. simpl. eauto.
      - unfold set_col0. destruct m as [|r rs]; [congruence|].
        destruct (set_col0_rows (r :: rs) (- in_slack_time input)) eqn:Ec; eauto.
        apply set_col0_rows_none in Ec. exfalso. now apply Hrow. }
    destruct E as [m' E]. rewrite E. simpl.
    rewrite (fleet_capacities_nil _ Hfl). simpl.
    eexists. split; [reflexivity|]. split; [reflexivity|].
    intros l Hl. simpl. rewrite heap_get_set_other by lia. now apply heap_get_app_lt.
Qed.

Lemma extra_time_loop_sched solver gstl (o : optimizer) (is : list Z) (h : heap)
    (tr : list event) :
  fixed_world (o_cfg o) h ->
  exists o' res ev k,
    extra_time_loop solver gstl o is (mk_world h tr) = (inr (o', res), mk_world h (tr ++ ev)) /\
    o_cfg o' = o_cfg o /\
    map model_size (solver_calls ev) =
      map (fun i => (Z.of_nat (length (fleet_capacities (fleet (o_cfg o)))),
                     max_travel_time (o_cfg o) + i * 60)) (firstn k is) /\
    (k <= length is)%nat /\
    (res = None -> k = length is) /\
    (forall i, res = Some i -> (1 <= k)%nat /\ nth (k - 1) is 0 = i) /\
    ((forall h r p, solver h r p = None) -> res = None) /\
    (forall j, (S j < k \/ (j < k /\ res = None))%nat ->
       solved_at solver h (grid_search_parameters gstl) ev j = false) /\
    (forall i, res = Some i -> solved_at solver h (grid_search_parameters gstl) ev (k - 1) = true).
Proof.
  revert o tr; induction is as [|i is IH]; intros o tr Hf.
  - exists o, None, [], 0%nat. rewrite app_nil_r.
    split; [reflexivity|]. split; [reflexivity|]. split; [reflexivity|].
    split; [simpl; lia|]. split; [reflexivity|]. split; [discriminate|].
    split; [auto|]. split; [intros j [Hj|[Hj _]]; lia|]. intros i E; discriminate.
  - destruct (rebuild_fixed o 0 (i * 60) h tr Hf) as (d & r & Hr & Hd & _ & _ & Hn & Ht).
    simpl. unfold bind at 1. rewrite Hr. unfold solve, bind. simpl.
    assert (Hsz : model_size r = (Z.of_nat (length (fleet_capacities (fleet (o_cfg o)))),
                                  max_travel_time (o_cfg o) + i * 60)).
    { unfold model_size. rewrite Hd, Hn, Ht. f_equal. simpl. lia. }
    destruct (solver h r (grid_search_parameters gstl)) as [s|] eqn:Es.
    + exists (mk_optimizer (o_cfg o) d (rt_manager r) r), (Some i),
        [EvSetRouting r; EvSolve r (grid_search_parameters gstl)], 1%nat.
      rewrite <- app_assoc.
      split; [reflexivity|]. split; [reflexivity|].
      split; [simpl; rewrite Hsz; reflexivity|].
      split; [simpl; lia|]. split; [discriminate|].
      split; [intros i' E; inversion E; subst; split; [lia|reflexivity]|].
      split; [intros Hnone; rewrite Hnone in Es; discriminate|].
      split; [intros j [Hj|[_ E]]; [lia|discriminate]|].
      intros i' _; unfold solved_at; simpl; rewrite Es; reflexivity.
    + destruct (IH (mk_optimizer (o_cfg o) d (rt_manager r) r)
                  ((tr ++ [EvSetRouting r]) ++ [EvSolve r (grid_search_parameters gstl)]) Hf)
        as (o' & res & ev & k & Hl & Hc & Hm & Hk & Hnone & Hsome & Hnever & Hfail & Hok).
      exists o', res, ([EvSetRouting r; EvSolve r (grid_search_parameters gstl)] ++ ev), (S k).
      split; [rewrite Hl, <- !app_assoc; reflexivity|].
      split; [exact Hc|].
      split; [simpl; rewrite Hsz; f_equal; exact Hm|].
      split; [simpl; lia|]. split; [intros E; rewrite (Hnone E); reflexivity|].
      split.
      { intros i' E. destruct (Hsome i' E) as [Hk1 Hnth]. split; [lia|].
        destruct k as [|k]; [lia|]. replace (S k - 1)%nat with k in Hnth by lia.
        simpl. replace (k - 0)%nat with k by lia. exact Hnth. }
      split; [exact Hnever|].
      split.
      { intros [|j] Hj.
        - unfold solved_at. simpl. rewrite Es. reflexivity.
        - apply Hfail. destruct Hj as [Hj|[Hj Hr']]; [left; lia|right; split; [lia|exact Hr']]. }
      { intros i' E. destruct (Hsome i' E) as [Hk1 _].
        replace (S k - 1)%nat with (S (k - 1)) by lia. exact (Hok i' E). }
Qed.

Lemma extra_vehicle_loop_sched solver gstl (o : optimizer) (is : list Z) (h : heap)
    (tr : list event) :
  fixed_world (o_cfg o) h ->
  exists o' res ev k,
    extra_vehicle_loop solver gstl o is (mk_world h tr) = (inr (o', res), mk_world h (tr ++ ev)) /\
    o_cfg o' = o_cfg o /\
    map model_size (solver_calls ev) =
      map (fun i => (Z.of_nat (length (fleet_capacities (fleet (o_cfg o)))) +
                       Z.of_nat (Z.to_nat i), max_travel_time (o_cfg o))) (firstn k is) /\
    (k <= length is)%nat /\
    (res = None -> k = length is) /\
    (forall i, res = Some i -> (1 <= k)%nat /\ nth (k - 1) is 0 = i) /\
    ((forall h r p, solver h r p = None) -> res = None) /\
    (forall j, (S j < k \/ (j < k /\ res = None))%nat ->
       solved_at solver h (grid_search_parameters gstl) ev j = false) /\
    (forall i, res = Some i -> solved_at solver h (grid_search_parameters gstl) ev (k - 1) = true) /\
    (is <> [] -> exists pre ra,
       ev = pre ++ [EvSetRouting ra; EvSolve ra (grid_search_parameters gstl)] /\
       model_size ra = (Z.of_nat (length (fleet_capacities (fleet (o_cfg o)))) +
                          Z.of_nat (Z.to_nat (nth (k - 1) is 0)), max_travel_time (o_cfg o))).
Proof.
  revert o tr; induction is as [|i is IH]; intros o tr Hf.
  - exists o, None, [], 0%nat. rewrite app_nil_r.
    split; [reflexivity|]. split; [reflexivity|]. split; [reflexivity|].
    split; [simpl; lia|]. split; [reflexivity|]. split; [discriminate|].
    split; [auto|]. split; [intros j [Hj|[Hj _]]; lia|].
    split; [intros i E; discriminate|]. intros H; exfalso; apply H; reflexivity.
  - destruct (rebuild_fixed o i 0 h tr Hf) as (d & r & Hr & Hd & _ & _ & Hn & Ht).
    simpl. unfold bind at 1. rewrite Hr. unfold solve, bind. simpl.
    assert (Hsz : model_size r = (Z.of_nat (length (fleet_capacities (fleet (o_cfg o)))) +
                                    Z.of_nat (Z.to_nat i), max_travel_time (o_cfg o))).
    { unfold model_size. rewrite Hd, Hn, Ht. f_equal. lia. }
    destruct (solver h r (grid_search_parameters gstl)) as [s|] eqn:Es.
    + exists (mk_optimizer (o_cfg o) d (rt_manager r) r), (Some i),
        [EvSetRouting r; EvSolve r (grid_search_parameters gstl)], 1%nat.
      rewrite <- app_assoc.
      split; [reflexivity|]. split; [reflexivity|].
      split; [simpl; rewrite Hsz; reflexivity|].
      split; [simpl; lia|]. split; [discriminate|].
      split; [intros i' E; inversion E; subst; split; [lia|reflexivity]|].
      split; [intros Hnone; rewrite Hnone in Es; discriminate|].
      split; [intros j [Hj|[_ E]]; [lia|discriminate]|].
      split; [intros i' _; unfold solved_at; simpl; rewrite Es; reflexivity|].
      intros _. exists [], r. split; [reflexivity|]. simpl. rewrite Hsz. reflexivity.
    + destruct (IH (mk_optimizer (o_cfg o) d (rt_manager r) r)
                  ((tr ++ [EvSetRouting r]) ++ [EvSolve r (grid_search_parameters gstl)]) Hf)
        as (o' & res & ev & k & Hl & Hc & Hm & Hk & Hnone & Hsome & Hnever & Hfail & Hok & Hlast).
      exists o', res, ([EvSetRouting r; EvSolve r (grid_search_parameters gstl)] ++ ev), (S k).
      split; [rewrite Hl, <- !app_assoc; reflexivity|].
      split; [exact Hc|].
      split; [simpl; rewrite Hsz; f_equal; exact Hm|].
      split; [simpl; lia|]. split; [intros E; rewrite (Hnone E); reflexivity|].
      split.
      { intros i' E. destruct (Hsome i' E) as [Hk1 Hnth]. split; [lia|].
        destruct k as [|k]; [lia|]. replace (S k - 1)%nat with k in Hnth by lia.
        simpl. replace (k - 0)%nat with k by lia. exact Hnth. }
      split; [exact Hnever|].
      split.
      { intros [|j] Hj.
        - unfold solved_at. simpl. rewrite Es. reflexivity.
        - apply Hfail. destruct Hj as [Hj|[Hj Hr']]; [left; lia|right; split; [lia|exact Hr']]. }
      split.
      { intros i' E. destruct (Hsome i' E) as [Hk1 _].
        replace (S k - 1)%nat with (S (k - 1)) by lia. exact (Hok i' E). }
      intros _. destruct is as [|i2 is2].
      * assert (Ek : k = 0%nat) by (simpl in Hk; lia). subst k.
        assert (Eev : ev = []).
        { simpl in Hl. unfold ret in Hl. injection Hl as _ _ Htr.
          apply (f_equal (@length event)) in Htr. rewrite !length_app in Htr.
          destruct ev; [reflexivity|simpl in Htr; lia]. }
        subst ev. exists [], r. split; [reflexivity|]. simpl. rewrite Hsz. reflexivity.
      * destruct (Hlast ltac:(discriminate)) as (pre & ra & Eev & Hra).
        exists ([EvSetRouting r; EvSolve r (grid_search_parameters gstl)] ++ pre), ra.
        split; [rewrite Eev, <- app_assoc; reflexivity|].
        rewrite Hra. destruct k as [|k].
        { simpl in Hm. rewrite Eev in Hm. rewrite solver_calls_app in Hm. simpl in Hm.
          destruct (solver_calls pre); discriminate. }
        replace (S (S k) - 1)%nat with (S k) by lia. simpl. rewrite Nat.sub_0_r.
        reflexivity.
Qed.

Lemma range3_nth (k : nat) (i : Z) :
  (1 <= k <= 3)%nat -> nth (k - 1) [1; 2; 3] 0 = i -> i = Z.of_nat k.
Proof.
  intros Hk. destruct k as [|[|[|[|k]]]]; simpl; intros; subst; reflexivity || lia.
Qed.

Lemma solved_at_app_lt solver (h : heap) (p : search_parameters) (a b : list event)
    (j : nat) :
  (j < length (solver_calls a))%nat -> solved_at solver h p (a ++ b) j = solved_at solver h p a j.
Proof.
  intros Hj. unfold solved_at. rewrite solver_calls_app, nth_error_app1 by exact Hj.
  reflexivity.
Qed.

Lemma solved_at_app_ge solver (h : heap) (p : search_parameters) (a b : list event)
    (j : nat) :
  solved_at solver h p (a ++ b) (length (solver_calls a) + j) = solved_at solver h p b j.
Proof.
  unfold solved_at. rewrite solver_calls_app, nth_error_app2 by lia.
  replace (length (solver_calls a) + j - length (solver_calls a))%nat with j by lia.
  reflexivity.
Qed.

Lemma range3_nth_of_nat (k : nat) : (1 <= k <= 3)%nat -> nth (k - 1) [1; 2; 3] 0 = Z.of_nat k.
Proof. intros Hk. exact (range3_nth k _ Hk eq_refl). Qed.

Lemma firstn3_length (k : nat) (l : list Z) :
  (k <= 3)%nat -> length l = 3%nat -> length (firstn k l) = k.
Proof. intros Hk Hl. rewrite length_firstn. lia. Qed.

(** The baseline rebuild [_create_data_model()], [_set_manager()],
    [_set_routing(vehicle_penalty=...)] in an adjusted world. *)
Lemma rebuild_zero_fixed (o : optimizer) (h : heap) (tr : list event) :
  fixed_world (o_cfg o) h ->
  let c := o_cfg o in
  let caps := fleet_capacities (fleet c) in
  let d := mk_data (time_matrix c) (demands c) caps (Z.of_nat (length caps)) 0
             (max_travel_time c) in
  let mg := mk_manager (Z.of_nat (length (heap_get h (time_matrix c))))
              (Z.of_nat (length caps)) 0 in
  let r := mk_routing mg d (vehicle_penalty c) default_slack_time in
  rebuild o 0 0 (mk_world h tr) =
    (inr (mk_optimizer c d mg r), mk_world h (tr ++ [EvSetRouting r])).
Proof.
  intros Hf c caps d mg r.
  destruct (create_data_model_fixed (o_cfg o) 0 0 h tr Hf) as [mx [_ Hd]].
  change (repeat mx (Z.to_nat 0)) with (@nil Z) in Hd.
  rewrite app_nil_r, Z.add_0_r in Hd.
  unfold rebuild. unfold bind at 1. rewrite Hd.
  unfold _set_manager, _set_routing. monad_simpl. reflexivity.
Qed.

(** The model [__init__] builds is the baseline model of its
    configuration. *)
Lemma init_baseline (input : RouteOptimizerInput) (vp : Z) (w0 w1 : world) (o : optimizer) :
  __init__ input vp w0 = (inr o, w1) ->
  let c := o_cfg o in
  let caps := fleet_capacities (fleet c) in
  o_data o = mk_data (time_matrix c) (demands c) caps (Z.of_nat (length caps)) 0
               (max_travel_time c) /\
  o_manager o = mk_manager (Z.of_nat (length (heap_get (w_heap w1) (time_matrix c))))
                  (Z.of_nat (length caps)) 0 /\
  vehicle_penalty c = vp.
Proof.
  destruct w0 as [h0 tr0]. unfold __init__, _create_data_model, _set_manager, _set_routing.
  monad_simpl.
  destruct (np_array_matrix (heap_get h0 (in_time_matrix input))) as [cp|] eqn:Enp;
    simpl; [|discriminate].
  rewrite heap_get_app_last.
  destruct (depot_adjust (in_mode input) (in_slack_time input) cp) as [m'|];
    simpl; [|discriminate].
  destruct (py_max (fleet_capacities (in_fleet input))) as [mx|];
    simpl; [|discriminate].
  intros H; inversion H; subst; clear H. simpl.
  rewrite app_nil_r, Z.add_0_r. repeat split.
Qed.

Lemma grid_search_solver_sched solver gstl (o : optimizer) (h : heap) (tr : list event) :
  fixed_world (o_cfg o) h ->
  let c := o_cfg o in
  let caps := fleet_capacities (fleet c) in
  let bn := Z.of_nat (length caps) in
  let bt := max_travel_time c in
  let d := mk_data (time_matrix c) (demands c) caps bn 0 bt in
  let mg := mk_manager (Z.of_nat (length (heap_get h (time_matrix c)))) bn 0 in
  let s := solved_at solver h (grid_search_parameters gstl) in
  exists o3 out ev k1 k2,
    _grid_search_solver solver gstl o 3 3 (mk_world h tr) =
      (inr (o3, out), mk_world h (tr ++ ev)) /\
    (1 <= k1 <= 3)%nat /\ (1 <= k2 <= 3)%nat /\
    map model_size (solver_calls ev) =
      map (fun i => (bn, bt + i * 60)) (firstn k1 [1; 2; 3]) ++
      map (fun i => (bn + Z.of_nat (Z.to_nat i), bt)) (firstn k2 [1; 2; 3]) /\
    (forall j, (S j < k1)%nat -> s ev j = false) /\
    ((k1 < 3)%nat -> s ev (k1 - 1)%nat = true) /\
    (forall j, (k1 <= j /\ S j < k1 + k2)%nat -> s ev j = false) /\
    ((k2 < 3)%nat -> s ev (k1 + k2 - 1)%nat = true) /\
    extra_time out = (if s ev (k1 - 1)%nat then 60 * Z.of_nat k1 else 0) /\
    number_of_vehicles (extra_vehicles out) =
      (if s ev (k1 + k2 - 1)%nat then Z.of_nat k2 else 0) /\
    o_cfg o3 = c /\ o_data o3 = d /\ o_manager o3 = mg /\
    o_routing o3 = mk_routing mg d (vehicle_penalty c) default_slack_time /\
    (exists pre ra, ev = pre ++ [EvSetRouting ra; EvSolve ra (grid_search_parameters gstl);
                                 EvSetRouting (o_routing o3)] /\
       model_size ra = (bn + Z.of_nat k2, bt)) /\
    ((forall h r p, solver h r p = None) -> k1 = 3%nat /\ k2 = 3%nat).
Proof.
  intros Hf c caps bn bt d mg s.
  destruct (extra_time_loop_sched solver gstl o [1; 2; 3] h tr Hf)
    as (o1 & res1 & ev1 & k1 & H1 & Hc1 & Hm1 & Hk1 & Hn1 & Hs1 & Hv1 & Hfail1 & Hok1).
  assert (Hf1 : fixed_world (o_cfg o1) h) by now rewrite Hc1.
  destruct (extra_vehicle_loop_sched solver gstl o1 [1; 2; 3] h (tr ++ ev1) Hf1)
    as (o2 & res2 & ev2 & k2 & H2 & Hc2 & Hm2 & Hk2 & Hn2 & Hs2 & Hv2 & Hfail2 & Hok2 & Hlast2).
  assert (Hf2 : fixed_world (o_cfg o2) h) by now rewrite Hc2, Hc1.
  pose proof (rebuild_zero_fixed o2 h ((tr ++ ev1) ++ ev2) Hf2) as H3.
  cbv zeta in H3. rewrite Hc2, Hc1 in H3. fold c caps bn bt d mg in H3.
  destruct (py_max_some _ (proj2 Hf2)) as [mx Hmx].
  simpl length in Hk1, Hk2.
  assert (L1 : length (solver_calls ev1) = k1).
  { rewrite <- (length_map model_size), Hm1, length_map. apply firstn3_length; auto. }
  assert (L2 : length (solver_calls ev2) = k2).
  { rewrite <- (length_map model_size), Hm2, length_map. apply firstn3_length; auto. }
  assert (K1 : (1 <= k1)%nat).
  { destruct res1 as [i|]; [exact (proj1 (Hs1 i eq_refl))|rewrite (Hn1 eq_refl); simpl; lia]. }
  assert (K2 : (1 <= k2)%nat).
  { destruct res2 as [i|]; [exact (proj1 (Hs2 i eq_refl))|rewrite (Hn2 eq_refl); simpl; lia]. }
  unfold _grid_search_solver.
  change (py_range1 3) with [1; 2; 3].
  rewrite (bind_ok _ _ _ _ _ H1). cbv beta iota zeta.
  rewrite (bind_ok _ _ _ _ _ H2). cbv beta iota zeta.
  set (message1 := match res1 with
                   | Some i => [append "Solution can be found with "
                                  (append (PyStr.str_of_Z i) " minutes more of extra time")]
                   | None => [] end).
  set (vm := match res2 with
             | Some i => (mk_fleet mx i,
                          message1 ++ [append "Solution can be found with "
                                         (append (PyStr.str_of_Z i)
                                            (append " vehicle/s more " newline))])
             | None => (mk_fleet 0 0, message1)
             end).
  assert (Hvm : (match res2 with
                 | Some i =>
                     let* mx := lift_opt ValueError
                                  (py_max (fleet_capacities (fleet (o_cfg o2)))) in
                     ret (mk_fleet mx i,
                          message1 ++ [append "Solution can be found with "
                                         (append (PyStr.str_of_Z i)
                                            (append " vehicle/s more " newline))])
                 | None => ret (mk_fleet 0 0, message1)
                 end) (mk_world h ((tr ++ ev1) ++ ev2)) = (inr vm, mk_world h ((tr ++ ev1) ++ ev2))).
  { unfold vm. destruct res2; monad_simpl; [rewrite Hmx|]; reflexivity. }
  rewrite (bind_ok _ _ _ _ _ Hvm). cbv beta iota zeta.
  destruct vm as [ev_fleet msgs] eqn:Evm.
  rewrite (bind_ok _ _ _ _ _ H3).
  set (r3 := mk_routing mg d (vehicle_penalty c) default_slack_time).
  (* solver outcomes in the escalation trace *)
  set (ev := ev1 ++ ev2 ++ [EvSetRouting r3]).
  assert (S1 : forall j, (j < k1)%nat -> s ev j = s ev1 j).
  { intros j Hj. unfold s, ev. apply solved_at_app_lt. lia. }
  assert (S2 : forall j, (j < k2)%nat -> s ev (k1 + j)%nat = s ev2 j).
  { intros j Hj. unfold s, ev. rewrite <- L1, solved_at_app_ge.
    apply solved_at_app_lt. lia. }
  do 2 eexists. exists ev, k1, k2.
  split; [unfold ret, ev; rewrite !app_assoc; reflexivity|].
  split; [lia|]. split; [lia|].
  split.
  { unfold ev. rewrite Hc1 in Hm2. rewrite !solver_calls_app, !map_app, Hm1, Hm2. simpl.
    rewrite app_nil_r. reflexivity. }
  split.
  { intros j Hj. rewrite S1 by lia. apply Hfail1. left; exact Hj. }
  split.
  { intros Hk. rewrite S1 by lia. destruct res1 as [i|].
    - exact (Hok1 i eq_refl).
    - rewrite (Hn1 eq_refl) in Hk. simpl in Hk. lia. }
  split.
  { intros j Hj. replace j with (k1 + (j - k1))%nat by lia. rewrite S2 by lia.
    apply Hfail2. left. lia. }
  split.
  { intros Hk. replace (k1 + k2 - 1)%nat with (k1 + (k2 - 1))%nat by lia.
    rewrite S2 by lia. destruct res2 as [i|].
    - exact (Hok2 i eq_refl).
    - rewrite (Hn2 eq_refl) in Hk. simpl in Hk. lia. }
  split.
  { simpl extra_time. rewrite S1 by lia. unfold s. destruct res1 as [i|].
    - rewrite (Hok1 i eq_refl). destruct (Hs1 i eq_refl) as [_ Hnth].
      rewrite (range3_nth k1 i ltac:(lia) Hnth). lia.
    - rewrite (Hfail1 (k1 - 1)%nat ltac:(right; split; [lia|reflexivity])). reflexivity. }
  split.
  { simpl extra_vehicles.
    replace (k1 + k2 - 1)%nat with (k1 + (k2 - 1))%nat by lia. rewrite S2 by lia. unfold s.
    unfold vm in Evm. destruct res2 as [i|]; injection Evm as <- _; simpl.
    - rewrite (Hok2 i eq_refl). destruct (Hs2 i eq_refl) as [_ Hnth].
      exact (range3_nth k2 i ltac:(lia) Hnth).
    - rewrite (Hfail2 (k2 - 1)%nat ltac:(right; split; [lia|reflexivity])). reflexivity. }
  simpl o_cfg. simpl o_data. simpl o_manager. simpl o_routing.
  split; [reflexivity|].
  split; [reflexivity|]. split; [reflexivity|]. split; [reflexivity|].
  split.
  { destruct (Hlast2 ltac:(discriminate)) as (pre & ra & Eev2 & Hra).
    exists (ev1 ++ pre), ra. split.
    - unfold ev. rewrite Eev2, <- !app_assoc. reflexivity.
    - rewrite Hra, Hc1. rewrite (range3_nth_of_nat k2 ltac:(lia)), Nat2Z.id. reflexivity. }
  intros Hnone. pose proof (Hn1 (Hv1 Hnone)) as E1. pose proof (Hn2 (Hv2 Hnone)) as E2.
  simpl in E1, E2. split; assumption.
Qed.

(** [RouteOptimizer.grid_search] after construction: the first solver
    invocation is the model built by [__init__] (base vehicle count [n],
    base time budget [t]); if it solves, nothing else is tried and no
    extra is reported.  Otherwise the solver gets [k1] models with time
    budget [t + 60], [t + 120], ... and [n] vehicles, then [k2] models
    with [n + 1], [n + 2], ... vehicles and time budget [t] (never both
    extras at once), [1 <= k1, k2 <= 3]: within each phase every attempt
    but the last fails, and the phase stops early only at an attempt
    that solves.  The reported [extra_time] is [60 * k1] if the last
    time attempt solved and 0 otherwise, the reported extra vehicle
    count is [k2] if the last vehicle attempt solved and 0 otherwise;
    when the solver never succeeds all seven models are tried. *)
Theorem grid_search_schedule solver gstl (input : RouteOptimizerInput) (vp : Z)
    (w0 w1 : world) (o : optimizer) :
  __init__ input vp w0 = (inr o, w1) ->
  let n := dm_num_vehicles (o_data o) in
  let t := dm_max_travel_time (o_data o) in
  let s := solved_at solver (w_heap w1) (grid_search_parameters gstl) in
  exists res ev k1 k2,
    grid_search solver gstl o w1 = (inr res, mk_world (w_heap w1) (w_trace w1 ++ ev)) /\
    (k1 <= 3)%nat /\ (k2 <= 3)%nat /\
    map model_size (solver_calls ev) =
      (n, t) :: map (fun i => (n, t + i * 60)) (firstn k1 [1; 2; 3]) ++
                map (fun i => (n + i, t)) (firstn k2 [1; 2; 3]) /\
    (s ev 0%nat = true -> k1 = 0%nat /\ k2 = 0%nat /\ extra_time (snd res) = 0 /\
       number_of_vehicles (extra_vehicles (snd res)) = 0) /\
    (s ev 0%nat = false ->
       (1 <= k1)%nat /\ (1 <= k2)%nat /\
       (forall j, (1 <= j < k1)%nat -> s ev j = false) /\
       ((k1 < 3)%nat -> s ev k1 = true) /\
       (forall j, (k1 < j < k1 + k2)%nat -> s ev j = false) /\
       ((k2 < 3)%nat -> s ev (k1 + k2)%nat = true) /\
       extra_time (snd res) = (if s ev k1 then 60 * Z.of_nat k1 else 0) /\
       number_of_vehicles (extra_vehicles (snd res)) =
         (if s ev (k1 + k2)%nat then Z.of_nat k2 else 0)) /\
    ((forall h r p, solver h r p = None) -> k1 = 3%nat /\ k2 = 3%nat).
Proof.
  intros Hi n t s.
  destruct (init_spec input vp w0 w1 o Hi)
    as (Hc & _ & _ & _ & Hf & Hr & _ & Hnv & Hmt & _).
  assert (Hsz : model_size (o_routing o) = (n, t)) by (unfold model_size; rewrite Hr; reflexivity).
  assert (Hn : n = Z.of_nat (length (fleet_capacities (fleet (o_cfg o))))) by (unfold n; rewrite Hnv, Hc; reflexivity).
  assert (Ht : t = max_travel_time (o_cfg o)) by (unfold t; rewrite Hmt, Hc; reflexivity).
  destruct w1 as [h1 tr1]. simpl in *.
  unfold grid_search, solve, bind. simpl.
  set (p := grid_search_parameters gstl) in *.
  assert (S0 : forall ev, s (EvSolve (o_routing o) p :: ev) 0%nat =
                 match solver h1 (o_routing o) p with Some _ => true | None => false end)
    by reflexivity.
  assert (SS : forall ev j, s (EvSolve (o_routing o) p :: ev) (S j) = solved_at solver h1 p ev j)
    by reflexivity.
  destruct (solver h1 (o_routing o) p) as [sol|] eqn:Es.
  - eexists. exists [EvSolve (o_routing o) p], 0%nat, 0%nat.
    split; [reflexivity|]. split; [lia|]. split; [lia|].
    split; [simpl; rewrite Hsz; reflexivity|].
    split; [intros _; repeat split; reflexivity|].
    split; [intros E; rewrite S0 in E; discriminate E|].
    intros Hnone. rewrite Hnone in Es. discriminate.
  - destruct (grid_search_solver_sched solver gstl o h1 (tr1 ++ [EvSolve (o_routing o) p]) Hf)
      as (o3 & out & ev & k1 & k2 & H & Hk1 & Hk2 & Hm & Hf1 & Hok1 & Hf2 & Hok2 & Het & Hev
          & _ & _ & _ & _ & _ & Hnever).
    fold p in Hf1, Hok1, Hf2, Hok2, Het, Hev.
    exists (o3, out), ([EvSolve (o_routing o) p] ++ ev), k1, k2.
    split; [rewrite H, !app_assoc; reflexivity|].
    split; [lia|]. split; [lia|].
    split.
    { simpl. rewrite Hsz, Hm, <- Hn, <- Ht. f_equal. f_equal.
      destruct k2 as [|[|[|[|k2]]]]; simpl; reflexivity. }
    simpl app. split; [intros E; rewrite S0 in E; discriminate E|].
    split; [|exact Hnever].
    intros _. simpl app.
    assert (E1 : k1 = S (k1 - 1)) by lia.
    assert (E12 : (k1 + k2)%nat = S (k1 + k2 - 1)) by lia.
    split; [lia|]. split; [lia|].
    split.
    { intros j Hj. replace j with (S (j - 1)) by lia. rewrite SS. apply Hf1. lia. }
    split.
    { intros Hk. rewrite E1, SS. apply Hok1. exact Hk. }
    split.
    { intros j Hj. replace j with (S (j - 1)) by lia. rewrite SS. apply Hf2. lia. }
    split.
    { intros Hk. rewrite E12, SS. apply Hok2. exact Hk. }
    split.
    { rewrite E1 at 1. rewrite SS. simpl. exact Het. }
    rewrite E12, SS. simpl. exact Hev.
Qed.

Lemma grid_search_schedule_witness :
  __init__ example_input 10000 example_world = (inr example_optimizer, example_world1) /\
  let n := dm_num_vehicles (o_data example_optimizer) in
  let t := dm_max_travel_time (o_data example_optimizer) in
  let s := solved_at never_solves (w_heap example_world1) (grid_search_parameters 5) in
  exists res ev k1 k2,
    grid_search never_solves 5 example_optimizer example_world1 = (inr res, mk_world (w_heap example_world1) (w_trace example_world1 ++ ev)) /\
    (k1 <= 3)%nat /\ (k2 <= 3)%nat /\
    map model_size (solver_calls ev) =
      (n, t) :: map (fun i => (n, t + i * 60)) (firstn k1 [1; 2; 3]) ++
                map (fun i => (n + i, t)) (firstn k2 [1; 2; 3]) /\
    (s ev 0%nat = true -> k1 = 0%nat /\ k2 = 0%nat /\ extra_time (snd res) = 0 /\
       number_of_vehicles (extra_vehicles (snd res)) = 0) /\
    (s ev 0%nat = false ->
       (1 <= k1)%nat /\ (1 <= k2)%nat /\
       (forall j, (1 <= j < k1)%nat -> s ev j = false) /\
       ((k1 < 3)%nat -> s ev k1 = true) /\
       (forall j, (k1 < j < k1 + k2)%nat -> s ev j = false) /\
       ((k2 < 3)%nat -> s ev (k1 + k2)%nat = true) /\
       extra_time (snd res) = (if s ev k1 then 60 * Z.of_nat k1 else 0) /\
       number_of_vehicles (extra_vehicles (snd res)) =
         (if s ev (k1 + k2)%nat then Z.of_nat k2 else 0)) /\
    ((forall h r p, never_solves h r p = None) -> k1 = 3%nat /\ k2 = 3%nat).
Proof.
  assert (Hi : __init__ example_input 10000 example_world =
               (inr example_optimizer, example_world1)) by reflexivity.
  split; [exact Hi|].
  exact (grid_search_schedule never_solves 5 example_input 10000 example_world
           example_world1 example_optimizer Hi).
Defined.

(** C4, as amended: on the escalation path (the first attempt fails),
    [_grid_search_solver] ends by rebuilding the baseline model (no
    extra vehicles, no extra time) into [self.data], [self.manager] and
    [self.routing]: the data and the manager are again the ones
    [__init__] built, and the routing model is built on them with the
    vehicle penalty and the default slack time.  The rebuilt model is
    not solved: the last solver invocation is the last escalation
    attempt, a model with [k] extra vehicles ([1 <= k <= 3]) and the
    base time budget, and the only effect after it is the rebuild. *)
Theorem grid_search_final_rebuild solver gstl (input : RouteOptimizerInput) (vp : Z)
    (w0 w1 : world) (o : optimizer) :
  __init__ input vp w0 = (inr o, w1) ->
  solver (w_heap w1) (o_routing o) (grid_search_parameters gstl) = None ->
  exists o' out pre ra k,
    grid_search solver gstl o w1 =
      (inr (o', out), mk_world (w_heap w1)
         (w_trace w1 ++ pre ++ [EvSetRouting ra; EvSolve ra (grid_search_parameters gstl);
                                EvSetRouting (o_routing o')])) /\
    o_data o' = o_data o /\ o_manager o' = o_manager o /\
    o_routing o' = mk_routing (o_manager o) (o_data o) vp default_slack_time /\
    (1 <= k <= 3)%nat /\
    model_size ra = (dm_num_vehicles (o_data o) + Z.of_nat k, dm_max_travel_time (o_data o)).
Proof.
  intros Hi Hfail.
  destruct (init_baseline input vp w0 w1 o Hi) as (Hd & Hm & Hvp).
  destruct (init_spec input vp w0 w1 o Hi) as (_ & _ & _ & _ & Hf & _).
  destruct w1 as [h1 tr1]. simpl in *.
  unfold grid_search, solve, bind. simpl. rewrite Hfail.
  destruct (grid_search_solver_sched solver gstl o h1
              (tr1 ++ [EvSolve (o_routing o) (grid_search_parameters gstl)]) Hf)
    as (o3 & out & ev & k1 & k2 & H & _ & Hk2 & _ & _ & _ & _ & _ & _ & _
        & _ & Hd3 & Hm3 & Hr3 & (pre & ra & Eev & Hra) & _).
  exists o3, out, ([EvSolve (o_routing o) (grid_search_parameters gstl)] ++ pre), ra, k2.
  split; [rewrite H, Eev, !app_assoc; reflexivity|].
  rewrite Hd, Hm. cbv zeta in Hd3, Hm3, Hr3. rewrite Hd3, Hm3, Hr3, Hvp, Hra.
  repeat split; lia.
Qed.

Lemma grid_search_final_rebuild_witness :
  __init__ example_input 10000 example_world = (inr example_optimizer, example_world1) /\
  never_solves (w_heap example_world1) (o_routing example_optimizer)
    (grid_search_parameters 5) = None /\
  exists o' out pre ra k,
    grid_search never_solves 5 example_optimizer example_world1 =
      (inr (o', out), mk_world (w_heap example_world1)
         (w_trace example_world1 ++ pre ++ [EvSetRouting ra; EvSolve ra (grid_search_parameters 5);
                                EvSetRouting (o_routing o')])) /\
    o_data o' = o_data example_optimizer /\ o_manager o' = o_manager example_optimizer /\
    o_routing o' = mk_routing (o_manager example_optimizer) (o_data example_optimizer) 10000 default_slack_time /\
    (1 <= k <= 3)%nat /\
    model_size ra = (dm_num_vehicles (o_data example_optimizer) + Z.of_nat k, dm_max_travel_time (o_data example_optimizer)).
Proof.
  assert (Hi : __init__ example_input 10000 example_world =
               (inr example_optimizer, example_world1)) by reflexivity.
  split; [exact Hi|]. split; [reflexivity|].
  exact (grid_search_final_rebuild never_solves 5 example_input 10000 example_world
           example_world1 example_optimizer Hi eq_refl).
Defined.


(** ** Further properties of the cartography clients *)

Import Clients.

Lemma emap_map_ok {W X Y : Type} (f : X -> exn + Y) (h : W -> X) (g : W -> Y)
    (l : list W) :
  (forall x, In x l -> f (h x) = inr (g x)) -> emap f (map h l) = inr (map g l).
Proof.
  induction l as [|x l IH]; intros H; simpl; [reflexivity|].
  rewrite (H x (or_introl eq_refl)). simpl.
  rewrite IH by (intros; apply H; right; assumption). reflexivity.
Qed.

Lemma emap_first_error {X Y : Type} (f : X -> exn + Y) (pre post : list X) (x : X)
    (e : exn) :
  Forall (fun y => exists v, f y = inr v) pre -> f x = inl e ->
  emap f (pre ++ x :: post) = inl e.
Proof.
  induction 1 as [|y pre [v Hv] _ IH]; intros Hx; simpl.
  - rewrite Hx. reflexivity.
  - rewrite Hv. simpl. rewrite IH by assumption. reflexivity.
Qed.

(** [GoogleMaps._parse_route_response]: an empty response list raises
    [IndexError]; a first route without ["overview_polyline"] or
    ["legs"] raises the format error; a polyline without ["points"]
    lets a bare [KeyError('points')] escape (that lookup is outside the
    [try]), whereas the first leg without ["duration"] gives
    [InvalidResponseFormat("'duration'")]; when every leg is well
    formed the route has the decoded polyline, one time and one
    converted distance per leg, and it is rejected only for a NaN (the
    two lists always have the same length).  Routes after the first are
    ignored. *)
Theorem g_parse_route_response_cases {num : Type} (mul : num -> num -> num)
    (is_nan : num -> bool) (decode : string -> exn + list (num * num)) (factor : num) :
  g_parse_route_response mul is_nan decode factor [] = inl IndexError /\
  (forall r rest, (overview_polyline r = None \/ g_legs r = None) ->
     g_parse_route_response mul is_nan decode factor (r :: rest) =
       inl (InvalidResponseFormat "'overview_polyline' or 'legs' not found in response")) /\
  (forall r rest ls, overview_polyline r = Some None -> g_legs r = Some ls ->
     g_parse_route_response mul is_nan decode factor (r :: rest) = inl (KeyError "points")) /\
  (forall r rest p coords pre leg post,
     overview_polyline r = Some (Some p) -> g_legs r = Some (pre ++ leg :: post) ->
     decode p = inr coords ->
     Forall (fun l => exists v, duration l = Some (Some v)) pre -> duration leg = None ->
     g_parse_route_response mul is_nan decode factor (r :: rest) =
       inl (InvalidResponseFormat "'duration'")) /\
  (forall r rest p coords (vals : list (num * num)),
     overview_polyline r = Some (Some p) ->
     g_legs r = Some (map (fun v => mk_g_entry (Some (Some (fst v))) (Some (Some (snd v)))) vals) ->
     decode p = inr coords ->
     g_parse_route_response mul is_nan decode factor (r :: rest) =
       if existsb is_nan (map fst vals) || existsb is_nan (map (fun v => mul (snd v) factor) vals)
       then inl ValidationError
       else inr (mk_route coords (map fst vals) (map (fun v => mul (snd v) factor) vals))).
Proof.
  split; [reflexivity|]. split; [|split; [|split]].
  - intros r rest [H|H]; unfold g_parse_route_response, lookup; simpl; rewrite H;
      [reflexivity|destruct (overview_polyline r); reflexivity].
  - intros r rest ls Ho Hl. unfold g_parse_route_response, lookup; simpl.
    rewrite Ho, Hl. reflexivity.
  - intros r rest p coords pre leg post Ho Hl Hd Hpre Hleg.
    unfold g_parse_route_response, lookup; simpl. rewrite Ho, Hl. simpl. rewrite Hd. simpl.
    rewrite (emap_first_error _ pre post leg (KeyError "duration")); [reflexivity| |].
    + apply (Forall_impl _ (P := fun l => exists v, duration l = Some (Some v))); [|exact Hpre].
      intros l [v Hv]. exists v. rewrite Hv. reflexivity.
    + rewrite Hleg. reflexivity.
  - intros r rest p coords vals Ho Hl Hd.
    unfold g_parse_route_response, lookup; simpl. rewrite Ho, Hl. simpl. rewrite Hd. simpl.
    rewrite (emap_map_ok _ _ fst) by reflexivity. simpl.
    rewrite (emap_map_ok _ _ (fun v => mul (snd v) factor)) by reflexivity.
    simpl. unfold CartographyRoute.
    rewrite !length_map, Nat.eqb_refl. reflexivity.
Qed.

Lemma g_parse_rows_ok {num : Type} (mul : num -> num -> num) (factor : num)
    (vals : list (list (num * num))) :
  emap (g_parse_row mul factor)
    (map (fun row => Some (map (fun v => mk_g_entry (Some (Some (fst v)))
                                                    (Some (Some (snd v)))) row)) vals) =
  inr (map (fun row => (map fst row, map (fun v => mul (snd v) factor) row)) vals).
Proof.
  apply emap_map_ok. intros row _. unfold g_parse_row.
  rewrite (emap_map_ok _ _ (fun v => (fst v, mul (snd v) factor))) by reflexivity.
  simpl. rewrite !map_map. reflexivity.
Qed.

Lemma nth_nth_error2 {X : Type} (rows : list (list X)) (i j : nat) (row : list X) (v d : X) :
  nth_error rows i = Some row -> nth_error row j = Some v -> nth j (nth i rows []) d = v.
Proof.
  intros Hi Hj. rewrite (nth_error_nth rows i [] Hi). exact (nth_error_nth row j d Hj).
Qed.

Lemma forallb_length_map {X Y : Type} (f : X -> Y) (vals : list (list X)) (n : nat) :
  forallb (fun r => Nat.eqb (length r) n) (map (map f) vals) =
  forallb (fun r => Nat.eqb (length r) n) vals.
Proof.
  induction vals as [|r vals IH]; simpl; [reflexivity|]. rewrite length_map, IH. reflexivity.
Qed.

Lemma np_array_uniform {num : Type} (zero : num) (r0 : list num) (rest : list (list num)) :
  Forall (fun r => length r = length r0) (r0 :: rest) ->
  np_array zero (r0 :: rest) =
  inr (mk_array2 (length (r0 :: rest)) (length r0) (fun i j => nth j (nth i (r0 :: rest) []) zero)).
Proof.
  intros Hu. unfold np_array.
  replace (forallb (fun r => Nat.eqb (length r) (length r0)) (r0 :: rest)) with true;
    [reflexivity|].
  symmetry. apply forallb_forall. intros r Hr. apply Nat.eqb_eq.
  rewrite Forall_forall in Hu. exact (Hu r Hr).
Qed.

Lemma Forall_length_map {X Y : Type} (f : X -> Y) (r0 : list X) (rest : list (list X)) :
  Forall (fun r => length r = length r0) (r0 :: rest) ->
  Forall (fun r => length r = length (map f r0)) (map f r0 :: map (map f) rest).
Proof.
  intros Hu. change (map f r0 :: map (map f) rest) with (map (map f) (r0 :: rest)).
  apply Forall_map. apply (Forall_impl _ (P := fun r => length r = length r0)); [|exact Hu].
  intros r Hr. rewrite !length_map. exact Hr.
Qed.

(** The uniform case of [GoogleMaps._parse_matrix_response]. *)
Lemma g_parse_matrix_uniform {num : Type} (zero : num) (mul : num -> num -> num)
    (factor : num) (r0 : list (num * num)) (rest : list (list (num * num))) :
  Forall (fun r => length r = length r0) (r0 :: rest) ->
  exists tm dm,
    g_parse_matrix_response zero mul factor
      (Some (map (fun row => Some (map (fun v => mk_g_entry (Some (Some (fst v)))
                                                           (Some (Some (snd v)))) row))
                 (r0 :: rest))) = inr (tm, dm) /\
    a_rows tm = length (r0 :: rest) /\ a_cols tm = length r0 /\
    a_rows dm = length (r0 :: rest) /\ a_cols dm = length r0 /\
    (forall i j row v, nth_error (r0 :: rest) i = Some row -> nth_error row j = Some v ->
       a_at tm i j = fst v /\ a_at dm i j = mul (snd v) factor).
Proof.
  intros Hu.
  set (rows := map (fun row => Some (map (fun v => mk_g_entry (Some (Some (fst v)))
                                                  (Some (Some (snd v)))) row)) (r0 :: rest)).
  assert (Hp : g_parse_matrix_response zero mul factor (Some rows) =
               let? parsed := emap (g_parse_row mul factor) rows in
               let? time_matrix := np_array zero (map fst parsed) in
               let? distance_matrix := np_array zero (map snd parsed) in
               inr (time_matrix, distance_matrix)) by reflexivity.
  rewrite Hp. unfold rows. rewrite g_parse_rows_ok. cbn [ebind]. rewrite !map_map.
  cbn [map fst snd].
  change (map (fun x : list (num * num) => map fst x) rest) with (map (map fst) rest).
  change (map (fun x : list (num * num) => map (fun v => mul (snd v) factor) x) rest)
    with (map (map (fun v => mul (snd v) factor)) rest).
  rewrite (np_array_uniform zero (map fst r0) (map (map fst) rest))
    by exact (Forall_length_map fst r0 rest Hu).
  cbn [ebind].
  rewrite (np_array_uniform zero (map (fun v => mul (snd v) factor) r0)
             (map (map (fun v => mul (snd v) factor)) rest))
    by exact (Forall_length_map (fun v => mul (snd v) factor) r0 rest Hu).
  cbn [ebind].
  eexists _, _. split; [reflexivity|]. cbn [a_rows a_cols a_at].
  split; [simpl; rewrite length_map; reflexivity|].
  split; [simpl; rewrite length_map; reflexivity|].
  split; [simpl; rewrite length_map; reflexivity|].
  split; [simpl; rewrite length_map; reflexivity|].
  intros i j row v Hi Hj. split.
  - change (map fst r0 :: map (map fst) rest) with (map (map fst) (r0 :: rest)).
    apply (nth_nth_error2 _ i j (map fst row)).
    + apply map_nth_error. exact Hi.
    + apply map_nth_error. exact Hj.
  - change (map (fun v => mul (snd v) factor) r0 :: map (map (fun v => mul (snd v) factor)) rest)
      with (map (map (fun v => mul (snd v) factor)) (r0 :: rest)).
    apply (nth_nth_error2 _ i j (map (fun v => mul (snd v) factor) row)).
    + apply map_nth_error. exact Hi.
    + apply (map_nth_error (fun v => mul (snd v) factor)). exact Hj.
Qed.

Lemma np_array_ragged {num : Type} (zero : num) (r0 : list num) (rest : list (list num)) :
  (exists r, In r (r0 :: rest) /\ length r <> length r0) ->
  np_array zero (r0 :: rest) = inl ValueError.
Proof.
  intros [r [Hin Hne]]. unfold np_array.
  destruct (forallb (fun r => Nat.eqb (length r) (length r0)) (r0 :: rest)) eqn:E;
    [|reflexivity].
  exfalso. apply Hne. rewrite forallb_forall in E. apply Nat.eqb_eq, E, Hin.
Qed.

(** [GoogleMaps._parse_matrix_response]: a response without ["rows"]
    and one with no rows are rejected with their messages; for rows
    whose elements all carry their duration and distance values, rows
    of different lengths make [np.array] raise [ValueError], and rows of
    equal length give two arrays of shape (rows, elements) whose entry
    [(i, j)] is the duration of element [j] of row [i], resp. its
    distance times the conversion factor. *)
Theorem g_parse_matrix_response_shape {num : Type} (zero : num) (mul : num -> num -> num)
    (factor : num) (r0 : list (num * num)) (rest : list (list (num * num))) :
  let response :=
    Some (map (fun row => Some (map (fun v => mk_g_entry (Some (Some (fst v)))
                                                        (Some (Some (snd v)))) row))
              (r0 :: rest)) in
  g_parse_matrix_response zero mul factor None =
    inl (InvalidResponseFormat "Invalid response format: 'rows' not found") /\
  g_parse_matrix_response zero mul factor (Some []) =
    inl (InvalidResponseFormat "No rows in response") /\
  ((exists r, In r (r0 :: rest) /\ length r <> length r0) ->
     g_parse_matrix_response zero mul factor response = inl ValueError) /\
  (Forall (fun r => length r = length r0) (r0 :: rest) ->
     exists tm dm,
       g_parse_matrix_response zero mul factor response = inr (tm, dm) /\
       a_rows tm = length (r0 :: rest) /\ a_cols tm = length r0 /\
       a_rows dm = length (r0 :: rest) /\ a_cols dm = length r0 /\
       (forall i j row v, nth_error (r0 :: rest) i = Some row -> nth_error row j = Some v ->
          a_at tm i j = fst v /\ a_at dm i j = mul (snd v) factor)).
Proof.
  intros response. split; [reflexivity|]. split; [reflexivity|]. split.
  - intros [r [Hin Hne]].
    assert (Hp : g_parse_matrix_response zero mul factor response =
                 let? parsed := emap (g_parse_row mul factor)
                   (map (fun row => Some (map (fun v => mk_g_entry (Some (Some (fst v)))
                                                       (Some (Some (snd v)))) row))
                        (r0 :: rest)) in
                 let? time_matrix := np_array zero (map fst parsed) in
                 let? distance_matrix := np_array zero (map snd parsed) in
                 inr (time_matrix, distance_matrix)) by reflexivity.
    rewrite Hp, g_parse_rows_ok. cbn [ebind]. rewrite !map_map. cbn [map fst snd].
    change (map (fun x : list (num * num) => map fst x) rest) with (map (map fst) rest).
    rewrite np_array_ragged; [reflexivity|].
    exists (map fst r). split.
    + change (map fst r0 :: map (map fst) rest) with (map (map fst) (r0 :: rest)).
      apply in_map. exact Hin.
    + rewrite !length_map. exact Hne.
  - exact (g_parse_matrix_uniform zero mul factor r0 rest).
Qed.

Lemma nth_error_skipn_add {X : Type} (n i : nat) (l : list X) :
  nth_error (skipn n l) i = nth_error l (n + i).
Proof.
  revert l; induction n as [|n IH]; intros l; [reflexivity|].
  destruct l as [|x l]; simpl; [destruct i; reflexivity|]. apply IH.
Qed.

Lemma py_clip_in (n s : Z) : 0 <= s <= n -> py_clip n s = s.
Proof. intros H. unfold py_clip. destruct (Z.ltb_spec s 0); lia. Qed.

Lemma py_list_slice_in {X : Type} (s e : Z) (l : list X) :
  0 <= s <= e -> e <= Z.of_nat (length l) ->
  length (py_list_slice s e l) = Z.to_nat (e - s) /\
  forall k, (k < Z.to_nat (e - s))%nat ->
    nth_error (py_list_slice s e l) k = nth_error l (Z.to_nat s + k).
Proof.
  intros H1 H2. unfold py_list_slice. rewrite !py_clip_in by lia. split.
  - rewrite length_firstn, length_skipn. lia.
  - intros k Hk. rewrite nth_error_firstn.
    destruct (Nat.ltb_spec k (Z.to_nat (e - s))); [|lia].
    apply nth_error_skipn_add.
Qed.

Lemma setitem_block_exact {num : Type} (a v : @array2 num) (sr er sc ec : Z) :
  0 <= sr <= er -> er <= Z.of_nat (a_rows a) ->
  0 <= sc <= ec -> ec <= Z.of_nat (a_cols a) ->
  a_rows v = Z.to_nat (er - sr) -> a_cols v = Z.to_nat (ec - sc) ->
  exists a', setitem_block a sr er sc ec v = inr a' /\
    a_rows a' = a_rows a /\ a_cols a' = a_cols a /\
    forall i j, a_at a' i j =
      if in_rect (mk_rect sr er sc ec) (Z.of_nat i) (Z.of_nat j)
      then a_at v (Z.to_nat (Z.of_nat i - sr)) (Z.to_nat (Z.of_nat j - sc))
      else a_at a i j.
Proof.
  intros H1 H2 H3 H4 Hr Hc. unfold setitem_block. rewrite !py_clip_in by lia.
  replace (Z.of_nat (a_rows v) =? Z.max 0 (er - sr)) with true
    by (symmetry; apply Z.eqb_eq; lia).
  replace (Z.of_nat (a_cols v) =? Z.max 0 (ec - sc)) with true
    by (symmetry; apply Z.eqb_eq; lia).
  simpl. eexists. split; [reflexivity|]. split; [reflexivity|]. split; [reflexivity|].
  intros i j. simpl. unfold in_rect; simpl.
  destruct ((sr <=? Z.of_nat i) && (Z.of_nat i <? er) && (sc <=? Z.of_nat j) &&
            (Z.of_nat j <? ec)) eqn:E; [|reflexivity].
  repeat rewrite andb_true_iff in E. rewrite !Z.leb_le, !Z.ltb_lt in E.
  f_equal.
  - destruct (Nat.eqb_spec (a_rows v) 1); [lia|reflexivity].
  - destruct (Nat.eqb_spec (a_cols v) 1); [lia|reflexivity].
Qed.

Lemma existsb_cover (l : list rect) (r c : Z) :
  existsb (fun q => in_rect q r c) l = negb (Nat.eqb (cover_count l r c) 0).
Proof.
  induction l as [|q l IH]; [reflexivity|].
  unfold cover_count in *; simpl. destruct (in_rect q r c); simpl; [reflexivity|exact IH].
Qed.

Lemma tile_within (l : list rect) (q0 x : rect) :
  tiles l q0 -> In x l -> 0 < dimension_1 x -> 0 < dimension_2 x ->
  start_row q0 <= start_row x /\ end_row x <= end_row q0 /\
  start_col q0 <= start_col x /\ end_col x <= end_col q0.
Proof.
  intros Ht Hin H1 H2.
  assert (Hc : forall r c, in_rect x r c = true -> in_rect q0 r c = true).
  { intros r c Hx. specialize (Ht r c).
    destruct (in_rect q0 r c); [reflexivity|].
    assert (In x (filter (fun q => in_rect q r c) l)) by (apply filter_In; auto).
    unfold cover_count in Ht. destruct (filter (fun q => in_rect q r c) l);
      [contradiction|discriminate]. }
  unfold dimension_1, dimension_2 in *.
  pose proof (Hc (start_row x) (start_col x)) as Ha.
  pose proof (Hc (end_row x - 1) (end_col x - 1)) as Hb.
  unfold in_rect in Ha, Hb.
  rewrite !andb_true_iff, !Z.leb_le, !Z.ltb_lt in Ha, Hb.
  specialize (Ha ltac:(lia)). specialize (Hb ltac:(lia)). lia.
Qed.

Lemma g_parse_ideal {num A : Type} (zero : num) (mul : num -> num -> num) (factor : num)
    (T D : A -> A -> num) (os ds : list A) :
  os <> [] ->
  exists tm dm,
    g_parse_matrix_response zero mul factor
      (Some (map (fun o => Some (map (fun d => mk_g_entry (Some (Some (T o d)))
                                                         (Some (Some (D o d)))) ds)) os)) =
      inr (tm, dm) /\
    a_rows tm = length os /\ a_cols tm = length ds /\
    a_rows dm = length os /\ a_cols dm = length ds /\
    (forall a b o d, nth_error os a = Some o -> nth_error ds b = Some d ->
       a_at tm a b = T o d /\ a_at dm a b = mul (D o d) factor).
Proof.
  intros Hne. destruct os as [|o0 os']; [contradiction|].
  assert (Hr : map (fun o => Some (map (fun d => mk_g_entry (Some (Some (T o d)))
                                                   (Some (Some (D o d)))) ds)) (o0 :: os') =
               map (fun row => Some (map (fun v => mk_g_entry (Some (Some (fst v)))
                                                   (Some (Some (snd v)))) row))
                 (map (fun d => (T o0 d, D o0 d)) ds
                  :: map (fun o => map (fun d => (T o d, D o d)) ds) os')).
  { simpl. f_equal; [rewrite map_map; reflexivity|].
    rewrite map_map. apply map_ext. intros o. rewrite map_map. reflexivity. }
  rewrite Hr.
  destruct (g_parse_matrix_uniform zero mul factor (map (fun d => (T o0 d, D o0 d)) ds)
              (map (fun o => map (fun d => (T o d, D o d)) ds) os'))
    as (tm & dm & Hp & R1 & C1 & R2 & C2 & Hat).
  { constructor; [reflexivity|]. apply Forall_map. apply Forall_forall.
    intros o _. rewrite !length_map. reflexivity. }
  exists tm, dm. split; [exact Hp|].
  simpl in R1, R2. rewrite length_map in C1, C2, R1, R2.
  split; [rewrite R1; reflexivity|]. split; [exact C1|].
  split; [rewrite R2; reflexivity|]. split; [exact C2|].
  intros a b o d Ha Hb.
  apply (Hat a b (map (fun d => (T o d, D o d)) ds) (T o d, D o d)).
  - change (map (fun d => (T o0 d, D o0 d)) ds :: map (fun o => map (fun d => (T o d, D o d)) ds) os')
      with (map (fun o => map (fun d => (T o d, D o d)) ds) (o0 :: os')).
    apply (map_nth_error (fun o => map (fun d => (T o d, D o d)) ds)). exact Ha.
  - apply (map_nth_error (fun d => (T o d, D o d))). exact Hb.
Qed.

Lemma get_matrix_loop_ideal {num A : Type} (zero : num) (mul : num -> num -> num)
    (factor : num) (T D : A -> A -> num)
    (api : list A -> list A -> string -> exn + g_matrix_response)
    (stops : list A) (costing : string) :
  (forall os ds c, api os ds c =
     inr (Some (map (fun o => Some (map (fun d => mk_g_entry (Some (Some (T o d)))
                                                            (Some (Some (D o d)))) ds)) os))) ->
  forall l calls tm dm,
  a_rows tm = length stops -> a_cols tm = length stops ->
  a_rows dm = length stops -> a_cols dm = length stops ->
  Forall (fun q => 0 <= start_row q < end_row q /\ end_row q <= Z.of_nat (length stops) /\
                   0 <= start_col q < end_col q /\ end_col q <= Z.of_nat (length stops)) l ->
  exists tm' dm',
    get_matrix_loop zero mul api factor stops costing l calls tm dm =
      (calls ++ map (fun q => (py_list_slice (start_row q) (end_row q) stops,
                               py_list_slice (start_col q) (end_col q) stops, costing)) l,
       inr (tm', dm')) /\
    a_rows tm' = length stops /\ a_cols tm' = length stops /\
    a_rows dm' = length stops /\ a_cols dm' = length stops /\
    (forall i j si sj, nth_error stops i = Some si -> nth_error stops j = Some sj ->
       a_at tm' i j = (if existsb (fun q => in_rect q (Z.of_nat i) (Z.of_nat j)) l
                       then T si sj else a_at tm i j) /\
       a_at dm' i j = (if existsb (fun q => in_rect q (Z.of_nat i) (Z.of_nat j)) l
                       then mul (D si sj) factor else a_at dm i j)).
Proof.
  intros Hapi l. induction l as [|q l IH]; intros calls tm dm R1 C1 R2 C2 Hb.
  - exists tm, dm. rewrite app_nil_r.
    split; [reflexivity|]. repeat (split; [assumption|]). intros; split; reflexivity.
  - inversion Hb as [|? ? Hq Hl]; subst. clear Hb.
    destruct q as [sr er sc ec]. simpl in Hq. destruct Hq as (Hr1 & Hr2 & Hc1 & Hc2).
    set (os := py_list_slice sr er stops).
    set (ds := py_list_slice sc ec stops).
    destruct (py_list_slice_in sr er stops ltac:(lia) Hr2) as [Los Nos].
    destruct (py_list_slice_in sc ec stops ltac:(lia) Hc2) as [Lds Nds].
    fold os in Los, Nos. fold ds in Lds, Nds.
    assert (Hne : os <> []) by (intros E; rewrite E in Los; simpl in Los; lia).
    destruct (g_parse_ideal zero mul factor T D os ds Hne)
      as (mt & md & Hp & Rt & Ct & Rd & Cd & Hat).
    destruct (setitem_block_exact tm mt sr er sc ec) as (tm1 & Hs1 & R1' & C1' & At1);
      try lia.
    destruct (setitem_block_exact dm md sr er sc ec) as (dm1 & Hs2 & R2' & C2' & At2);
      try lia.
    destruct (IH (calls ++ [(os, ds, costing)]) tm1 dm1 ltac:(congruence) ltac:(congruence)
                ltac:(congruence) ltac:(congruence) Hl)
      as (tm' & dm' & Hloop & R & C & R' & C' & Hat').
    exists tm', dm'. split.
    + cbn [get_matrix_loop start_row end_row start_col end_col]. fold os ds.
      rewrite Hapi. cbn [ebind]. rewrite Hp. cbn [ebind fst snd]. rewrite Hs1. cbn [ebind].
      rewrite Hs2. cbn [ebind]. rewrite Hloop, <- app_assoc. reflexivity.
    + split; [exact R|]. split; [exact C|]. split; [exact R'|]. split; [exact C'|].
      intros i j si sj Hi Hj. destruct (Hat' i j si sj Hi Hj) as [E1 E2].
      rewrite E1, E2, At1, At2. simpl existsb.
      destruct (in_rect (mk_rect sr er sc ec) (Z.of_nat i) (Z.of_nat j)) eqn:Eq;
        [|simpl; split; reflexivity].
      destruct (existsb (fun q => in_rect q (Z.of_nat i) (Z.of_nat j)) l);
        [split; reflexivity|].
      simpl. unfold in_rect in Eq. simpl in Eq.
      rewrite !andb_true_iff, !Z.leb_le, !Z.ltb_lt in Eq.
      apply Hat.
      * rewrite Nos by lia. rewrite <- Hi. f_equal. lia.
      * rewrite Nds by lia. rewrite <- Hj. f_equal. lia.
Qed.

(** [GoogleMaps.get_matrix] with [max_matrix_elements >= 1] on a
    non-empty list of [n] stops, against a distance-matrix service that
    answers each call with one row per origin and one element per
    destination (durations [T], distances [D]): the service is called once
    per rectangle of [slice_matrix(0, n, 0, n, max_matrix_elements)], in
    that order, with that rectangle's origin and destination stops and the
    given mode; every call has at least one origin, at least one
    destination and at most [max_matrix_elements] pairs; the returned
    arrays are [n] by [n] and hold at [(i, j)] the duration from stop [i]
    to stop [j] and the distance times the conversion factor. *)
Theorem google_get_matrix_assembles {num A : Type} (zero : num) (mul : num -> num -> num)
    (factor : num) (T D : A -> A -> num)
    (api : list A -> list A -> string -> exn + g_matrix_response)
    (max_matrix_elements : Z) (stops : list A) (costing : string) :
  (forall os ds c, api os ds c =
     inr (Some (map (fun o => Some (map (fun d => mk_g_entry (Some (Some (T o d)))
                                                            (Some (Some (D o d)))) ds)) os))) ->
  1 <= max_matrix_elements -> stops <> [] ->
  let n := Z.of_nat (length stops) in
  exists l tm dm,
    slice_matrix_rel (mk_rect 0 n 0 n) max_matrix_elements l /\
    get_matrix zero mul api factor max_matrix_elements stops costing =
      (map (fun q => (py_list_slice (start_row q) (end_row q) stops,
                      py_list_slice (start_col q) (end_col q) stops, costing)) l,
       inr (tm, dm)) /\
    Forall (fun call => (1 <= length (fst (fst call)))%nat /\
                        (1 <= length (snd (fst call)))%nat /\
                        Z.of_nat (length (fst (fst call)) * length (snd (fst call)))
                          <= max_matrix_elements)
      (map (fun q => (py_list_slice (start_row q) (end_row q) stops,
                      py_list_slice (start_col q) (end_col q) stops, costing)) l) /\
    a_rows tm = length stops /\ a_cols tm = length stops /\
    a_rows dm = length stops /\ a_cols dm = length stops /\
    (forall i j si sj, nth_error stops i = Some si -> nth_error stops j = Some sj ->
       a_at tm i j = T si sj /\ a_at dm i j = mul (D si sj) factor).
Proof.
  intros Hapi Hm Hne n.
  assert (Hn : 1 <= n) by (unfold n; destruct stops; [contradiction|simpl; lia]).
  set (q := mk_rect 0 n 0 n).
  assert (H1 : 0 <= dimension_1 q) by (unfold q, dimension_1; simpl; lia).
  assert (H2 : 0 <= dimension_2 q) by (unfold q, dimension_2; simpl; lia).
  destruct (slice_fuel_complete (S (Z.to_nat (n * n))) q max_matrix_elements Hm H1 H2)
    as [l Hl].
  { unfold q, elements, dimension_1, dimension_2; simpl (start_row _).
    rewrite Nat2Z.inj_succ, Z2Nat.id by nia. simpl. lia. }
  pose proof (slice_fuel_sound _ _ _ _ Hl) as Hrel.
  pose proof (slice_rel_tiles _ _ _ Hrel H1 H2) as Ht.
  pose proof (slice_rel_bounded _ _ _ Hrel) as Hbd.
  pose proof (slice_rel_nonempty _ _ _ Hrel Hm
                ltac:(unfold q, dimension_1; simpl; lia)
                ltac:(unfold q, dimension_2; simpl; lia)) as Hnz.
  assert (Hin : Forall (fun x => 0 <= start_row x < end_row x /\
                                 end_row x <= Z.of_nat (length stops) /\
                                 0 <= start_col x < end_col x /\
                                 end_col x <= Z.of_nat (length stops)) l).
  { apply Forall_forall. intros x Hx.
    rewrite Forall_forall in Hnz. destruct (Hnz x Hx) as [D1 D2].
    destruct (tile_within l q x Ht Hx D1 D2) as (W1 & W2 & W3 & W4).
    unfold q, dimension_1, dimension_2 in *; simpl in *. fold n. lia. }
  destruct (get_matrix_loop_ideal zero mul factor T D api stops costing Hapi l []
              (zeros zero (length stops) (length stops)) (zeros zero (length stops) (length stops))
              eq_refl eq_refl eq_refl eq_refl Hin)
    as (tm & dm & Hloop & R1 & C1 & R2 & C2 & Hat).
  exists l, tm, dm. split; [exact Hrel|]. split.
  { unfold get_matrix. fold n. unfold slice_matrix. fold q. rewrite Hl. exact Hloop. }
  split.
  { apply Forall_map. apply Forall_forall. intros x Hx.
    rewrite Forall_forall in Hin, Hbd.
    destruct (Hin x Hx) as (B1 & B2 & B3 & B4). specialize (Hbd x Hx).
    destruct (py_list_slice_in (start_row x) (end_row x) stops ltac:(lia) B2) as [L1 _].
    destruct (py_list_slice_in (start_col x) (end_col x) stops ltac:(lia) B4) as [L2 _].
    simpl. rewrite L1, L2. unfold elements, dimension_1, dimension_2 in Hbd.
    rewrite Nat2Z.inj_mul, !Z2Nat.id by lia. lia. }
  split; [exact R1|]. split; [exact C1|]. split; [exact R2|]. split; [exact C2|].
  intros i j si sj Hi Hj.
  destruct (Hat i j si sj Hi Hj) as [E1 E2]. rewrite E1, E2.
  assert (Hcov : existsb (fun x => in_rect x (Z.of_nat i) (Z.of_nat j)) l = true).
  { rewrite existsb_cover, (Ht (Z.of_nat i) (Z.of_nat j)).
    assert (Hi' : (i < length stops)%nat) by (apply nth_error_Some; rewrite Hi; discriminate).
    assert (Hj' : (j < length stops)%nat) by (apply nth_error_Some; rewrite Hj; discriminate).
    unfold q, in_rect; simpl.
    replace (0 <=? Z.of_nat i) with true by (symmetry; apply Z.leb_le; lia).
    replace (Z.of_nat i <? n) with true by (symmetry; apply Z.ltb_lt; unfold n; lia).
    replace (0 <=? Z.of_nat j) with true by (symmetry; apply Z.leb_le; lia).
    replace (Z.of_nat j <? n) with true by (symmetry; apply Z.ltb_lt; unfold n; lia).
    reflexivity. }
  rewrite Hcov. split; reflexivity.
Qed.

Lemma google_get_matrix_assembles_witness :
  ((forall os ds c, ClientExamples.matrix_service os ds c =
     inr (Some (map (fun o => Some (map (fun d =>
            mk_g_entry (Some (Some (ClientExamples.matrix_duration o d)))
                       (Some (Some (ClientExamples.matrix_distance o d)))) ds)) os))) /\
   1 <= 2 /\ [1; 2; 3] <> []) /\
  let stops := [1; 2; 3] in
  let n := Z.of_nat (length stops) in
  exists l tm dm,
    slice_matrix_rel (mk_rect 0 n 0 n) 2 l /\
    get_matrix 0 Z.mul ClientExamples.matrix_service 1 2 stops "driving" =
      (map (fun q => (py_list_slice (start_row q) (end_row q) stops,
                      py_list_slice (start_col q) (end_col q) stops, "driving"%string)) l,
       inr (tm, dm)) /\
    Forall (fun call => (1 <= length (fst (fst call)))%nat /\
                        (1 <= length (snd (fst call)))%nat /\
                        Z.of_nat (length (fst (fst call)) * length (snd (fst call))) <= 2)
      (map (fun q => (py_list_slice (start_row q) (end_row q) stops,
                      py_list_slice (start_col q) (end_col q) stops, "driving"%string)) l) /\
    a_rows tm = length stops /\ a_cols tm = length stops /\
    a_rows dm = length stops /\ a_cols dm = length stops /\
    (forall i j si sj, nth_error stops i = Some si -> nth_error stops j = Some sj ->
       a_at tm i j = ClientExamples.matrix_duration si sj /\
       a_at dm i j = Z.mul (ClientExamples.matrix_distance si sj) 1).
Proof.
  split; [split; [intros; reflexivity|split; [lia|discriminate]]|].
  exact (google_get_matrix_assembles 0 Z.mul 1 ClientExamples.matrix_duration
           ClientExamples.matrix_distance ClientExamples.matrix_service 2 [1; 2; 3] "driving"
           (fun os ds c => eq_refl) ltac:(lia) ltac:(discriminate)).
Defined.

(** [GoogleMaps.get_matrix] on no stops does not return early: with
    [max_matrix_elements >= 0] it still calls the service once, with no
    origins and no destinations, and fails with "No rows in response" if
    the service answers with an empty list of rows; with a negative
    [max_matrix_elements] the recursion of [slice_matrix] on the empty
    matrix never ends ([RecursionError]) and no call is made. *)
Theorem google_get_matrix_no_stops {num A : Type} (zero : num) (mul : num -> num -> num)
    (factor : num) (api : list A -> list A -> string -> exn + g_matrix_response)
    (max_matrix_elements : Z) (costing : string) :
  (max_matrix_elements < 0 ->
     get_matrix zero mul api factor max_matrix_elements [] costing = ([], inl RecursionError)) /\
  (0 <= max_matrix_elements ->
     fst (get_matrix zero mul api factor max_matrix_elements [] costing) = [([], [], costing)] /\
     (api [] [] costing = inr (Some []) ->
        snd (get_matrix zero mul api factor max_matrix_elements [] costing) =
          inl (InvalidResponseFormat "No rows in response"))).
Proof.
  unfold get_matrix, slice_matrix. simpl. unfold elements, dimension_1, dimension_2. simpl.
  destruct (Z.leb_spec 0 max_matrix_elements) as [Hle|Hlt]; simpl.
  - change (py_list_slice 0 0 (@nil A)) with (@nil A).
    split; [intros; lia|]. intros _. split.
    + match goal with |- fst (match ?x with _ => _ end) = _ =>
        destruct x as [e|[tm dm]] end; reflexivity.
    + intros Ha. rewrite Ha. reflexivity.
  - split; [reflexivity|]. intros; lia.
Qed.

Lemma v_parse_legs_ok {num : Type} (mul : num -> num -> num)
    (decode : string -> exn + list (num * num)) (factor : num)
    (vals : list (string * list (num * num) * num * num)) :
  (forall s cs t l, In (s, cs, t, l) vals -> decode s = inr cs) ->
  v_parse_legs mul decode factor
    (map (fun v => match v with
                   | (s, _, t, l) => mk_v_leg (Some s) (Some (mk_v_summary (Some t) (Some l)))
                   end) vals) =
  inr (flat_map (fun v => match v with (_, cs, _, _) => cs end) vals,
       map (fun v => match v with (_, _, t, _) => t end) vals,
       map (fun v => match v with (_, _, _, l) => mul l factor end) vals).
Proof.
  induction vals as [|[[[s cs] t] l] vals IH]; intros Hd; [reflexivity|].
  simpl. rewrite (Hd s cs t l (or_introl eq_refl)). simpl.
  rewrite IH by (intros; eapply Hd; right; eassumption). reflexivity.
Qed.

Lemma v_parse_legs_error {num : Type} (mul : num -> num -> num)
    (decode : string -> exn + list (num * num)) (factor : num)
    (pre post : list v_leg) (leg : v_leg) (e : exn) :
  Forall (fun l => exists r, v_parse_legs mul decode factor [l] = inr r) pre ->
  v_parse_legs mul decode factor [leg] = inl e ->
  v_parse_legs mul decode factor (pre ++ leg :: post) = inl e.
Proof.
  intros Hpre Hleg. induction Hpre as [|l pre [r Hr] _ IH]; simpl.
  - revert Hleg. simpl.
    destruct (get "shape" (shape leg)) as [e'|s]; simpl; [auto|].
    destruct (decode s) as [e'|cs]; simpl; [auto|].
    destruct (get "summary" (summary leg)) as [e'|sm]; simpl; [auto|].
    destruct (get "time" (s_time sm)) as [e'|t]; simpl; [auto|].
    destruct (get "length" (s_length sm)) as [e'|ln]; simpl; [auto|].
    discriminate.
  - revert Hr. simpl.
    destruct (get "shape" (shape l)) as [e'|s]; simpl; [discriminate|].
    destruct (decode s) as [e'|cs]; simpl; [discriminate|].
    destruct (get "summary" (summary l)) as [e'|sm]; simpl; [discriminate|].
    destruct (get "time" (s_time sm)) as [e'|t]; simpl; [discriminate|].
    destruct (get "length" (s_length sm)) as [e'|ln]; simpl; [discriminate|].
    intros _. rewrite IH. reflexivity.
Qed.

(** [ValhallaClient._parse_route_response]: a response that is not a
    dictionary, or lacks ["trip"] or ["legs"], or whose ["legs"] is not a
    list, is rejected with its message; when every leg has a shape that
    decodes and a summary with a time and a length, the route has the
    decoded shapes concatenated in leg order, one time and one length
    (times the conversion factor) per leg, and is rejected only for a NaN;
    in particular a trip with no legs gives the empty route.  The first leg
    without a summary, after well-formed legs, gives
    [InvalidResponseFormat("'summary'")]. *)
Theorem v_parse_route_response_legs {num : Type} (mul : num -> num -> num)
    (is_nan : num -> bool) (decode : string -> exn + list (num * num)) (factor : num) :
  v_parse_route_response mul is_nan decode factor NotDict =
    inl (InvalidResponseFormat "Response is not a dictionary.") /\
  v_parse_route_response mul is_nan decode factor (Dict (mk_v_route_response None)) =
    inl (InvalidResponseFormat "'trip' key not found.") /\
  v_parse_route_response mul is_nan decode factor
    (Dict (mk_v_route_response (Some (mk_v_trip None)))) =
    inl (InvalidResponseFormat "'legs' key not found.") /\
  v_parse_route_response mul is_nan decode factor
    (Dict (mk_v_route_response (Some (mk_v_trip (Some NotList))))) =
    inl (InvalidResponseFormat "'legs' key is not a list.") /\
  v_parse_route_response mul is_nan decode factor
    (Dict (mk_v_route_response (Some (mk_v_trip (Some (JList [])))))) =
    inr (mk_route [] [] []) /\
  (forall vals : list (string * list (num * num) * num * num),
     (forall s cs t l, In (s, cs, t, l) vals -> decode s = inr cs) ->
     let times := map (fun v => match v with (_, _, t, _) => t end) vals in
     let distances := map (fun v => match v with (_, _, _, l) => mul l factor end) vals in
     v_parse_route_response mul is_nan decode factor
       (Dict (mk_v_route_response (Some (mk_v_trip (Some (JList
          (map (fun v => match v with
                         | (s, _, t, l) => mk_v_leg (Some s) (Some (mk_v_summary (Some t) (Some l)))
                         end) vals))))))) =
       if existsb is_nan times || existsb is_nan distances then inl ValidationError
       else inr (mk_route (flat_map (fun v => match v with (_, cs, _, _) => cs end) vals)
                          times distances)) /\
  (forall pre post s cs,
     Forall (fun l => exists r, v_parse_legs mul decode factor [l] = inr r) pre ->
     decode s = inr cs ->
     v_parse_route_response mul is_nan decode factor
       (Dict (mk_v_route_response (Some (mk_v_trip (Some (JList
          (pre ++ mk_v_leg (Some s) None :: post))))))) =
       inl (InvalidResponseFormat "'summary'")).
Proof.
  do 5 (split; [reflexivity|]). split.
  - intros vals Hd times distances. simpl.
    rewrite (v_parse_legs_ok mul decode factor vals Hd). simpl.
    unfold CartographyRoute. fold times distances.
    unfold times, distances. rewrite !length_map, Nat.eqb_refl. reflexivity.
  - intros pre post s cs Hpre Hs. simpl.
    rewrite (v_parse_legs_error mul decode factor pre post _ (KeyError "summary") Hpre);
      [reflexivity|].
    simpl. rewrite Hs. reflexivity.
Qed.

Lemma setitem_ok {num : Type} (a : @array2 num) (i j : nat) (v : num) :
  (i < a_rows a)%nat -> (j < a_cols a)%nat ->
  setitem a i j v = inr (mk_array2 (a_rows a) (a_cols a) (fun i' j' =>
    if Nat.eqb i' i && Nat.eqb j' j then v else a_at a i' j')).
Proof.
  intros Hi Hj. unfold setitem.
  replace (Nat.ltb i (a_rows a)) with true by (symmetry; apply Nat.ltb_lt; exact Hi).
  replace (Nat.ltb j (a_cols a)) with true by (symmetry; apply Nat.ltb_lt; exact Hj).
  reflexivity.
Qed.

Section ValhallaMatrix.

Context {num : Type}.
Variables (zero : num) (mul : num -> num -> num) (is_nan : num -> bool)
  (decode : string -> exn + list (num * num)) (valid_coordinate : num -> num -> bool)
  (route_api : @v_request num -> exn + json (@v_route_response num)) (factor : num).

(** The sources and targets of the response, by their coordinates. *)
Variables Ss Ts : list (num * num).

(** What the route service answers for a pair of stops: the first
    distance and the first time of the route. *)
Variables RD RT : num * num -> num * num -> num.

Hypothesis Hvalid : Forall (fun p => valid_coordinate (fst p) (snd p) = true) (Ss ++ Ts).

Hypothesis Hroute : forall a b, exists rt,
  snd (v_get_route mul is_nan decode route_api factor [a; b] "bus") = inr rt /\
  hd_error (r_distances rt) = Some (RD a b) /\ hd_error (r_times rt) = Some (RT a b).

Local Abbreviation locs P := (map (fun p => mk_v_location (Some (fst p)) (Some (snd p))) P).

Local Abbreviation direct td :=
  (match t_distance td, t_time td with Val _, Val _ => true | _, _ => false end).

Local Abbreviation dval td i j :=
  (match t_distance td, t_time td with
   | Val d, Val _ => mul d factor
   | _, _ => RD (nth i Ss (zero, zero)) (nth j Ts (zero, zero))
   end).

Local Abbreviation tval td i j :=
  (match t_distance td, t_time td with
   | Val _, Val t => t
   | _, _ => RT (nth i Ss (zero, zero)) (nth j Ts (zero, zero))
   end).

Local Abbreviation req i j :=
  (Cartography.mk_valhalla_request (num * num)
     [nth i Ss (zero, zero); nth j Ts (zero, zero)] "bus").

Local Abbreviation well_formed td :=
  (t_distance td <> Missing /\ (forall d, t_distance td = Val d -> t_time td <> Missing)).

Lemma locs_coordinate (P : list (num * num)) (i : nat) :
  (i < length P)%nat -> Forall (fun p => valid_coordinate (fst p) (snd p) = true) P ->
  (let? s := lookup (locs P) i in coordinate_of valid_coordinate s) =
  inr (nth i P (zero, zero)).
Proof.
  intros Hi Hv. unfold lookup.
  rewrite (map_nth_error _ i P (nth_error_nth' P (zero, zero) Hi)). simpl.
  unfold coordinate_of. simpl.
  rewrite Forall_forall in Hv. rewrite (Hv _ (nth_In P (zero, zero) Hi)).
  destruct (nth i P (zero, zero)); reflexivity.
Qed.

Lemma v_cell_ok (i j : nat) (td : v_target) (dm tm : array2) :
  (i < length Ss)%nat -> (j < length Ts)%nat ->
  a_rows dm = length Ss -> a_cols dm = length Ts ->
  a_rows tm = length Ss -> a_cols tm = length Ts ->
  well_formed td ->
  exists dm' tm',
    v_cell mul is_nan decode valid_coordinate route_api factor (locs Ss) (locs Ts) i j td dm tm =
      (if direct td then [] else [req i j], inr (dm', tm')) /\
    a_rows dm' = length Ss /\ a_cols dm' = length Ts /\
    a_rows tm' = length Ss /\ a_cols tm' = length Ts /\
    (forall i' j',
       a_at dm' i' j' = (if Nat.eqb i' i && Nat.eqb j' j then dval td i j else a_at dm i' j') /\
       a_at tm' i' j' = (if Nat.eqb i' i && Nat.eqb j' j then tval td i j else a_at tm i' j')).
Proof.
  intros Hi Hj R1 C1 R2 C2 [Hd Ht].
  assert (HvS : Forall (fun p => valid_coordinate (fst p) (snd p) = true) Ss)
    by (apply Forall_app in Hvalid; tauto).
  assert (HvT : Forall (fun p => valid_coordinate (fst p) (snd p) = true) Ts)
    by (apply Forall_app in Hvalid; tauto).
  assert (Hfb :
    exists dm' tm',
      (match
         let? s := lookup (locs Ss) i in
         let? start := coordinate_of valid_coordinate s in
         let? t := lookup (locs Ts) j in
         let? end_ := coordinate_of valid_coordinate t in
         inr [start; end_]
       with
       | inl e => ([], inl e)
       | inr stops =>
           let (calls, r) := v_get_route mul is_nan decode route_api factor stops "bus" in
           (calls,
             let? rt := r in
             let? d0 := lookup (r_distances rt) 0 in
             let? dm' := setitem dm i j d0 in
             let? t0 := lookup (r_times rt) 0 in
             let? tm' := setitem tm i j t0 in
             inr (dm', tm'))
       end) = ([req i j], inr (dm', tm')) /\
      a_rows dm' = length Ss /\ a_cols dm' = length Ts /\
      a_rows tm' = length Ss /\ a_cols tm' = length Ts /\
      (forall i' j',
         a_at dm' i' j' = (if Nat.eqb i' i && Nat.eqb j' j
                           then RD (nth i Ss (zero, zero)) (nth j Ts (zero, zero))
                           else a_at dm i' j') /\
         a_at tm' i' j' = (if Nat.eqb i' i && Nat.eqb j' j
                           then RT (nth i Ss (zero, zero)) (nth j Ts (zero, zero))
                           else a_at tm i' j'))).
  { pose proof (locs_coordinate Ss i Hi HvS) as Es.
    pose proof (locs_coordinate Ts j Hj HvT) as Et.
    destruct (lookup (locs Ss) i) as [e|s]; [discriminate|]. simpl in Es |- *. rewrite Es.
    simpl. destruct (lookup (locs Ts) j) as [e|t]; [discriminate|]. simpl in Et |- *.
    rewrite Et. simpl.
    destruct (Hroute (nth i Ss (zero, zero)) (nth j Ts (zero, zero))) as (rt & Hr & Hd0 & Ht0).
    unfold v_get_route in Hr |- *. simpl in Hr |- *. rewrite Hr. simpl.
    unfold lookup. destruct (r_distances rt) as [|d0 ds]; [discriminate|].
    destruct (r_times rt) as [|t0 ts]; [discriminate|].
    simpl in Hd0, Ht0. injection Hd0 as <-. injection Ht0 as <-. simpl.
    rewrite setitem_ok by lia. simpl. rewrite setitem_ok by lia. simpl.
    eexists _, _. split; [reflexivity|]. simpl.
    split; [exact R1|]. split; [exact C1|]. split; [exact R2|]. split; [exact C2|].
    intros; split; reflexivity. }
  unfold v_cell.
  destruct (t_distance td) as [| |d] eqn:Ed; [contradiction| |].
  - exact Hfb.
  - destruct (t_time td) as [| |t] eqn:Et; [exfalso; exact (Ht d eq_refl eq_refl)| |].
    + exact Hfb.
    + rewrite setitem_ok by lia. simpl. rewrite setitem_ok by lia. simpl.
      eexists _, _. split; [reflexivity|]. simpl.
      split; [exact R1|]. split; [exact C1|]. split; [exact R2|]. split; [exact C2|].
      intros; split; reflexivity.
Qed.


Lemma v_row_ok (i j0 : nat) (row : list v_target) (dm tm : array2) :
  (i < length Ss)%nat -> (j0 + length row <= length Ts)%nat ->
  a_rows dm = length Ss -> a_cols dm = length Ts ->
  a_rows tm = length Ss -> a_cols tm = length Ts ->
  Forall (fun td => well_formed td) row ->
  exists dm' tm',
    v_row mul is_nan decode valid_coordinate route_api factor (locs Ss) (locs Ts) i j0 row dm tm =
      (flat_map (fun p => if direct (snd p) then [] else [req i (fst p)])
         (combine (seq j0 (length row)) row), inr (dm', tm')) /\
    a_rows dm' = length Ss /\ a_cols dm' = length Ts /\
    a_rows tm' = length Ss /\ a_cols tm' = length Ts /\
    (forall i' j',
       a_at dm' i' j' =
         match (if Nat.eqb i' i && Nat.leb j0 j' then nth_error row (j' - j0) else None) with
         | Some td => dval td i j'
         | None => a_at dm i' j'
         end /\
       a_at tm' i' j' =
         match (if Nat.eqb i' i && Nat.leb j0 j' then nth_error row (j' - j0) else None) with
         | Some td => tval td i j'
         | None => a_at tm i' j'
         end).
Proof.
  revert j0 dm tm.
  induction row as [|td rest IH]; intros j0 dm tm Hi Hj R1 C1 R2 C2 Hwf.
  - exists dm, tm. split; [reflexivity|]. do 4 (split; [assumption|]).
    intros i' j'. destruct (Nat.eqb i' i && Nat.leb j0 j');
      [destruct (j' - j0)%nat|]; split; reflexivity.
  - inversion Hwf as [|? ? Htd Hrest]; subst. simpl length in Hj.
    destruct (v_cell_ok i j0 td dm tm Hi ltac:(lia) R1 C1 R2 C2 Htd)
      as (dm1 & tm1 & Hc & R1' & C1' & R2' & C2' & Hat1).
    destruct (IH (S j0) dm1 tm1 Hi ltac:(lia) R1' C1' R2' C2' Hrest)
      as (dm2 & tm2 & Hr & R1'' & C1'' & R2'' & C2'' & Hat2).
    exists dm2, tm2. cbn [v_row]. rewrite Hc. rewrite Hr.
    split; [reflexivity|]. do 4 (split; [assumption|]).
    intros i' j'. destruct (Hat2 i' j') as [E1 E2]. rewrite E1, E2.
    destruct (Hat1 i' j') as [F1 F2]. rewrite F1, F2.
    destruct (Nat.eqb_spec i' i) as [->|Hne].
    + cbn [andb].
      destruct (lt_eq_lt_dec j' j0) as [[Hlt| ->]|Hgt].
      * rewrite (proj2 (Nat.leb_gt (S j0) j') ltac:(lia)).
        rewrite (proj2 (Nat.leb_gt j0 j') Hlt).
        rewrite (proj2 (Nat.eqb_neq j' j0) ltac:(lia)). split; reflexivity.
      * rewrite (proj2 (Nat.leb_gt (S j0) j0) ltac:(lia)).
        rewrite Nat.leb_refl, Nat.eqb_refl, Nat.sub_diag. split; reflexivity.
      * rewrite (proj2 (Nat.leb_le (S j0) j') ltac:(lia)).
        rewrite (proj2 (Nat.leb_le j0 j') ltac:(lia)).
        rewrite (proj2 (Nat.eqb_neq j' j0) ltac:(lia)).
        replace (j' - j0)%nat with (S (j' - S j0)) by lia. cbn [nth_error].
        destruct (nth_error rest (j' - S j0)); split; reflexivity.
    + cbn [andb]. split; reflexivity.
Qed.

Lemma v_rows_ok (i0 : nat) (rows : list (list v_target)) (dm tm : array2) :
  (i0 + length rows <= length Ss)%nat ->
  Forall (fun row => length row <= length Ts /\ Forall (fun td => well_formed td) row)%nat rows ->
  a_rows dm = length Ss -> a_cols dm = length Ts ->
  a_rows tm = length Ss -> a_cols tm = length Ts ->
  exists dm' tm',
    v_rows mul is_nan decode valid_coordinate route_api factor (locs Ss) (locs Ts) i0 rows dm tm =
      (flat_map (fun q =>
         flat_map (fun p => if direct (snd p) then [] else [req (fst q) (fst p)])
           (combine (seq 0 (length (snd q))) (snd q)))
         (combine (seq i0 (length rows)) rows), inr (dm', tm')) /\
    a_rows dm' = length Ss /\ a_cols dm' = length Ts /\
    a_rows tm' = length Ss /\ a_cols tm' = length Ts /\
    (forall i' j',
       a_at dm' i' j' =
         match (if Nat.leb i0 i' then nth_error rows (i' - i0) else None) with
         | Some row =>
             match nth_error row j' with
             | Some td => dval td i' j'
             | None => a_at dm i' j'
             end
         | None => a_at dm i' j'
         end /\
       a_at tm' i' j' =
         match (if Nat.leb i0 i' then nth_error rows (i' - i0) else None) with
         | Some row =>
             match nth_error row j' with
             | Some td => tval td i' j'
             | None => a_at tm i' j'
             end
         | None => a_at tm i' j'
         end).
Proof.
  revert i0 dm tm.
  induction rows as [|row rest IH]; intros i0 dm tm Hi Hwf R1 C1 R2 C2.
  - exists dm, tm. split; [reflexivity|]. do 4 (split; [assumption|]).
    intros i' j'. destruct (Nat.leb i0 i'); [destruct (i' - i0)%nat|]; split; reflexivity.
  - inversion Hwf as [|? ? [Hlen Hrow] Hrest]; subst. simpl length in Hi.
    destruct (v_row_ok i0 0 row dm tm ltac:(lia) ltac:(lia) R1 C1 R2 C2 Hrow)
      as (dm1 & tm1 & Hc & R1' & C1' & R2' & C2' & Hat1).
    destruct (IH (S i0) dm1 tm1 ltac:(lia) Hrest R1' C1' R2' C2')
      as (dm2 & tm2 & Hr & R1'' & C1'' & R2'' & C2'' & Hat2).
    exists dm2, tm2. cbn [v_rows]. rewrite Hc. rewrite Hr.
    split; [reflexivity|]. do 4 (split; [assumption|]).
    intros i' j'. destruct (Hat2 i' j') as [E1 E2]. rewrite E1, E2.
    destruct (Hat1 i' j') as [F1 F2]. rewrite Nat.sub_0_r in F1, F2.
    destruct (Nat.leb_spec i0 i') as [Hle|Hlt].
    + destruct (Nat.eq_dec i' i0) as [->|Hne].
      * rewrite (proj2 (Nat.leb_gt (S i0) i0) ltac:(lia)).
        rewrite Nat.sub_diag. simpl. rewrite F1, F2, Nat.eqb_refl. simpl.
        destruct (nth_error row j'); split; reflexivity.
      * rewrite (proj2 (Nat.leb_le (S i0) i') ltac:(lia)).
        replace (i' - i0)%nat with (S (i' - S i0)) by lia. simpl.
        rewrite F1, F2. rewrite (proj2 (Nat.eqb_neq i' i0) Hne). simpl.
        destruct (nth_error rest (i' - S i0)) as [r|];
          [destruct (nth_error r j')|]; split; reflexivity.
    + rewrite (proj2 (Nat.leb_gt (S i0) i') ltac:(lia)).
      rewrite F1, F2. rewrite (proj2 (Nat.eqb_neq i' i0) ltac:(lia)). simpl.
      split; reflexivity.
Qed.


(** [ValhallaClient._parse_matrix_response] on a dictionary whose
    sources and targets are valid coordinates and whose rows fit in the
    matrix, every entry with a ["distance"] key (and a ["time"] key when
    the distance is not null): the result is the pair (time matrix,
    distance matrix) of shape (sources, targets); an entry with both
    values gives its time and its distance times [factor], an entry with
    a null value gives the first time and distance of the ["bus"] route
    between its source and its target, requested once for that entry and
    in row order; cells without an entry stay zero. *)
Theorem v_parse_matrix_response_fallback (rows : list (list v_target)) :
  (length rows <= length Ss)%nat ->
  Forall (fun row => length row <= length Ts /\ Forall (fun td => well_formed td) row)%nat rows ->
  exists tm dm,
    v_parse_matrix_response zero mul is_nan decode valid_coordinate route_api factor
      (Dict (mk_v_matrix_response (Some (locs Ss)) (Some (locs Ts)) (Some (JList rows)))) =
      (flat_map (fun q =>
         flat_map (fun p => if direct (snd p) then [] else [req (fst q) (fst p)])
           (combine (seq 0 (length (snd q))) (snd q)))
         (combine (seq 0 (length rows)) rows), inr (tm, dm)) /\
    a_rows tm = length Ss /\ a_cols tm = length Ts /\
    a_rows dm = length Ss /\ a_cols dm = length Ts /\
    (forall i j,
       a_at tm i j =
         match nth_error rows i with
         | Some row => match nth_error row j with Some td => tval td i j | None => zero end
         | None => zero
         end /\
       a_at dm i j =
         match nth_error rows i with
         | Some row => match nth_error row j with Some td => dval td i j | None => zero end
         | None => zero
         end).
Proof.
  intros Hlen Hrows.
  set (z := zeros zero (length (locs Ss)) (length (locs Ts))).
  assert (Zr : a_rows z = length Ss) by (simpl; apply length_map).
  assert (Zc : a_cols z = length Ts) by (simpl; apply length_map).
  destruct (v_rows_ok 0 rows z z ltac:(lia) Hrows Zr Zc Zr Zc)
    as (dm & tm & Hr & R1 & C1 & R2 & C2 & Hat).
  exists tm, dm. unfold v_parse_matrix_response. cbn [sources targets sources_to_targets].
  fold z. rewrite Hr. split; [reflexivity|].
  do 4 (split; [assumption|]).
  intros i j. destruct (Hat i j) as [E1 E2]. rewrite E1, E2, Nat.sub_0_r.
  cbn [Nat.leb]. split; reflexivity.
Qed.

End ValhallaMatrix.


(** [ValhallaClient._parse_matrix_response] rejects a response that is
    not a dictionary, lacks ["sources"] or ["targets"], or whose
    ["sources_to_targets"] is absent or not a list, each with its own
    message and before any route request; a first entry without
    ["distance"], or with a distance and no ["time"], fails with the key
    between quotes; a first entry with both values but no source row in
    the zero matrix raises [IndexError]; a first entry with a null
    distance whose source has no ["lat"] fails with ['lat'], without any
    route request. *)
Theorem v_parse_matrix_response_errors {num : Type} (zero : num) mul is_nan decode
  valid_coordinate route_api (factor : num) (srcs tgts : list v_location)
  (rows : list (list v_target)) (row : list v_target) (d t : num) (f : field num)
  (lo : option num) :
  let P := v_parse_matrix_response zero mul is_nan decode valid_coordinate route_api factor in
  let resp s t r := Dict (mk_v_matrix_response s t r) in
  P NotDict = ([], inl (InvalidResponseFormat "Response is not a dictionary.")) /\
  (forall o r, P (resp None o r) =
     ([], inl (InvalidResponseFormat "sources' keys not found."))) /\
  (forall r, P (resp (Some srcs) None r) =
     ([], inl (InvalidResponseFormat "'targets' keys not found."))) /\
  P (resp (Some srcs) (Some tgts) None) =
    ([], inl (InvalidResponseFormat "'sources_to_targets' key not found or not a list.")) /\
  P (resp (Some srcs) (Some tgts) (Some NotList)) =
    ([], inl (InvalidResponseFormat "'sources_to_targets' key not found or not a list.")) /\
  P (resp (Some srcs) (Some tgts) (Some (JList ((mk_v_target Missing f :: row) :: rows)))) =
    ([], inl (InvalidResponseFormat "'distance'")) /\
  P (resp (Some srcs) (Some tgts)
       (Some (JList ((mk_v_target (Val d) Missing :: row) :: rows)))) =
    ([], inl (InvalidResponseFormat "'time'")) /\
  P (resp (Some []) (Some tgts)
       (Some (JList ((mk_v_target (Val d) (Val t) :: row) :: rows)))) =
    ([], inl IndexError) /\
  P (resp (Some (mk_v_location None lo :: srcs)) (Some tgts)
       (Some (JList ((mk_v_target Null f :: row) :: rows)))) =
    ([], inl (InvalidResponseFormat "'lat'")).
Proof.
  intros P resp. subst P resp.
  repeat split; reflexivity.
Qed.

Lemma v_parse_matrix_response_fallback_witness :
  let locs P := map (fun p => mk_v_location (Some (fst p)) (Some (snd p))) P in
  let direct (td : @v_target Z) :=
    match t_distance td, t_time td with Val _, Val _ => true | _, _ => false end in
  let S := ClientExamples.matrix_sources in
  let T := ClientExamples.matrix_targets in
  let rows := ClientExamples.matrix_rows in
  (Forall (fun p => (fun _ _ : Z => true) (fst p) (snd p) = true) (S ++ T) /\
   (forall a b, exists rt,
      snd (v_get_route Z.mul (fun _ => false) ClientExamples.origin_decoder
             ClientExamples.one_leg_route 1000 [a; b] "bus") = inr rt /\
      hd_error (r_distances rt) = Some 3000 /\ hd_error (r_times rt) = Some 7) /\
   (length rows <= length S)%nat /\
   Forall (fun row => length row <= length T /\
     Forall (fun td => t_distance td <> Missing /\
       (forall d, t_distance td = Val d -> t_time td <> Missing)) row)%nat rows) /\
  exists tm dm,
    v_parse_matrix_response 0 Z.mul (fun _ => false) ClientExamples.origin_decoder
      (fun _ _ => true) ClientExamples.one_leg_route 1000
      (Dict (mk_v_matrix_response (Some (locs S)) (Some (locs T)) (Some (JList rows)))) =
      (flat_map (fun q =>
         flat_map (fun p => if direct (snd p) then []
                            else [Cartography.mk_valhalla_request (Z * Z)
                                    [nth (fst q) S (0, 0); nth (fst p) T (0, 0)] "bus"])
           (combine (seq 0 (length (snd q))) (snd q)))
         (combine (seq 0 (length rows)) rows), inr (tm, dm)) /\
    a_rows tm = length S /\ a_cols tm = length T /\
    a_rows dm = length S /\ a_cols dm = length T /\
    (forall i j,
       a_at tm i j =
         match nth_error rows i with
         | Some row => match nth_error row j with
             | Some td => match t_distance td, t_time td with
                          | Val _, Val t => t
                          | _, _ => 7 end
             | None => 0 end
         | None => 0
         end /\
       a_at dm i j =
         match nth_error rows i with
         | Some row => match nth_error row j with
             | Some td => match t_distance td, t_time td with
                          | Val d, Val _ => d * 1000
                          | _, _ => 3000 end
             | None => 0 end
         | None => 0
         end).
Proof.
  intros locs direct S T rows.
  assert (Hv : Forall (fun p => (fun _ _ : Z => true) (fst p) (snd p) = true) (S ++ T))
    by (repeat constructor).
  assert (Hr : forall a b, exists rt,
      snd (v_get_route Z.mul (fun _ => false) ClientExamples.origin_decoder
             ClientExamples.one_leg_route 1000 [a; b] "bus") = inr rt /\
      hd_error (r_distances rt) = Some 3000 /\ hd_error (r_times rt) = Some 7)
    by (intros a b; eexists; split; [reflexivity|split; reflexivity]).
  assert (Hl : (length rows <= length S)%nat) by (vm_compute; lia).
  assert (Hw : Forall (fun row => length row <= length T /\
     Forall (fun td => t_distance td <> Missing /\
       (forall d, t_distance td = Val d -> t_time td <> Missing)) row)%nat rows)
    by (repeat constructor; simpl; (lia || discriminate || (intros d Hd; discriminate))).
  split; [tauto|].
  exact (v_parse_matrix_response_fallback 0 Z.mul (fun _ => false)
           ClientExamples.origin_decoder (fun _ _ => true) ClientExamples.one_leg_route
           1000 S T (fun _ _ => 3000) (fun _ _ => 7) Hv Hr rows Hl Hw).
Defined.
